(** * twitch-irc-mcp: message store, Twitch client and MCP tool handlers

    A shallow embedding of [src/lib/messageStore.ts], [src/lib/twitchClient.ts],
    the tools of [src/lib/mcpServer.ts] that send, join, filter and read
    recent messages, [src/utils/logger.ts] and [src/utils/config.ts], with
    the properties of the design document proved (or refuted) on it and
    further properties read off the code.

    Conventions of the embedding:
    - a JavaScript [number] used as a count, an index or a millisecond
      timestamp is a [Z]; a [number] that comes from a caller ([limit],
      [page], [pageSize]) is a [JsNumber.t] in module [AnyNumber], and a [Z]
      where only whole numbers are considered;
    - a [Date] is its time value, or [InvalidDate] when the time value is NaN;
    - a [string] is a Rocq [string]; [toLowerCase] acts on the ASCII letters;
    - a [Map] is an association list in insertion order, a [Set] a
      duplicate-free list in insertion order;
    - a method that mutates [this] takes the object and returns the new one;
    - an awaited transport promise is given by its [Outcome]. *)

From Stdlib Require Import ZArith List String Ascii Bool Lia DecimalString.
From Stdlib Require Import Sorted Permutation.
From Stdlib Require QArith_base.
Import ListNotations.

Local Open Scope string_scope.
Local Open Scope list_scope.
Local Open Scope Z_scope.

(* ===================================================================== *)
(** * JavaScript built-ins used by the sources                            *)
(* ===================================================================== *)

Module Js.

(** [String.prototype.toLowerCase], on the ASCII range. *)
Definition lower_ascii (c : ascii) : ascii :=
  let n := nat_of_ascii c in
  if ((65 <=? n)%nat && (n <=? 90)%nat)%bool then ascii_of_nat (n + 32) else c.

Fixpoint toLowerCase (s : string) : string :=
  match s with
  | EmptyString => EmptyString
  | String c s' => String (lower_ascii c) (toLowerCase s')
  end.

(** [s.startsWith(p)]. *)
Definition startsWith (s p : string) : bool := String.prefix p s.

(** [s.includes(sub)]. *)
Fixpoint includes (s sub : string) : bool :=
  if String.prefix sub s then true
  else match s with
       | EmptyString => false
       | String _ s' => includes s' sub
       end.

(** [s.replace('#', '')]: the first ['#'] is removed. *)
Fixpoint replace_hash (s : string) : string :=
  match s with
  | EmptyString => EmptyString
  | String c s' => if Ascii.eqb c "#"%char then s' else String c (replace_hash s')
  end.

(** Truthiness of a string: the empty string is falsy. *)
Definition truthy (s : string) : bool := negb (String.eqb s "").

(** Truthiness of an optional string ([undefined] is falsy). *)
Definition truthy_opt (o : option string) : bool :=
  match o with
  | Some s => truthy s
  | None => false
  end.

(** [a || b] on strings. *)
Definition or_else (a : option string) (b : string) : string :=
  match a with
  | Some s => if truthy s then s else b
  | None => b
  end.

(** A [Date]: a time value in milliseconds, or the invalid date (NaN). *)
Inductive Date : Type :=
| ValidDate (ms : Z)
| InvalidDate.

(** [t >= d] and [t <= d] for a valid time value [t] and a [Date] [d]:
    both are false against NaN. *)
Definition ge_date (t : Z) (d : Date) : bool :=
  match d with
  | ValidDate ms => ms <=? t
  | InvalidDate => false
  end.

Definition le_date (t : Z) (d : Date) : bool :=
  match d with
  | ValidDate ms => t <=? ms
  | InvalidDate => false
  end.

(** Relative index of [Array.prototype.slice]: a negative index counts
    from the end, and the result is clamped to [0, len]. *)
Definition rel_index (len i : Z) : Z :=
  if i <? 0 then Z.max (len + i) 0 else Z.min i len.

(** [l.slice(start, end)]. *)
Definition slice {A : Type} (start end_ : Z) (l : list A) : list A :=
  let len := Z.of_nat (List.length l) in
  let k := rel_index len start in
  let final := rel_index len end_ in
  firstn (Z.to_nat (final - k)) (skipn (Z.to_nat k) l).

(** [l.slice(start)]. *)
Definition slice_from {A : Type} (start : Z) (l : list A) : list A :=
  skipn (Z.to_nat (rel_index (Z.of_nat (List.length l)) start)) l.

(** [l.splice(0, deleteCount)]: what is left of [l]. *)
Definition splice0 {A : Type} (deleteCount : Z) (l : list A) : list A :=
  let len := Z.of_nat (List.length l) in
  skipn (Z.to_nat (Z.min (Z.max deleteCount 0) len)) l.

(** [Array.prototype.sort] with the comparator [key a - key b]: the sort
    is stable, so it is the stable insertion sort on [key]. *)
Fixpoint insert_by {A : Type} (key : A -> Z) (x : A) (l : list A) : list A :=
  match l with
  | [] => [x]
  | y :: l' => if key x <=? key y then x :: y :: l' else y :: insert_by key x l'
  end.

Fixpoint sort_by {A : Type} (key : A -> Z) (l : list A) : list A :=
  match l with
  | [] => []
  | x :: l' => insert_by key x (sort_by key l')
  end.

End Js.

(** [Map<string, V>]: keys in insertion order. *)
Module JsMap.

Definition t (V : Type) : Type := list (string * V).

Definition empty {V : Type} : t V := [].

Fixpoint get {V : Type} (k : string) (m : t V) : option V :=
  match m with
  | [] => None
  | (k', v) :: m' => if String.eqb k k' then Some v else get k m'
  end.

Definition has {V : Type} (k : string) (m : t V) : bool :=
  match get k m with
  | Some _ => true
  | None => false
  end.

(** [m.set(k, v)]: an existing key keeps its place. *)
Fixpoint set {V : Type} (k : string) (v : V) (m : t V) : t V :=
  match m with
  | [] => [(k, v)]
  | (k', v') :: m' =>
      if String.eqb k k' then (k', v) :: m' else (k', v') :: set k v m'
  end.

(** [m.delete(k)]. *)
Definition delete {V : Type} (k : string) (m : t V) : t V :=
  filter (fun kv => negb (String.eqb k (fst kv))) m.

(** [Array.from(m.values())]. *)
Definition values {V : Type} (m : t V) : list V := map snd m.

End JsMap.

(** A JavaScript [number]: a finite value (every finite double is a
    rational), an infinity, or NaN. Comparison, negation, [Math.min] and
    the conversion to an integer are exact on doubles, and are the ones
    here. Finite sums and products are the exact ones: the rounding of the
    double arithmetic is not modelled, so what is said of [add] and [mul]
    is said for operands whose exact result is a double (one half and 1
    for one), and for whole numbers that are not negative: there a result
    is rounded only when it is above 2^53, and the rounded and the exact
    result are then both beyond the length of any array, which is all
    [slice] makes of them. *)
Module JsNumber.

Inductive t : Type :=
| Finite (q : QArith_base.Q)
| PosInfinity
| NegInfinity
| NaN.

(** A whole number. *)
Definition whole (z : Z) : t := Finite (QArith_base.inject_Z z).

(** [x < y]: false when one side is NaN. *)
Definition ltb (x y : t) : bool :=
  match x, y with
  | NaN, _ => false
  | _, NaN => false
  | Finite a, Finite b => negb (QArith_base.Qle_bool b a)
  | Finite _, PosInfinity => true
  | Finite _, NegInfinity => false
  | PosInfinity, _ => false
  | NegInfinity, NegInfinity => false
  | NegInfinity, _ => true
  end.

(** [x <= y]: false when one side is NaN. *)
Definition leb (x y : t) : bool :=
  match x, y with
  | NaN, _ => false
  | _, NaN => false
  | Finite a, Finite b => QArith_base.Qle_bool a b
  | Finite _, PosInfinity => true
  | Finite _, NegInfinity => false
  | PosInfinity, PosInfinity => true
  | PosInfinity, _ => false
  | NegInfinity, _ => true
  end.

(** [-x]. *)
Definition opp (x : t) : t :=
  match x with
  | Finite q => Finite (QArith_base.Qopp q)
  | PosInfinity => NegInfinity
  | NegInfinity => PosInfinity
  | NaN => NaN
  end.

(** [x + y]. *)
Definition add (x y : t) : t :=
  match x, y with
  | NaN, _ => NaN
  | _, NaN => NaN
  | Finite a, Finite b => Finite (QArith_base.Qplus a b)
  | PosInfinity, NegInfinity => NaN
  | NegInfinity, PosInfinity => NaN
  | PosInfinity, _ => PosInfinity
  | NegInfinity, _ => NegInfinity
  | Finite _, PosInfinity => PosInfinity
  | Finite _, NegInfinity => NegInfinity
  end.

(** The sign of a number that is not NaN: [-1], [0] or [1]. *)
Definition sign (x : t) : Z :=
  match x with
  | Finite q => Z.sgn (QArith_base.Qnum q)
  | PosInfinity => 1
  | NegInfinity => -1
  | NaN => 0
  end.

(** [x * y]. *)
Definition mul (x y : t) : t :=
  match x, y with
  | NaN, _ => NaN
  | _, NaN => NaN
  | Finite a, Finite b => Finite (QArith_base.Qmult a b)
  | _, _ =>
      match sign x * sign y with
      | Z0 => NaN
      | Zpos _ => PosInfinity
      | Zneg _ => NegInfinity
      end
  end.

(** [Math.min(x, y)]. *)
Definition min (x y : t) : t :=
  match x, y with
  | NaN, _ => NaN
  | _, NaN => NaN
  | _, _ => if leb x y then x else y
  end.

(** The result of ToIntegerOrInfinity. *)
Inductive IntegerOrInfinity : Type :=
| Whole (z : Z)
| PlusInfinity
| MinusInfinity.

(** ToIntegerOrInfinity: NaN is 0, a finite number is truncated towards 0. *)
Definition toIntegerOrInfinity (x : t) : IntegerOrInfinity :=
  match x with
  | NaN => Whole 0
  | Finite q => Whole (Z.quot (QArith_base.Qnum q) (Zpos (QArith_base.Qden q)))
  | PosInfinity => PlusInfinity
  | NegInfinity => MinusInfinity
  end.

(** The relative index of [Array.prototype.slice] for an argument that is
    any number. *)
Definition relativeIndex (len : Z) (x : t) : Z :=
  match toIntegerOrInfinity x with
  | MinusInfinity => 0
  | PlusInfinity => len
  | Whole i => Js.rel_index len i
  end.

(** [l.slice(start, end)]. *)
Definition slice {A : Type} (start end_ : t) (l : list A) : list A :=
  let len := Z.of_nat (List.length l) in
  let k := relativeIndex len start in
  let final := relativeIndex len end_ in
  firstn (Z.to_nat (final - k)) (skipn (Z.to_nat k) l).

(** [l.slice(start)]. *)
Definition sliceFrom {A : Type} (start : t) (l : list A) : list A :=
  skipn (Z.to_nat (relativeIndex (Z.of_nat (List.length l)) start)) l.

End JsNumber.

(* ===================================================================== *)
(** * messageStore.ts                                                     *)
(* ===================================================================== *)

(** [tags: Record<string, string | boolean | null>]. *)
Inductive TagValue : Type :=
| TagString (s : string)
| TagBool (b : bool)
| TagNull.

Module Message.
(** [interface Message]; [timestamp] is the time value of a valid [Date]
    (the client stamps every message with [new Date()]). *)
Record t : Type := mk {
  id : string;
  channel : string;
  username : string;
  message : string;
  timestamp : Z;
  tags : list (string * TagValue)
}.
End Message.

Module MessageFilter.
(** [interface MessageFilter]; every field is optional. *)
Record t : Type := mk {
  channel : option string;
  username : option string;
  contains : option string;
  since : option Js.Date;
  until : option Js.Date;
  page : option Z;
  pageSize : option Z
}.

(** The same criteria without pagination. *)
Definition unpaged (f : t) : t :=
  mk (channel f) (username f) (contains f) (since f) (until f) None None.

(** The same criteria with page [p] of size [s]. *)
Definition paged (f : t) (p s : Z) : t :=
  mk (channel f) (username f) (contains f) (since f) (until f) (Some p) (Some s).
End MessageFilter.

Module MessageStore.

Record t : Type := mk {
  messages : JsMap.t (list Message.t);
  maxMessagesPerChannel : Z
}.

(** [constructor(maxMessagesPerChannel = 1000)]. *)
Definition constructor (maxMessagesPerChannel : option Z) : t :=
  mk JsMap.empty
     (match maxMessagesPerChannel with Some n => n | None => 1000 end).

(** [a.timestamp.getTime() - b.timestamp.getTime()] ordering. *)
Definition sortByTimestamp (l : list Message.t) : list Message.t :=
  Js.sort_by Message.timestamp l.

(** The pruning step of [addMessage], on the array after the push. *)
Definition prune (bound : Z) (channelMessages : list Message.t) : list Message.t :=
  if Z.of_nat (List.length channelMessages) >? bound then
    let excessCount := Z.of_nat (List.length channelMessages) - bound in
    Js.splice0 excessCount channelMessages
  else channelMessages.

Definition addMessage (this : t) (message : Message.t) : t :=
  let channel := Js.toLowerCase (Message.channel message) in
  let messages1 :=
    if negb (JsMap.has channel (messages this))
    then JsMap.set channel [] (messages this)
    else messages this in
  match JsMap.get channel messages1 with
  | Some channelMessages =>
      let pushed := channelMessages ++ [message] in
      mk (JsMap.set channel (prune (maxMessagesPerChannel this) pushed) messages1)
         (maxMessagesPerChannel this)
  | None => mk messages1 (maxMessagesPerChannel this)
  end.

(** [this.messages.get(channelLower) || []]. *)
Definition channelHistory (this : t) (channelLower : string) : list Message.t :=
  match JsMap.get channelLower (messages this) with
  | Some l => l
  | None => []
  end.

(** [getRecentMessages(channel, limit = 10)] for a [limit] that is a whole
    number ([AnyNumber.getRecentMessages] takes any number): the slice is a
    fresh array, so the sort leaves the store alone. *)
Definition getRecentMessages (this : t) (channel : string) (limit : option Z)
  : list Message.t :=
  let limit := match limit with Some n => n | None => 10 end in
  let channelLower := Js.toLowerCase channel in
  let channelMessages := channelHistory this channelLower in
  sortByTimestamp
    (Js.slice_from (- Z.min limit (Z.of_nat (List.length channelMessages)))
                   channelMessages).

(** [getAllMessages(channel?)]: with a (truthy) channel the stored array
    itself is returned, otherwise a fresh sorted array. *)
Definition getAllMessages (this : t) (channel : option string) : list Message.t :=
  if Js.truthy_opt channel then
    channelHistory this (Js.toLowerCase (Js.or_else channel ""))
  else
    sortByTimestamp (List.concat (JsMap.values (messages this))).

(** The four criteria of [filterMessages], as one predicate. *)
Definition matchesUsername (f : MessageFilter.t) (msg : Message.t) : bool :=
  match MessageFilter.username f with
  | Some u =>
      if Js.truthy u
      then Js.includes (Js.toLowerCase (Message.username msg)) (Js.toLowerCase u)
      else true
  | None => true
  end.

Definition matchesContains (f : MessageFilter.t) (msg : Message.t) : bool :=
  match MessageFilter.contains f with
  | Some c =>
      if Js.truthy c
      then Js.includes (Js.toLowerCase (Message.message msg)) (Js.toLowerCase c)
      else true
  | None => true
  end.

Definition matchesSince (f : MessageFilter.t) (msg : Message.t) : bool :=
  match MessageFilter.since f with
  | Some d => Js.ge_date (Message.timestamp msg) d
  | None => true
  end.

Definition matchesUntil (f : MessageFilter.t) (msg : Message.t) : bool :=
  match MessageFilter.until f with
  | Some d => Js.le_date (Message.timestamp msg) d
  | None => true
  end.

(** The successive [messages = messages.filter(...)] steps. *)
Definition applyCriteria (f : MessageFilter.t) (l : list Message.t) : list Message.t :=
  let l1 := if Js.truthy_opt (MessageFilter.username f)
            then filter (matchesUsername f) l else l in
  let l2 := if Js.truthy_opt (MessageFilter.contains f)
            then filter (matchesContains f) l1 else l1 in
  let l3 := match MessageFilter.since f with
            | Some _ => filter (matchesSince f) l2
            | None => l2
            end in
  match MessageFilter.until f with
  | Some _ => filter (matchesUntil f) l3
  | None => l3
  end.

(** Whether [messages] is still the array stored in the map when
    [messages.sort(...)] runs: a truthy channel that is present, and no
    [filter] call in between. *)
Definition sortsInPlace (this : t) (f : MessageFilter.t) : bool :=
  Js.truthy_opt (MessageFilter.channel f)
  && JsMap.has (Js.toLowerCase (Js.or_else (MessageFilter.channel f) "")) (messages this)
  && negb (Js.truthy_opt (MessageFilter.username f))
  && negb (Js.truthy_opt (MessageFilter.contains f))
  && match MessageFilter.since f with Some _ => false | None => true end
  && match MessageFilter.until f with Some _ => false | None => true end.

(** The pagination step, for a [page] and a [pageSize] that are whole
    numbers ([AnyNumber.paginate] takes any numbers). *)
Definition paginate (f : MessageFilter.t) (l : list Message.t) : list Message.t :=
  match MessageFilter.page f, MessageFilter.pageSize f with
  | Some p, Some s =>
      let page := if p <? 0 then 0 else p in
      let pageSize := if s <=? 0 then 10 else s in
      let start := page * pageSize in
      let end_ := start + pageSize in
      Js.slice start end_ l
  | _, _ => l
  end.

(** [filterMessages(filter)]: the result, and the store afterwards (the
    in-place sort reorders the stored array when it is the one sorted). *)
Definition filterMessages (this : t) (f : MessageFilter.t) : list Message.t * t :=
  let messages0 := getAllMessages this (MessageFilter.channel f) in
  let filtered := applyCriteria f messages0 in
  let sorted := sortByTimestamp filtered in
  let this' :=
    if sortsInPlace this f
    then mk (JsMap.set (Js.toLowerCase (Js.or_else (MessageFilter.channel f) ""))
                       sorted (messages this))
            (maxMessagesPerChannel this)
    else this in
  (paginate f sorted, this').

(** [clearMessages(channel?)]. *)
Definition clearMessages (this : t) (channel : option string) : t :=
  if Js.truthy_opt channel then
    mk (JsMap.delete (Js.toLowerCase (Js.or_else channel "")) (messages this))
       (maxMessagesPerChannel this)
  else
    mk JsMap.empty (maxMessagesPerChannel this).

(** [getMessageCount(channel?)]. *)
Definition getMessageCount (this : t) (channel : option string) : Z :=
  if Js.truthy_opt channel then
    Z.of_nat (List.length (channelHistory this (Js.toLowerCase (Js.or_else channel ""))))
  else
    fold_left (fun count msgs => count + Z.of_nat (List.length msgs))
              (JsMap.values (messages this)) 0.

End MessageStore.

(** [getRecentMessages] and [filterMessages] for a [limit], a [page] and a
    [pageSize] that are any number, as the tool schema ([z.number()]) and
    the command line ([parseInt]) let them through. *)
Module AnyNumber.

(** [getRecentMessages(channel, limit = 10)]. *)
Definition getRecentMessages (this : MessageStore.t) (channel : string)
           (limit : option JsNumber.t) : list Message.t :=
  let limit := match limit with Some n => n | None => JsNumber.whole 10 end in
  let channelLower := Js.toLowerCase channel in
  let channelMessages := MessageStore.channelHistory this channelLower in
  MessageStore.sortByTimestamp
    (JsNumber.sliceFrom
       (JsNumber.opp
          (JsNumber.min limit (JsNumber.whole (Z.of_nat (List.length channelMessages)))))
       channelMessages).

(** The pagination step of [filterMessages]. *)
Definition paginate (page pageSize : option JsNumber.t) (l : list Message.t)
  : list Message.t :=
  match page, pageSize with
  | Some p, Some s =>
      let page := if JsNumber.ltb p (JsNumber.whole 0) then JsNumber.whole 0 else p in
      let pageSize := if JsNumber.leb s (JsNumber.whole 0) then JsNumber.whole 10 else s in
      let start := JsNumber.mul page pageSize in
      let end_ := JsNumber.add start pageSize in
      JsNumber.slice start end_ l
  | _, _ => l
  end.

(** [filterMessages(filter)], with [filter.page] and [filter.pageSize]
    given apart from the criteria of [f]. *)
Definition filterMessages (this : MessageStore.t) (f : MessageFilter.t)
           (page pageSize : option JsNumber.t) : list Message.t * MessageStore.t :=
  let messages0 := MessageStore.getAllMessages this (MessageFilter.channel f) in
  let filtered := MessageStore.applyCriteria f messages0 in
  let sorted := MessageStore.sortByTimestamp filtered in
  let this' :=
    if MessageStore.sortsInPlace this f
    then MessageStore.mk
           (JsMap.set (Js.toLowerCase (Js.or_else (MessageFilter.channel f) ""))
                      sorted (MessageStore.messages this))
           (MessageStore.maxMessagesPerChannel this)
    else this in
  (paginate page pageSize sorted, this').

End AnyNumber.

(* ===================================================================== *)
(** * twitchClient.ts                                                     *)
(* ===================================================================== *)

(** A thrown [Error], or the value a transport promise rejects with. *)
Record Error : Type := mkError { errorMessage : string }.

(** How an awaited transport promise settles. *)
Inductive Outcome : Type :=
| Resolved
| Rejected (e : Error).

(** How an [async] method settles. *)
Inductive Settled : Type :=
| Returns
| Throws (e : Error).

(** What a method or handler asks of the outside world: a call forwarded to
    the tmi.js client, or a [setTimeout] of the reconnect callback.
    Logging is left out. *)
Inductive Effect : Type :=
| ClientConnect
| ClientDisconnect
| ClientJoin (channelName : string)
| ClientPart (channelName : string)
| ClientSay (channelName message : string)
| SetTimeout (delay : Z).

(** [Set<string>] in insertion order. *)
Module JsSet.

Definition t : Type := list string.

Definition has (x : string) (s : t) : bool := existsb (String.eqb x) s.

Definition add (x : string) (s : t) : t := if has x s then s else s ++ [x].

Definition delete (x : string) (s : t) : t :=
  filter (fun y => negb (String.eqb x y)) s.

(** [new Set(array)]. *)
Definition of_list (l : list string) : t := fold_left (fun s x => add x s) l [].

End JsSet.

(** The fields of the tmi.js [userstate] the message handler reads. *)
Record Userstate : Type := mkUserstate {
  us_id : option string;
  us_display_name : option string;
  us_username : option string;
  us_tags : list (string * TagValue)
}.

Module TwitchClientOptions.
Record t : Type := mk {
  username : string;
  oauthToken : string;
  channels : option (list string);
  reconnect : option bool
}.
End TwitchClientOptions.

Module TwitchClient.

Record t : Type := mk {
  channels : JsSet.t;
  connected : bool;
  reconnectAttempts : Z
}.

Definition maxReconnectAttempts : Z := 5.
Definition reconnectInterval : Z := 5000.

(** [constructor(options)]: the set is seeded with the configured
    channels, lower-cased. *)
Definition constructor (options : TwitchClientOptions.t) : t :=
  let channels :=
    match TwitchClientOptions.channels options with
    | Some l => l
    | None => []
    end in
  mk (JsSet.of_list (map Js.toLowerCase channels)) false 0.

(** ** Event handlers of [setupEventHandlers] *)

Definition onConnecting (this : t) : t := this.

Definition onConnected (this : t) : t :=
  mk (channels this) true 0.

(** Both ['disconnected'] handlers; the second one only logs. *)
Definition onDisconnected (this : t) (reason : string) : t * list Effect :=
  if reconnectAttempts this <? maxReconnectAttempts then
    (mk (channels this) false (reconnectAttempts this + 1),
     [SetTimeout reconnectInterval])
  else
    (mk (channels this) false (reconnectAttempts this), []).

(** The ['message'] handler; [now] is [Date.now()] / [new Date()] and
    [generatedId] the id built from the clock and [Math.random()]. *)
Definition onMessage (store : MessageStore.t)
           (channel : string) (userstate : Userstate) (message : string)
           (self : bool) (now : Z) (generatedId : string) : MessageStore.t :=
  if self then store
  else
    let msg :=
      Message.mk
        (Js.or_else (us_id userstate) generatedId)
        (Js.replace_hash channel)
        (Js.or_else (us_display_name userstate)
                    (Js.or_else (us_username userstate) "anonymous"))
        message
        now
        (us_tags userstate) in
    MessageStore.addMessage store msg.

Definition onJoin (this : t) (channel username : string) (self : bool) : t :=
  if self then
    let channelName := Js.replace_hash channel in
    mk (JsSet.add channelName (channels this)) (connected this) (reconnectAttempts this)
  else this.

Definition onPart (this : t) (channel username : string) (self : bool) : t :=
  if self then
    let channelName := Js.replace_hash channel in
    mk (JsSet.delete channelName (channels this)) (connected this) (reconnectAttempts this)
  else this.

Definition onReconnect (this : t) : t := this.

(** ** Methods *)

Definition settle (o : Outcome) : Settled :=
  match o with
  | Resolved => Returns
  | Rejected e => Throws e
  end.

(** [channel.toLowerCase().startsWith('#') ? channel : `#${channel}`]. *)
Definition channelNameOf (channel : string) : string :=
  if Js.startsWith (Js.toLowerCase channel) "#" then channel
  else String.append "#" channel.

Definition connect (this : t) (o : Outcome) : t * list Effect * Settled :=
  if connected this then (this, [], Returns)
  else (this, [ClientConnect], settle o).

Definition disconnect (this : t) (o : Outcome) : t * list Effect * Settled :=
  if negb (connected this) then (this, [], Returns)
  else
    match o with
    | Resolved =>
        (mk (channels this) false (reconnectAttempts this), [ClientDisconnect], Returns)
    | Rejected e => (this, [ClientDisconnect], Throws e)
    end.

Definition joinChannel (this : t) (channel : string) (o : Outcome)
  : t * list Effect * Settled :=
  (this, [ClientJoin (channelNameOf channel)], settle o).

Definition leaveChannel (this : t) (channel : string) (o : Outcome)
  : t * list Effect * Settled :=
  (this, [ClientPart (channelNameOf channel)], settle o).

Definition notConnected : Error := mkError "Not connected to Twitch IRC".

Definition sendMessage (this : t) (channel message : string) (o : Outcome)
  : t * list Effect * Settled :=
  if negb (connected this) then (this, [], Throws notConnected)
  else (this, [ClientSay (channelNameOf channel) message], settle o).

Definition getChannels (this : t) : list string := channels this.

Definition isConnected (this : t) : bool := connected this.

(** The callback given to [setTimeout]: [this.connect().catch(...)]. *)
Definition reconnectCallback (this : t) (o : Outcome) : t * list Effect :=
  let '(this', effs, _) := connect this o in (this', effs).

End TwitchClient.

(** ** The client and the store under a sequence of events and calls *)

Inductive Input : Type :=
| EvConnecting
| EvConnected
| EvDisconnected (reason : string)
| EvMessage (channel : string) (userstate : Userstate) (message : string)
            (self : bool) (now : Z) (generatedId : string)
| EvJoin (channel username : string) (self : bool)
| EvPart (channel username : string) (self : bool)
| EvReconnect
| CallConnect (o : Outcome)
| CallDisconnect (o : Outcome)
| CallJoinChannel (channel : string) (o : Outcome)
| CallLeaveChannel (channel : string) (o : Outcome)
| CallSendMessage (channel message : string) (o : Outcome)
| CallGetChannels
| CallIsConnected
| TimerFires (o : Outcome).

Module World.

(** The two singletons, the timers that are pending and everything asked
    of the outside world so far (oldest first). *)
Record t : Type := mk {
  client : TwitchClient.t;
  store : MessageStore.t;
  pendingTimers : nat;
  trace : list Effect
}.

Definition init (options : TwitchClientOptions.t) : t :=
  mk (TwitchClient.constructor options) (MessageStore.constructor None) 0 [].

Definition isSetTimeout (e : Effect) : bool :=
  match e with
  | SetTimeout _ => true
  | _ => false
  end.

Definition timersIn (effs : list Effect) : nat :=
  List.length (filter isSetTimeout effs).

(** A method or handler ran: record its effects. *)
Definition after (w : t) (c : TwitchClient.t) (effs : list Effect) : t :=
  mk c (store w) (pendingTimers w + timersIn effs) (trace w ++ effs).

Definition step (w : t) (i : Input) : t :=
  match i with
  | EvConnecting => after w (TwitchClient.onConnecting (client w)) []
  | EvConnected => after w (TwitchClient.onConnected (client w)) []
  | EvDisconnected reason =>
      let '(c, effs) := TwitchClient.onDisconnected (client w) reason in
      after w c effs
  | EvMessage channel userstate message self now generatedId =>
      mk (client w)
         (TwitchClient.onMessage (store w) channel userstate message self now generatedId)
         (pendingTimers w) (trace w)
  | EvJoin channel username self =>
      after w (TwitchClient.onJoin (client w) channel username self) []
  | EvPart channel username self =>
      after w (TwitchClient.onPart (client w) channel username self) []
  | EvReconnect => after w (TwitchClient.onReconnect (client w)) []
  | CallConnect o =>
      let '(c, effs, _) := TwitchClient.connect (client w) o in after w c effs
  | CallDisconnect o =>
      let '(c, effs, _) := TwitchClient.disconnect (client w) o in after w c effs
  | CallJoinChannel channel o =>
      let '(c, effs, _) := TwitchClient.joinChannel (client w) channel o in after w c effs
  | CallLeaveChannel channel o =>
      let '(c, effs, _) := TwitchClient.leaveChannel (client w) channel o in after w c effs
  | CallSendMessage channel message o =>
      let '(c, effs, _) := TwitchClient.sendMessage (client w) channel message o in
      after w c effs
  | CallGetChannels => w
  | CallIsConnected => w
  | TimerFires o =>
      match pendingTimers w with
      | O => w
      | S n =>
          let '(c, effs) := TwitchClient.reconnectCallback (client w) o in
          mk c (store w) (n + timersIn effs) (trace w ++ effs)
      end
  end.

Definition run (w : t) (inputs : list Input) : t := fold_left step inputs w.

(** Reconnection attempts scheduled so far. *)
Definition scheduled (w : t) : nat := timersIn (trace w).

Definition isEvConnected (i : Input) : bool :=
  match i with
  | EvConnected => true
  | _ => false
  end.

Definition isEvDisconnected (i : Input) : bool :=
  match i with
  | EvDisconnected _ => true
  | _ => false
  end.

(** The self-join acknowledgment that puts [x] into the set. *)
Definition isSelfJoinOf (x : string) (i : Input) : Prop :=
  exists channel username, i = EvJoin channel username true /\ x = Js.replace_hash channel.

(** The self-part acknowledgment that takes [x] out of the set. *)
Definition isSelfPartOf (x : string) (i : Input) : Prop :=
  exists channel username, i = EvPart channel username true /\ x = Js.replace_hash channel.

(** No ['connected'] event among the inputs. *)
Definition noConnected (inputs : list Input) : bool :=
  forallb (fun i => negb (isEvConnected i)) inputs.

(** The number of ['disconnected'] events among the inputs. *)
Definition drops (inputs : list Input) : nat :=
  List.length (filter isEvDisconnected inputs).

End World.

(* ===================================================================== *)
(** * mcpServer.ts: the [filterMessages] tool                             *)
(* ===================================================================== *)

Module McpServer.

(** The arguments the zod schema of the tool lets through. *)
Record FilterArgs : Type := mkFilterArgs {
  channel : option string;
  username : option string;
  contains : option string;
  since : option string;
  until : option string;
  page : option Z;
  pageSize : option Z
}.

Record TextContent : Type := mkTextContent {
  type : string;
  text : string
}.

(** The envelope a tool handler returns; an absent [isError] is [false]. *)
Record CallToolResult : Type := mkCallToolResult {
  content : list TextContent;
  isError : bool
}.

Definition nl : string := String (ascii_of_nat 10) EmptyString.

(** [lines.join('\n')]. *)
Fixpoint join (sep : string) (lines : list string) : string :=
  match lines with
  | [] => EmptyString
  | [x] => x
  | x :: rest => String.append x (String.append sep (join sep rest))
  end.

Definition success (t : string) : CallToolResult :=
  mkCallToolResult [mkTextContent "text" t] false.

Definition failure (t : string) : CallToolResult :=
  mkCallToolResult [mkTextContent "text" t] true.

Section Handler.

(** The runtime's [new Date(string)], [Date.prototype.toISOString] and
    number-to-string conversion. *)
Variable newDate : string -> Js.Date.
Variable toISOString : Z -> string.
Variable numberToString : Z -> string.

(** [s ? new Date(s) : undefined]. *)
Definition dateArg (s : option string) : option Js.Date :=
  match s with
  | Some str => if Js.truthy str then Some (newDate str) else None
  | None => None
  end.

Definition filterOf (args : FilterArgs) : MessageFilter.t :=
  MessageFilter.mk (channel args) (username args) (contains args)
                   (dateArg (since args)) (dateArg (until args))
                   (page args) (pageSize args).

Definition formatMessage (msg : Message.t) : string :=
  String.concat ""
    ["["; toISOString (Message.timestamp msg); "] #"; Message.channel msg; " ";
     Message.username msg; ": "; Message.message msg].

(** The [try] block of the handler. *)
Definition filterMessagesBody (store : MessageStore.t) (args : FilterArgs)
  : (CallToolResult + Error) * MessageStore.t :=
  let filter := filterOf args in
  let '(messages, store') := MessageStore.filterMessages store filter in
  if (List.length messages =? 0)%nat then
    (inl (success "No messages found matching the filter criteria"), store')
  else
    let formattedMessages := map formatMessage messages in
    let paginationInfo :=
      match page args, pageSize args with
      | Some p, Some _ =>
          String.concat ""
            [nl; nl; "Page "; numberToString (p + 1); ", showing ";
             numberToString (Z.of_nat (List.length messages)); " of ";
             numberToString (MessageStore.getMessageCount store' (channel args));
             " messages"]
      | _, _ => ""
      end in
    let channelInfo :=
      match channel args with
      | Some c => if Js.truthy c then String.concat "" [" (channel: #"; c; ")"] else ""
      | None => ""
      end in
    (inl (success (String.concat ""
                     ["Filtered messages:"; channelInfo; nl;
                      join nl formattedMessages; paginationInfo])),
     store').

(** The handler: whatever the [try] block throws becomes an error
    envelope. *)
Definition filterMessagesTool (store : MessageStore.t) (args : FilterArgs)
  : CallToolResult * MessageStore.t :=
  match filterMessagesBody store args with
  | (inl result, store') => (result, store')
  | (inr error, store') =>
      (failure (String.append "Error filtering messages: " (errorMessage error)),
       store')
  end.

End Handler.

End McpServer.

(** ** A reference runtime, to run the handlers on concrete inputs

    Dates follow the ECMAScript date-time string format
    [YYYY-MM-DDTHH:mm:ss.sssZ] and its date-only form [YYYY-MM-DD], in UTC;
    no implementation-specific fallback format is recognised. *)
Module Runtime.

Definition numberToString (n : Z) : string := NilZero.string_of_int (Z.to_int n).

Definition msPerDay : Z := 86400000.

Definition daysFromCivil (y m d : Z) : Z :=
  let y := if m <=? 2 then y - 1 else y in
  let era := y / 400 in
  let yoe := y - era * 400 in
  let doy := (153 * (if 2 <? m then m - 3 else m + 9) + 2) / 5 + d - 1 in
  let doe := yoe * 365 + yoe / 4 - yoe / 100 + doy in
  era * 146097 + doe - 719468.

Definition civilFromDays (z : Z) : Z * Z * Z :=
  let z := z + 719468 in
  let era := z / 146097 in
  let doe := z - era * 146097 in
  let yoe := (doe - doe / 1460 + doe / 36524 - doe / 146096) / 365 in
  let y := yoe + era * 400 in
  let doy := doe - (365 * yoe + yoe / 4 - yoe / 100) in
  let mp := (5 * doy + 2) / 153 in
  let d := doy - (153 * mp + 2) / 5 + 1 in
  let m := if mp <? 10 then mp + 3 else mp - 9 in
  (if m <=? 2 then y + 1 else y, m, d).

(** Zeros in front of [s] until it is [width] characters long. *)
Fixpoint pad (fuel width : nat) (s : string) : string :=
  match fuel with
  | O => s
  | S fuel' =>
      if (String.length s <? width)%nat then pad fuel' width (String.append "0" s) else s
  end.

Definition digits (width : nat) (n : Z) : string :=
  pad width width (numberToString n).

Definition yearToString (y : Z) : string :=
  if (0 <=? y) && (y <=? 9999) then digits 4 y
  else if y <? 0 then String.append "-" (digits 6 (- y))
  else String.append "+" (digits 6 y).

Definition toISOString (ms : Z) : string :=
  let '(y, m, d) := civilFromDays (ms / msPerDay) in
  let r := ms mod msPerDay in
  String.concat ""
    [yearToString y; "-"; digits 2 m; "-"; digits 2 d; "T";
     digits 2 (r / 3600000); ":"; digits 2 (r / 60000 mod 60); ":";
     digits 2 (r / 1000 mod 60); "."; digits 3 (r mod 1000); "Z"].

Definition digit (c : ascii) : option Z :=
  let n := Z.of_nat (nat_of_ascii c) in
  if (48 <=? n) && (n <=? 57) then Some (n - 48) else None.

(** Reads exactly [k] decimal digits. *)
Fixpoint number (k : nat) (acc : Z) (s : string) : option (Z * string) :=
  match k with
  | O => Some (acc, s)
  | S k' =>
      match s with
      | String c s' =>
          match digit c with
          | Some d => number k' (10 * acc + d) s'
          | None => None
          end
      | EmptyString => None
      end
  end.

Definition expect (c : ascii) (s : string) : option string :=
  match s with
  | String c' s' => if Ascii.eqb c c' then Some s' else None
  | EmptyString => None
  end.

Definition isLeap (y : Z) : bool :=
  ((y mod 4 =? 0) && negb (y mod 100 =? 0)) || (y mod 400 =? 0).

Definition daysInMonth (y m : Z) : Z :=
  if m =? 2 then (if isLeap y then 29 else 28)
  else if (m =? 4) || (m =? 6) || (m =? 9) || (m =? 11) then 30
  else 31.

Definition bind {A B : Type} (o : option A) (f : A -> option B) : option B :=
  match o with
  | Some a => f a
  | None => None
  end.

Definition parseDate (s : string) : option (Z * string) :=
  bind (number 4 0 s) (fun '(y, s) =>
  bind (expect "-" s) (fun s =>
  bind (number 2 0 s) (fun '(m, s) =>
  bind (expect "-" s) (fun s =>
  bind (number 2 0 s) (fun '(d, s) =>
  if (1 <=? m) && (m <=? 12) && (1 <=? d) && (d <=? daysInMonth y m)
  then Some (daysFromCivil y m d * msPerDay, s)
  else None))))).

Definition parseTime (s : string) : option (Z * string) :=
  bind (expect "T" s) (fun s =>
  bind (number 2 0 s) (fun '(h, s) =>
  bind (expect ":" s) (fun s =>
  bind (number 2 0 s) (fun '(mi, s) =>
  bind (expect ":" s) (fun s =>
  bind (number 2 0 s) (fun '(sec, s) =>
  bind (expect "." s) (fun s =>
  bind (number 3 0 s) (fun '(milli, s) =>
  bind (expect "Z" s) (fun s =>
  if (h <=? 23) && (mi <=? 59) && (sec <=? 59)
  then Some (h * 3600000 + mi * 60000 + sec * 1000 + milli, s)
  else None))))))))).

(** [new Date(s)]. *)
Definition newDate (s : string) : Js.Date :=
  match parseDate s with
  | Some (day, EmptyString) => Js.ValidDate day
  | Some (day, rest) =>
      match parseTime rest with
      | Some (time, EmptyString) => Js.ValidDate (day + time)
      | _ => Js.InvalidDate
      end
  | None => Js.InvalidDate
  end.

End Runtime.

(* ===================================================================== *)
(** * mcpServer.ts: the [sendMessage], [joinChannel], [getRecentMessages] tools *)
(* ===================================================================== *)

Module McpTools.

(** The double quote of the template strings. *)
Definition dq : string := String (ascii_of_nat 34) EmptyString.

(** [error instanceof Error ? error.message : String(error)]. *)
Definition errorText (e : Error) : string := errorMessage e.

(** The [sendMessage] tool, given how the transport settles the send. *)
Definition sendMessageTool (client : TwitchClient.t) (channel text : string) (o : Outcome)
  : McpServer.CallToolResult * TwitchClient.t * list Effect :=
  match TwitchClient.sendMessage client channel text o with
  | (client', effs, Returns) =>
      (McpServer.success
         (String.concat "" ["Message sent to channel #"; channel; ": "; dq; text; dq]),
       client', effs)
  | (client', effs, Throws error) =>
      (McpServer.failure (String.append "Error sending message: " (errorText error)),
       client', effs)
  end.

(** The [joinChannel] tool. *)
Definition joinChannelTool (client : TwitchClient.t) (channel : string) (o : Outcome)
  : McpServer.CallToolResult * TwitchClient.t * list Effect :=
  match TwitchClient.joinChannel client channel o with
  | (client', effs, Returns) =>
      (McpServer.success (String.append "Joined channel #" channel), client', effs)
  | (client', effs, Throws error) =>
      (McpServer.failure (String.append "Error joining channel: " (errorText error)),
       client', effs)
  end.

Section Readers.

(** The runtime's [Date.prototype.toISOString]. *)
Variable toISOString : Z -> string.

Definition formatRecent (msg : Message.t) : string :=
  String.concat ""
    ["["; toISOString (Message.timestamp msg); "] "; Message.username msg; ": ";
     Message.message msg].

(** The [getRecentMessages] tool ([limit = 10] when left out); [limit] is
    any number. *)
Definition getRecentMessagesTool (store : MessageStore.t) (channel : string)
           (limit : option JsNumber.t) : McpServer.CallToolResult :=
  let limit := match limit with Some n => n | None => JsNumber.whole 10 end in
  let messages := AnyNumber.getRecentMessages store channel (Some limit) in
  if (List.length messages =? 0)%nat then
    McpServer.success (String.append "No messages found in channel #" channel)
  else
    let formattedMessages := map formatRecent messages in
    McpServer.success
      (String.concat ""
         ["Recent messages from #"; channel; ":"; McpServer.nl;
          McpServer.join McpServer.nl formattedMessages]).

End Readers.

End McpTools.

(* ===================================================================== *)
(** * utils/logger.ts                                                     *)
(* ===================================================================== *)

Module Logger.

Inductive LogLevel : Type := ERROR | WARN | INFO | DEBUG.

(** The numeric value of the enum member. *)
Definition value (l : LogLevel) : Z :=
  match l with
  | ERROR => 0
  | WARN => 1
  | INFO => 2
  | DEBUG => 3
  end.

(** What reading a property of the object literal [LOG_LEVEL_MAP] gives:
    one of its own four entries, a member inherited from
    [Object.prototype] (a function or an object, never a level), or
    [undefined]. *)
Inductive Lookup : Type :=
| Own (l : LogLevel)
| Inherited
| Undefined.

Definition objectPrototypeNames : list string :=
  ["constructor"; "__defineGetter__"; "__defineSetter__"; "hasOwnProperty";
   "__lookupGetter__"; "__lookupSetter__"; "isPrototypeOf"; "propertyIsEnumerable";
   "toString"; "valueOf"; "__proto__"; "toLocaleString"].

Definition LOG_LEVEL_MAP (name : string) : Lookup :=
  if String.eqb name "error" then Own ERROR
  else if String.eqb name "warn" then Own WARN
  else if String.eqb name "info" then Own INFO
  else if String.eqb name "debug" then Own DEBUG
  else if existsb (String.eqb name) objectPrototypeNames then Inherited
  else Undefined.

(** [currentLevel]: a level, or a value that compares as NaN. *)
Inductive Level : Type :=
| Num (n : Z)
| NotANumber.

Record t : Type := mk {
  currentLevel : Level;
  isMcpMode : bool
}.

(** [constructor()], from [config.logging.level], [process.argv] and
    [process.env.MCP_MODE]. *)
Definition constructor (configuredLevel : string) (argv : list string)
           (envMcpMode : option string) : t :=
  let configLevel := Js.toLowerCase configuredLevel in
  mk (match LOG_LEVEL_MAP configLevel with
      | Own l => Num (value l)
      | Inherited => NotANumber
      | Undefined => Num (value INFO)
      end)
     (existsb (String.eqb "--mcp") argv
      || match envMcpMode with
         | Some v => String.eqb v "true"
         | None => false
         end
      || negb (existsb (String.eqb "--http") argv)).

(** What is logged: a string, or an [Error] with its name and stack. *)
Inductive LogMessage : Type :=
| Text (s : string)
| Err (message name : string) (stack : option string).

Definition formatMessage (message : LogMessage) : string :=
  match message with
  | Err m name stack =>
      String.concat ""
        [m; " ("; name;
         if Js.truthy_opt stack
         then String.append ": " (Js.or_else stack "") else "";
         ")"]
  | Text s => s
  end.

Inductive Stream : Type := Stdout | Stderr.

(** [this.currentLevel >= LogLevel.X]. *)
Definition atLeast (this : t) (l : LogLevel) : bool :=
  match currentLevel this with
  | Num n => value l <=? n
  | NotANumber => false
  end.

(** One of the four methods: what it writes, and where. [console.error]
    and [console.warn] write to stderr, [console.info] and
    [console.debug] to stdout, each with a newline. *)
Definition write (this : t) (l : LogLevel) (tag : string) (console : Stream)
           (message : LogMessage) : list (Stream * string) :=
  if atLeast this l then
    let line := String.concat "" ["["; tag; "] "; formatMessage message; McpServer.nl] in
    if isMcpMode this then [(Stderr, line)] else [(console, line)]
  else [].

Definition error (this : t) (message : LogMessage) : list (Stream * string) :=
  write this ERROR "ERROR" Stderr message.

Definition warn (this : t) (message : LogMessage) : list (Stream * string) :=
  write this WARN "WARN" Stderr message.

Definition info (this : t) (message : LogMessage) : list (Stream * string) :=
  write this INFO "INFO" Stdout message.

Definition debug (this : t) (message : LogMessage) : list (Stream * string) :=
  write this DEBUG "DEBUG" Stdout message.

(** The method of a severity. *)
Definition log (this : t) (l : LogLevel) (message : LogMessage) : list (Stream * string) :=
  match l with
  | ERROR => error this message
  | WARN => warn this message
  | INFO => info this message
  | DEBUG => debug this message
  end.

End Logger.

(* ===================================================================== *)
(** * utils/config.ts                                                     *)
(* ===================================================================== *)

Module Config.

(** [process.env], after [dotenv.config()]. *)
Definition Env : Type := string -> option string.

Section WithParseInt.

(** The type of a JavaScript number and the runtime's [parseInt(s, 10)]. *)
Variable Number : Type.
Variable parseInt10 : string -> Number.

Record Twitch : Type := mkTwitch {
  username : string;
  oauthToken : string;
  channel : string
}.

Record t : Type := mk {
  twitch : Twitch;
  port : Number;
  level : string
}.

(** [!process.env[name]]. *)
Definition isMissing (env : Env) (name : string) : bool :=
  negb (Js.truthy_opt (env name)).

Definition requiredVars : list string := ["TWITCH_USERNAME"; "TWITCH_OAUTH_TOKEN"].

(** [validateConfig()]: the error it throws, if any. *)
Definition validateConfig (env : Env) : option Error :=
  let missing := filter (isMissing env) requiredVars in
  if (0 <? Z.of_nat (List.length missing)) then
    Some (mkError
            (String.concat ""
               ["Missing required environment variables: ";
                McpServer.join ", " missing;
                ". Please check your .env file."]))
  else None.

(** [getConfig()]. *)
Definition getConfig (env : Env) : t + Error :=
  match validateConfig env with
  | Some e => inr e
  | None =>
      inl (mk (mkTwitch (Js.or_else (env "TWITCH_USERNAME") "")
                        (Js.or_else (env "TWITCH_OAUTH_TOKEN") "")
                        (Js.or_else (env "TWITCH_CHANNEL") ""))
              (parseInt10 (Js.or_else (env "PORT") "3000"))
              (Js.or_else (env "LOG_LEVEL") "info"))
  end.

(** The options the singleton of [twitchClient.ts] is built with. *)
Definition clientOptions (config : t) : TwitchClientOptions.t :=
  TwitchClientOptions.mk
    (username (twitch config))
    (oauthToken (twitch config))
    (Some (if Js.truthy (channel (twitch config)) then [channel (twitch config)] else []))
    None.

End WithParseInt.

Arguments mk {Number}.
Arguments twitch {Number}.
Arguments port {Number}.
Arguments level {Number}.
Arguments getConfig {Number}.
Arguments clientOptions {Number}.

End Config.

(* ===================================================================== *)
(** * Notions the properties are stated with                              *)
(* ===================================================================== *)

(** The last [n] elements of [l]. *)
Definition lastn {A : Type} (n : nat) (l : list A) : list A :=
  skipn (List.length l - n) l.

(** A sequence of [addMessage] calls. *)
Definition addAll (st : MessageStore.t) (ms : list Message.t) : MessageStore.t :=
  fold_left MessageStore.addMessage ms st.

(** Ascending timestamps. *)
Definition ascending (l : list Message.t) : Prop :=
  StronglySorted (fun a b => Message.timestamp a <= Message.timestamp b) l.

(** The four criteria of a filter, together. *)
Definition matches (f : MessageFilter.t) (m : Message.t) : bool :=
  MessageStore.matchesUsername f m && MessageStore.matchesContains f m
  && MessageStore.matchesSince f m && MessageStore.matchesUntil f m.

(** What the criteria that are present ask of a message. *)
Definition satisfies (f : MessageFilter.t) (m : Message.t) : Prop :=
  (forall u, MessageFilter.username f = Some u ->
     Js.includes (Js.toLowerCase (Message.username m)) (Js.toLowerCase u) = true)
  /\ (forall c, MessageFilter.contains f = Some c ->
        Js.includes (Js.toLowerCase (Message.message m)) (Js.toLowerCase c) = true)
  /\ (forall d, MessageFilter.since f = Some d ->
        exists t, d = Js.ValidDate t /\ t <= Message.timestamp m)
  /\ (forall d, MessageFilter.until f = Some d ->
        exists t, d = Js.ValidDate t /\ Message.timestamp m <= t).

(** The filtered sequence: what [filterMessages] holds when it reaches the
    pagination step. *)
Definition filteredSequence (st : MessageStore.t) (f : MessageFilter.t) : list Message.t :=
  MessageStore.sortByTimestamp
    (filter (matches f) (MessageStore.getAllMessages st (MessageFilter.channel f))).

(** A filter with the channel of [f] and one of its criteria. *)
Definition onlyUsername (f : MessageFilter.t) : MessageFilter.t :=
  MessageFilter.mk (MessageFilter.channel f) (MessageFilter.username f)
                   None None None None None.

Definition onlyContains (f : MessageFilter.t) : MessageFilter.t :=
  MessageFilter.mk (MessageFilter.channel f) None (MessageFilter.contains f)
                   None None None None.

Definition onlySince (f : MessageFilter.t) : MessageFilter.t :=
  MessageFilter.mk (MessageFilter.channel f) None None (MessageFilter.since f)
                   None None None.

Definition onlyUntil (f : MessageFilter.t) : MessageFilter.t :=
  MessageFilter.mk (MessageFilter.channel f) None None None (MessageFilter.until f)
                   None None.

(** The page and page size [filterMessages] works with. *)
Definition effectivePage (p : Z) : Z := if p <? 0 then 0 else p.
Definition effectivePageSize (s : Z) : Z := if s <=? 0 then 10 else s.

(** A caller that asks for page [p], [p + 1], ... of size [s] (any number)
    until a page comes back empty, and concatenates what it got. Every
    call goes to the store the previous call left. *)
Fixpoint collectPages (fuel : nat) (st : MessageStore.t) (f : MessageFilter.t)
         (s : JsNumber.t) (p : Z) : option (list Message.t) :=
  match fuel with
  | O => None
  | S fuel' =>
      match AnyNumber.filterMessages st f (Some (JsNumber.whole p)) (Some s) with
      | ([], _) => Some []
      | (pg, st') => option_map (app pg) (collectPages fuel' st' f s (p + 1))
      end
  end.

(** The operations that change a store. *)
Inductive StoreOp : Type :=
| OpAdd (message : Message.t)
| OpClear (channel : option string)
| OpFilter (filter : MessageFilter.t).

Definition applyOp (st : MessageStore.t) (op : StoreOp) : MessageStore.t :=
  match op with
  | OpAdd message => MessageStore.addMessage st message
  | OpClear channel => MessageStore.clearMessages st channel
  | OpFilter f => snd (MessageStore.filterMessages st f)
  end.

Definition applyOps (st : MessageStore.t) (ops : list StoreOp) : MessageStore.t :=
  fold_left applyOp ops st.

(** The keys of the map. *)
Definition keys (st : MessageStore.t) : list string :=
  map fst (MessageStore.messages st).

(** Every message is filed under the lower-cased name of its channel, and
    no history is longer than the bound. *)
Definition filedAndBounded (st : MessageStore.t) : Prop :=
  Forall (fun kv =>
            Forall (fun m => Js.toLowerCase (Message.channel m) = fst kv) (snd kv)
            /\ Z.of_nat (List.length (snd kv)) <= MessageStore.maxMessagesPerChannel st)
         (MessageStore.messages st).

(** Every history of the store is in ascending timestamp order. *)
Definition monotone (st : MessageStore.t) : Prop :=
  Forall (fun kv => ascending (snd kv)) (MessageStore.messages st).

(** The number of ['connected'] events among the inputs. *)
Definition connects (inputs : list Input) : nat :=
  List.length (filter World.isEvConnected inputs).

Definition isClientSay (e : Effect) : bool :=
  match e with
  | ClientSay _ _ => true
  | _ => false
  end.

(** A ['message'] event of somebody else: the one input that reaches the
    store. *)
Definition isForeignMessage (i : Input) : bool :=
  match i with
  | EvMessage _ _ _ false _ _ => true
  | _ => false
  end.

(** The message the ['message'] handler builds. *)
Definition messageOf (channel : string) (userstate : Userstate) (message : string)
           (now : Z) (generatedId : string) : Message.t :=
  Message.mk
    (Js.or_else (us_id userstate) generatedId)
    (Js.replace_hash channel)
    (Js.or_else (us_display_name userstate)
                (Js.or_else (us_username userstate) "anonymous"))
    message now (us_tags userstate).

(** The calls to [client.say] among the effects. *)
Definition says (effs : list Effect) : list Effect := filter isClientSay effs.

(** The level a configured name stands for: its own entry in the map, or
    [INFO] for a name the map does not have. *)
Definition effectiveLevel (configuredLevel : string) : Logger.LogLevel :=
  match Logger.LOG_LEVEL_MAP (Js.toLowerCase configuredLevel) with
  | Logger.Own l => l
  | _ => Logger.INFO
  end.

(** The tag a method writes. *)
Definition tagOf (l : Logger.LogLevel) : string :=
  match l with
  | Logger.ERROR => "ERROR"
  | Logger.WARN => "WARN"
  | Logger.INFO => "INFO"
  | Logger.DEBUG => "DEBUG"
  end.

(** How many messages a limit of at least 1 keeps of a history of length
    [len]: its whole part, or all of them. *)
Definition kept (limit : JsNumber.t) (len : nat) : nat :=
  match JsNumber.toIntegerOrInfinity limit with
  | JsNumber.Whole z => Nat.min (Z.to_nat z) len
  | JsNumber.PlusInfinity => len
  | JsNumber.MinusInfinity => O
  end.

(** The number one half. *)
Definition half : JsNumber.t := JsNumber.Finite (QArith_base.Qmake 1 2).

(* ===================================================================== *)
(** * Sample data                                                         *)
(* ===================================================================== *)

Module Sample.

Definition msg (i : string) (c u txt : string) (ts : Z) : Message.t :=
  Message.mk i c u txt ts [].

Definition m1 := msg "1" "foo" "ann" "hello" 1000.
Definition m2 := msg "2" "foo" "bob" "Hello Ann" 2000.
Definition m3 := msg "3" "foo" "Annabel" "bye" 3000.
Definition m4 := msg "4" "foo" "carl" "hello again" 4000.
Definition m5 := msg "5" "foo" "ANN" "HELLO" 5000.
Definition b1 := msg "6" "bar" "ann" "hello bar" 2500.

(** A store of bound 3. *)
Definition small : MessageStore.t := MessageStore.constructor (Some 3).

(** The default store after [m1..m5] and one message on another channel. *)
Definition five : MessageStore.t :=
  addAll (MessageStore.constructor None) [m1; m2; b1; m3; m4; m5].

(** A filter with no criterion. *)
Definition noCriteria (channel : option string) : MessageFilter.t :=
  MessageFilter.mk channel None None None None None None.

Definition a := msg "a" "foo" "ann" "one" 100.
Definition b := msg "b" "foo" "Ann_B" "two" 200.
Definition x := msg "x" "foo" "bob" "three" 250.
Definition c := msg "c" "bar" "joANNe" "four" 300.
Definition d := msg "d" "foo" "ann" "five" 400.
Definition y := msg "y" "foo" "carl" "six" 450.
Definition e := msg "e" "foo" "ANN" "seven" 500.

(** Five messages of users whose name contains "ann", two of others. *)
Definition anns : MessageStore.t :=
  addAll (MessageStore.constructor None) [a; b; x; c; d; y; e].

Definition annPage1 : MessageFilter.t :=
  MessageFilter.mk None (Some "ann") None None None (Some 1) (Some 2).

(** Two messages whose timestamps go against the arrival order. *)
Definition late := msg "L" "foo" "zed" "late" 900.
Definition early := msg "E" "foo" "zed" "early" 100.

Definition unordered : MessageStore.t :=
  addAll (MessageStore.constructor None) [late; early].

Definition options : TwitchClientOptions.t :=
  TwitchClientOptions.mk "bot" "oauth:token" (Some ["Foo"]) None.

Definition connectedClient : TwitchClient.t := TwitchClient.mk ["foo"] true 0.

Definition connectedWorld : World.t :=
  World.mk connectedClient (MessageStore.constructor None) 0 [].

Definition socketClosed : Error := mkError "Socket is not opened".

Definition drop : Input := EvDisconnected "Connection closed.".

Definition badSince : McpServer.FilterArgs :=
  McpServer.mkFilterArgs (Some "foo") None None (Some "not-a-date") None None None.

End Sample.

(* ===================================================================== *)
(** * Properties of the message store                                     *)
(* ===================================================================== *)

(** ** The map *)

Lemma get_set_eq {V : Type} (k : string) (v : V) (m : JsMap.t V) :
  JsMap.get k (JsMap.set k v m) = Some v.
Proof.
  induction m as [|[k' v'] m IH]; simpl.
  - now rewrite String.eqb_refl.
  - destruct (String.eqb k k') eqn:E; simpl; rewrite E; auto.
Qed.

Lemma get_set_ne {V : Type} (k k' : string) (v : V) (m : JsMap.t V) :
  k' <> k -> JsMap.get k' (JsMap.set k v m) = JsMap.get k' m.
Proof.
  intros Hne. induction m as [|[k0 v0] m IH]; simpl.
  - apply String.eqb_neq in Hne. now rewrite Hne.
  - destruct (String.eqb k k0) eqn:E; simpl.
    + apply String.eqb_eq in E. subst k0.
      apply String.eqb_neq in Hne. now rewrite Hne.
    + now rewrite IH.
Qed.

Lemma get_delete_eq {V : Type} (k : string) (m : JsMap.t V) :
  JsMap.get k (JsMap.delete k m) = None.
Proof.
  induction m as [|[k0 v0] m IH]; simpl; auto.
  destruct (String.eqb k k0) eqn:E; simpl; auto.
  now rewrite E.
Qed.

Lemma get_delete_ne {V : Type} (k k' : string) (m : JsMap.t V) :
  k' <> k -> JsMap.get k' (JsMap.delete k m) = JsMap.get k' m.
Proof.
  intros Hne. induction m as [|[k0 v0] m IH]; simpl; auto.
  destruct (String.eqb k k0) eqn:E; simpl.
  - apply String.eqb_eq in E. subst k0.
    apply String.eqb_neq in Hne. now rewrite Hne.
  - now rewrite IH.
Qed.

(** Apart from the entry of [k], [set k] leaves the map as it was, order
    included. *)
Lemma delete_set {V : Type} (k : string) (v : V) (m : JsMap.t V) :
  JsMap.delete k (JsMap.set k v m) = JsMap.delete k m.
Proof.
  induction m as [|[k0 v0] m IH]; simpl.
  - now rewrite String.eqb_refl.
  - destruct (String.eqb k k0) eqn:E; simpl; rewrite E; simpl; auto.
    now rewrite IH.
Qed.

(** ** Suffixes *)

Lemma lastn_skipn {A : Type} (n j : nat) (l : list A) :
  (n + j <= List.length l)%nat -> lastn n (skipn j l) = lastn n l.
Proof.
  intros H. unfold lastn. rewrite length_skipn, skipn_skipn.
  f_equal. lia.
Qed.

Lemma lastn_all {A : Type} (n : nat) (l : list A) :
  (List.length l <= n)%nat -> lastn n l = l.
Proof.
  intros H. unfold lastn. replace (List.length l - n)%nat with O by lia. reflexivity.
Qed.

Lemma length_lastn {A : Type} (n : nat) (l : list A) :
  List.length (lastn n l) = Nat.min n (List.length l).
Proof. unfold lastn. rewrite length_skipn. lia. Qed.

Lemma prune_lastn (bound : Z) (l : list Message.t) :
  0 <= bound -> MessageStore.prune bound l = lastn (Z.to_nat bound) l.
Proof.
  intros Hb. unfold MessageStore.prune, Js.splice0, lastn.
  destruct (Z.gtb_spec (Z.of_nat (List.length l)) bound).
  - f_equal. lia.
  - replace (List.length l - Z.to_nat bound)%nat with O by lia. reflexivity.
Qed.

(** ** [addMessage], one call *)

Lemma addMessage_history (st : MessageStore.t) (m : Message.t) :
  MessageStore.channelHistory (MessageStore.addMessage st m)
                              (Js.toLowerCase (Message.channel m))
  = MessageStore.prune (MessageStore.maxMessagesPerChannel st)
      (MessageStore.channelHistory st (Js.toLowerCase (Message.channel m)) ++ [m]).
Proof.
  unfold MessageStore.addMessage, MessageStore.channelHistory, JsMap.has.
  destruct (JsMap.get (Js.toLowerCase (Message.channel m)) (MessageStore.messages st))
    as [h|] eqn:E; simpl.
  - rewrite E. simpl. now rewrite get_set_eq.
  - rewrite get_set_eq. simpl. now rewrite get_set_eq.
Qed.

Lemma addMessage_other (st : MessageStore.t) (m : Message.t) (k : string) :
  k <> Js.toLowerCase (Message.channel m) ->
  JsMap.get k (MessageStore.messages (MessageStore.addMessage st m))
  = JsMap.get k (MessageStore.messages st).
Proof.
  intros Hne. unfold MessageStore.addMessage, JsMap.has.
  destruct (JsMap.get (Js.toLowerCase (Message.channel m)) (MessageStore.messages st))
    as [h|] eqn:E; simpl.
  - rewrite E. simpl. now rewrite get_set_ne.
  - rewrite get_set_eq. simpl. now rewrite !get_set_ne.
Qed.

Lemma addMessage_rest (st : MessageStore.t) (m : Message.t) :
  JsMap.delete (Js.toLowerCase (Message.channel m))
               (MessageStore.messages (MessageStore.addMessage st m))
  = JsMap.delete (Js.toLowerCase (Message.channel m)) (MessageStore.messages st).
Proof.
  unfold MessageStore.addMessage, JsMap.has.
  destruct (JsMap.get (Js.toLowerCase (Message.channel m)) (MessageStore.messages st))
    as [h|] eqn:E; simpl.
  - rewrite E. simpl. now rewrite delete_set.
  - rewrite get_set_eq. simpl. now rewrite !delete_set.
Qed.

Lemma addMessage_bound (st : MessageStore.t) (m : Message.t) :
  MessageStore.maxMessagesPerChannel (MessageStore.addMessage st m)
  = MessageStore.maxMessagesPerChannel st.
Proof.
  unfold MessageStore.addMessage.
  destruct (JsMap.get _ _); reflexivity.
Qed.

Lemma addAll_bound (ms : list Message.t) (st : MessageStore.t) :
  MessageStore.maxMessagesPerChannel (addAll st ms)
  = MessageStore.maxMessagesPerChannel st.
Proof.
  revert st. induction ms as [|m ms IH]; intros st; simpl; auto.
  unfold addAll in *. simpl. rewrite IH. apply addMessage_bound.
Qed.

(** ** [addMessage], a sequence of calls on one channel *)

Lemma addAll_history (c : string) (st : MessageStore.t) (ms : list Message.t) :
  0 <= MessageStore.maxMessagesPerChannel st ->
  MessageStore.channelHistory st c = [] ->
  Forall (fun m => Js.toLowerCase (Message.channel m) = c) ms ->
  MessageStore.channelHistory (addAll st ms) c
  = lastn (Nat.min (List.length ms) (Z.to_nat (MessageStore.maxMessagesPerChannel st))) ms.
Proof.
  intros Hb H0. induction ms as [|m ms IH] using rev_ind; intros Hall.
  - simpl. rewrite H0. reflexivity.
  - apply Forall_app in Hall. destruct Hall as [Hms Hm].
    inversion Hm as [|? ? Hc _]; subst.
    unfold addAll. rewrite fold_left_app. simpl. fold (addAll st ms).
    rewrite addMessage_history, addAll_bound, (IH Hms).
    rewrite prune_lastn by assumption.
    set (B := Z.to_nat (MessageStore.maxMessagesPerChannel st)).
    rewrite length_app. simpl.
    unfold lastn at 2.
    replace (skipn (List.length ms - Nat.min (List.length ms) B) ms ++ [m])
      with (skipn (List.length ms - Nat.min (List.length ms) B) (ms ++ [m])).
    2:{ rewrite skipn_app.
        replace (List.length ms - Nat.min (List.length ms) B - List.length ms)%nat
          with O by lia.
        reflexivity. }
    destruct (Nat.le_gt_cases (List.length ms + 1) B) as [Hle|Hgt].
    + replace (List.length ms - Nat.min (List.length ms) B)%nat with O by lia.
      simpl. rewrite !lastn_all; auto; rewrite length_app; simpl; lia.
    + replace (Nat.min (List.length ms + 1) B) with B by lia.
      apply lastn_skipn. rewrite length_app. simpl. lia.
Qed.

(** The same for calls on any channels: the history of [c] is made of the
    last messages sent to [c]. *)
Lemma addAll_history_interleaved (c : string) (st : MessageStore.t) (ms : list Message.t) :
  0 <= MessageStore.maxMessagesPerChannel st ->
  MessageStore.channelHistory st c = [] ->
  MessageStore.channelHistory (addAll st ms) c
  = lastn (Z.to_nat (MessageStore.maxMessagesPerChannel st))
          (filter (fun m => String.eqb (Js.toLowerCase (Message.channel m)) c) ms).
Proof.
  intros Hb H0. induction ms as [|m ms IH] using rev_ind.
  - simpl. rewrite H0. reflexivity.
  - unfold addAll. rewrite fold_left_app. simpl. fold (addAll st ms).
    rewrite filter_app. simpl.
    destruct (String.eqb_spec (Js.toLowerCase (Message.channel m)) c) as [E|Hne].
    + subst c. rewrite addMessage_history, addAll_bound, IH, prune_lastn by assumption.
      set (B := Z.to_nat (MessageStore.maxMessagesPerChannel st)).
      set (l := filter _ ms).
      unfold lastn at 2.
      replace (skipn (List.length l - B) l ++ [m])
        with (skipn (List.length l - B) (l ++ [m])).
      2:{ rewrite skipn_app.
          replace (List.length l - B - List.length l)%nat with O by lia. reflexivity. }
      destruct (Nat.le_gt_cases (List.length l + 1) B) as [Hle|Hgt].
      * replace (List.length l - B)%nat with O by lia.
        simpl. rewrite !lastn_all; auto; rewrite length_app; simpl; lia.
      * apply lastn_skipn. rewrite length_app. simpl. lia.
    + rewrite app_nil_r. unfold MessageStore.channelHistory in *.
      rewrite addMessage_other by congruence. exact IH.
Qed.

(** C1. Bound invariant. On a store whose bound is a count (not negative),
    for every sequence [ms] of [addMessage] calls on one channel [c] that
    starts empty, after each call (the first [k] of them, for every [k]) the
    history of [c] holds at most [maxMessagesPerChannel] messages, and it is
    exactly the last [min k bound] messages inserted, in arrival order: what
    is evicted is the oldest part. *)
Theorem addMessage_bound_invariant
  (st : MessageStore.t) (c : string) (ms : list Message.t) (k : nat) :
  0 <= MessageStore.maxMessagesPerChannel st ->
  MessageStore.channelHistory st c = [] ->
  Forall (fun m => Js.toLowerCase (Message.channel m) = c) ms ->
  (k <= List.length ms)%nat ->
  Z.of_nat (List.length (MessageStore.channelHistory (addAll st (firstn k ms)) c))
    <= MessageStore.maxMessagesPerChannel st
  /\ MessageStore.channelHistory (addAll st (firstn k ms)) c
     = lastn (Nat.min k (Z.to_nat (MessageStore.maxMessagesPerChannel st)))
             (firstn k ms).
Proof.
  intros Hb H0 Hall Hk.
  assert (Hall' : Forall (fun m => Js.toLowerCase (Message.channel m) = c) (firstn k ms)).
  { rewrite <- (firstn_skipn k ms) in Hall. apply Forall_app in Hall. tauto. }
  pose proof (addAll_history c st (firstn k ms) Hb H0 Hall') as H.
  rewrite length_firstn in H.
  replace (Nat.min k (List.length ms)) with k in H by lia.
  split; [|exact H].
  rewrite H, length_lastn, length_firstn. lia.
Qed.

Lemma addMessage_bound_invariant_witness :
  0 <= MessageStore.maxMessagesPerChannel Sample.small
  /\ MessageStore.channelHistory
       (addAll Sample.small [Sample.m1; Sample.m2; Sample.m3; Sample.m4; Sample.m5]) "foo"
     = [Sample.m3; Sample.m4; Sample.m5].
Proof.
  split; [vm_compute; discriminate|].
  apply (addMessage_bound_invariant Sample.small "foo"
           [Sample.m1; Sample.m2; Sample.m3; Sample.m4; Sample.m5] 5).
  - vm_compute. discriminate.
  - reflexivity.
  - repeat constructor.
  - simpl. lia.
Defined.

(** The scenario of the design document: 1001 messages into the default
    store, the first one is gone. *)
Lemma default_store_evicts_first (c : string) (ms : list Message.t) :
  List.length ms = 1001%nat ->
  Forall (fun m => Js.toLowerCase (Message.channel m) = c) ms ->
  MessageStore.channelHistory (addAll (MessageStore.constructor None) ms) c
  = skipn 1 ms.
Proof.
  intros Hlen Hall.
  rewrite (addAll_history c); auto; simpl; try lia.
  unfold lastn. rewrite Hlen. reflexivity.
Qed.

(** With a negative bound every history is emptied by the pruning. *)
Lemma negative_bound_keeps_nothing (st : MessageStore.t) (m : Message.t) :
  MessageStore.maxMessagesPerChannel st < 0 ->
  MessageStore.channelHistory (MessageStore.addMessage st m)
                              (Js.toLowerCase (Message.channel m)) = [].
Proof.
  intros Hneg. rewrite addMessage_history.
  unfold MessageStore.prune, Js.splice0.
  destruct (Z.gtb_spec
              (Z.of_nat (List.length
                 (MessageStore.channelHistory st (Js.toLowerCase (Message.channel m)) ++ [m])))
              (MessageStore.maxMessagesPerChannel st)); [|lia].
  apply skipn_all2. lia.
Qed.

(** C10. Frame. [addMessage m] leaves the entry of every key other than the
    lower-cased channel of [m] as it was (and the rest of the map, order
    included); [clearMessages c], for a channel name [c] that is not the
    empty string, deletes the entry of the lower-cased [c] and nothing
    else, and keeps the bound. *)
Theorem store_frame (st : MessageStore.t) (m : Message.t) (c k : string) :
  c <> "" ->
  (k <> Js.toLowerCase (Message.channel m) ->
     JsMap.get k (MessageStore.messages (MessageStore.addMessage st m))
     = JsMap.get k (MessageStore.messages st))
  /\ JsMap.delete (Js.toLowerCase (Message.channel m))
                  (MessageStore.messages (MessageStore.addMessage st m))
     = JsMap.delete (Js.toLowerCase (Message.channel m)) (MessageStore.messages st)
  /\ MessageStore.messages (MessageStore.clearMessages st (Some c))
     = JsMap.delete (Js.toLowerCase c) (MessageStore.messages st)
  /\ (k <> Js.toLowerCase c ->
        JsMap.get k (MessageStore.messages (MessageStore.clearMessages st (Some c)))
        = JsMap.get k (MessageStore.messages st))
  /\ MessageStore.maxMessagesPerChannel (MessageStore.clearMessages st (Some c))
     = MessageStore.maxMessagesPerChannel st.
Proof.
  intros Hc.
  assert (Ht : Js.truthy c = true).
  { unfold Js.truthy. apply String.eqb_neq in Hc. now rewrite Hc. }
  split; [apply addMessage_other|].
  split; [apply addMessage_rest|].
  unfold MessageStore.clearMessages, Js.truthy_opt, Js.or_else. rewrite Ht. simpl.
  split; [reflexivity|].
  split; [|reflexivity].
  apply get_delete_ne.
Qed.

Lemma store_frame_witness :
  "FOO" <> ""
  /\ JsMap.get "bar" (MessageStore.messages
                        (MessageStore.addMessage Sample.five Sample.m1))
     = JsMap.get "bar" (MessageStore.messages Sample.five)
  /\ JsMap.get "bar" (MessageStore.messages
                        (MessageStore.clearMessages Sample.five (Some "FOO")))
     = JsMap.get "bar" (MessageStore.messages Sample.five).
Proof.
  split; [discriminate|].
  destruct (store_frame Sample.five Sample.m1 "FOO" "bar") as (Ha & _ & _ & Hc & _).
  - discriminate.
  - split; [apply Ha | apply Hc]; vm_compute; discriminate.
Defined.

Lemma clearMessages_empty_name_clears_all :
  "foo" <> Js.toLowerCase ""
  /\ MessageStore.channelHistory Sample.five "foo"
     = [Sample.m1; Sample.m2; Sample.m3; Sample.m4; Sample.m5]
  /\ JsMap.get "foo" (MessageStore.messages
                        (MessageStore.clearMessages Sample.five (Some ""))) = None.
Proof.
  split; [vm_compute; discriminate|]. split; reflexivity.
Qed.


(** ** The stable sort *)

Section SortBy.

Context {A : Type} (key : A -> Z).

Let le (a b : A) : Prop := key a <= key b.

Lemma insert_by_In (x y : A) (l : list A) :
  In y (Js.insert_by key x l) <-> y = x \/ In y l.
Proof.
  induction l as [|z l IH]; simpl.
  - intuition congruence.
  - destruct (key x <=? key z); simpl; rewrite ?IH; intuition congruence.
Qed.

Lemma sort_by_In (y : A) (l : list A) : In y (Js.sort_by key l) <-> In y l.
Proof.
  induction l as [|x l IH]; simpl; [tauto|].
  rewrite insert_by_In, IH. intuition congruence.
Qed.

Lemma insert_by_length (x : A) (l : list A) :
  List.length (Js.insert_by key x l) = S (List.length l).
Proof.
  induction l as [|z l IH]; simpl; auto.
  destruct (key x <=? key z); simpl; auto.
Qed.

Lemma sort_by_length (l : list A) : List.length (Js.sort_by key l) = List.length l.
Proof.
  induction l as [|x l IH]; simpl; auto.
  now rewrite insert_by_length, IH.
Qed.

Lemma insert_by_sorted (x : A) (l : list A) :
  StronglySorted le l -> StronglySorted le (Js.insert_by key x l).
Proof.
  induction 1 as [|z l Hs IH Hall]; simpl.
  - repeat constructor.
  - destruct (Z.leb_spec (key x) (key z)) as [Hle|Hgt].
    + constructor; [constructor; assumption|].
      constructor; [exact Hle|].
      rewrite Forall_forall in *. intros y Hy. unfold le in *.
      specialize (Hall y Hy). lia.
    + constructor; [exact IH|].
      rewrite Forall_forall in *. intros y Hy.
      apply insert_by_In in Hy. destruct Hy as [->|Hy]; unfold le in *.
      * lia.
      * now apply Hall.
Qed.

Lemma sort_by_sorted (l : list A) : StronglySorted le (Js.sort_by key l).
Proof.
  induction l as [|x l IH]; simpl; [constructor|].
  now apply insert_by_sorted.
Qed.

(** Sorting an ascending array changes nothing. *)
Lemma sort_by_id (l : list A) : StronglySorted le l -> Js.sort_by key l = l.
Proof.
  induction 1 as [|x l Hs IH Hall]; simpl; auto.
  rewrite IH. destruct l as [|y l]; simpl; auto.
  inversion Hall as [|? ? Hxy _]; subst. unfold le in Hxy.
  destruct (Z.leb_spec (key x) (key y)); [reflexivity|lia].
Qed.

Lemma sort_by_idem (l : list A) :
  Js.sort_by key (Js.sort_by key l) = Js.sort_by key l.
Proof. apply sort_by_id, sort_by_sorted. Qed.

Lemma sort_by_perm (l : list A) : Permutation (Js.sort_by key l) l.
Proof.
  induction l as [|x l IH]; simpl; [constructor|].
  transitivity (x :: Js.sort_by key l); [|now constructor].
  generalize (Js.sort_by key l). intros s.
  induction s as [|z s IHs]; simpl; auto.
  destruct (key x <=? key z); auto.
  transitivity (z :: x :: s); [now constructor | apply perm_swap].
Qed.

End SortBy.

Lemma sortByTimestamp_ascending (l : list Message.t) :
  ascending (MessageStore.sortByTimestamp l).
Proof. apply sort_by_sorted. Qed.

Lemma sortByTimestamp_id (l : list Message.t) :
  ascending l -> MessageStore.sortByTimestamp l = l.
Proof. apply sort_by_id. Qed.

(** ** [slice] *)

Lemma firstn_min_length {A : Type} (n : nat) (l : list A) :
  firstn (Nat.min n (List.length l)) l = firstn n l.
Proof.
  destruct (Nat.le_gt_cases n (List.length l)).
  - now replace (Nat.min n (List.length l)) with n by lia.
  - replace (Nat.min n (List.length l)) with (List.length l) by lia.
    rewrite firstn_all, firstn_all2; auto. lia.
Qed.

(** On indices that are not negative, [slice a (a + n)] drops [a] elements
    and takes [n]. *)
Lemma slice_window {A : Type} (a n : Z) (l : list A) :
  0 <= a -> 0 <= n ->
  Js.slice a (a + n) l = firstn (Z.to_nat n) (skipn (Z.to_nat a) l).
Proof.
  intros Ha Hn. unfold Js.slice, Js.rel_index.
  destruct (Z.ltb_spec a 0); [lia|].
  destruct (Z.ltb_spec (a + n) 0); [lia|].
  destruct (Z.le_gt_cases (Z.of_nat (List.length l)) a) as [Hout|Hin].
  - rewrite !skipn_all2 by lia. now rewrite !firstn_nil.
  - replace (Z.to_nat (Z.min a (Z.of_nat (List.length l)))) with (Z.to_nat a) by lia.
    rewrite <- (firstn_min_length (Z.to_nat n)).
    f_equal. rewrite length_skipn. lia.
Qed.

(** [slice(-k)] for [0 < k <= len] keeps the last [k] elements; [slice(-0)]
    is [slice(0)] and keeps everything. *)
Lemma slice_from_neg {A : Type} (k : Z) (l : list A) :
  0 < k -> Js.slice_from (- k) l = lastn (Z.to_nat k) l.
Proof.
  intros Hk. unfold Js.slice_from, Js.rel_index, lastn.
  destruct (Z.ltb_spec (- k) 0); [|lia].
  f_equal. lia.
Qed.

Lemma slice_from_zero {A : Type} (l : list A) : Js.slice_from (- 0) l = l.
Proof.
  unfold Js.slice_from, Js.rel_index. simpl.
  now replace (Z.to_nat (Z.min 0 (Z.of_nat (List.length l)))) with O by lia.
Qed.

(** ** Numbers *)

(** On whole numbers the operations on numbers are the ones on integers. *)
Lemma toIntegerOrInfinity_whole (z : Z) :
  JsNumber.toIntegerOrInfinity (JsNumber.whole z) = JsNumber.Whole z.
Proof.
  unfold JsNumber.toIntegerOrInfinity, JsNumber.whole.
  cbn [QArith_base.Qnum QArith_base.Qden QArith_base.inject_Z].
  now rewrite Z.quot_1_r.
Qed.

Lemma relativeIndex_whole (len z : Z) :
  JsNumber.relativeIndex len (JsNumber.whole z) = Js.rel_index len z.
Proof. unfold JsNumber.relativeIndex. now rewrite toIntegerOrInfinity_whole. Qed.

Lemma slice_whole {A : Type} (a b : Z) (l : list A) :
  JsNumber.slice (JsNumber.whole a) (JsNumber.whole b) l = Js.slice a b l.
Proof. unfold JsNumber.slice, Js.slice. now rewrite !relativeIndex_whole. Qed.

Lemma sliceFrom_whole {A : Type} (a : Z) (l : list A) :
  JsNumber.sliceFrom (JsNumber.whole a) l = Js.slice_from a l.
Proof. unfold JsNumber.sliceFrom, Js.slice_from. now rewrite relativeIndex_whole. Qed.

Lemma leb_whole (a b : Z) :
  JsNumber.leb (JsNumber.whole a) (JsNumber.whole b) = (a <=? b).
Proof.
  unfold JsNumber.leb, JsNumber.whole, QArith_base.Qle_bool.
  cbn [QArith_base.Qnum QArith_base.Qden QArith_base.inject_Z].
  now rewrite !Z.mul_1_r.
Qed.

Lemma ltb_whole (a b : Z) :
  JsNumber.ltb (JsNumber.whole a) (JsNumber.whole b) = (a <? b).
Proof.
  unfold JsNumber.ltb, JsNumber.whole, QArith_base.Qle_bool.
  cbn [QArith_base.Qnum QArith_base.Qden QArith_base.inject_Z].
  rewrite !Z.mul_1_r. symmetry. apply Z.ltb_antisym.
Qed.

Lemma mul_whole (a b : Z) :
  JsNumber.mul (JsNumber.whole a) (JsNumber.whole b) = JsNumber.whole (a * b).
Proof. reflexivity. Qed.

Lemma add_whole (a b : Z) :
  JsNumber.add (JsNumber.whole a) (JsNumber.whole b) = JsNumber.whole (a + b).
Proof.
  unfold JsNumber.add, JsNumber.whole, QArith_base.Qplus, QArith_base.inject_Z.
  cbn [QArith_base.Qnum QArith_base.Qden Pos.mul].
  now rewrite !Z.mul_1_r.
Qed.

Lemma opp_whole (a : Z) : JsNumber.opp (JsNumber.whole a) = JsNumber.whole (- a).
Proof. reflexivity. Qed.

Lemma min_whole (a b : Z) :
  JsNumber.min (JsNumber.whole a) (JsNumber.whole b) = JsNumber.whole (Z.min a b).
Proof.
  pose proof (leb_whole a b) as H.
  unfold JsNumber.min. unfold JsNumber.whole at 1 2.
  fold (JsNumber.whole a). fold (JsNumber.whole b). rewrite H.
  destruct (Z.leb_spec a b); f_equal; lia.
Qed.

(** A slice holds elements of the array only, whatever the two indices. *)
Lemma slice_In {A : Type} (a b : JsNumber.t) (l : list A) (x : A) :
  In x (JsNumber.slice a b l) -> In x l.
Proof.
  unfold JsNumber.slice. intros H.
  set (k := Z.to_nat (JsNumber.relativeIndex (Z.of_nat (List.length l)) a)) in *.
  rewrite <- (firstn_skipn k l). apply in_or_app. right.
  set (n := Z.to_nat (JsNumber.relativeIndex (Z.of_nat (List.length l)) b
                      - JsNumber.relativeIndex (Z.of_nat (List.length l)) a)) in *.
  rewrite <- (firstn_skipn n (skipn k l)). apply in_or_app. now left.
Qed.

(** ** [getRecentMessages] *)

(** For a positive limit: at most [limit] messages, the last
    [min limit len] of the history, sorted by timestamp. *)
Lemma getRecentMessages_positive (st : MessageStore.t) (channel : string) (limit : Z) :
  0 < limit ->
  MessageStore.getRecentMessages st channel (Some limit)
  = MessageStore.sortByTimestamp
      (lastn (Z.to_nat limit)
             (MessageStore.channelHistory st (Js.toLowerCase channel)))
  /\ Z.of_nat (List.length (MessageStore.getRecentMessages st channel (Some limit)))
     <= limit.
Proof.
  intros Hl. unfold MessageStore.getRecentMessages.
  set (h := MessageStore.channelHistory st (Js.toLowerCase channel)).
  destruct h as [|m h'] eqn:Eh.
  - simpl. rewrite Z.min_r by lia. simpl. unfold lastn. simpl. split; [reflexivity|lia].
  - rewrite slice_from_neg by (simpl List.length; lia).
    assert (E : lastn (Z.to_nat (Z.min limit (Z.of_nat (List.length (m :: h'))))) (m :: h')
                = lastn (Z.to_nat limit) (m :: h')).
    { unfold lastn. f_equal. lia. }
    rewrite E. split; [reflexivity|].
    unfold MessageStore.sortByTimestamp. rewrite sort_by_length, length_lastn. lia.
Qed.

(** An unknown channel gives the empty array, whatever the limit. *)
Lemma getRecentMessages_unknown (st : MessageStore.t) (channel : string) (limit : option Z) :
  JsMap.get (Js.toLowerCase channel) (MessageStore.messages st) = None ->
  MessageStore.getRecentMessages st channel limit = [].
Proof.
  intros H. unfold MessageStore.getRecentMessages, MessageStore.channelHistory.
  rewrite H. simpl. unfold Js.slice_from. rewrite skipn_nil. reflexivity.
Qed.

(** The scenario of the design document. *)
Lemma getRecentMessages_example :
  MessageStore.getRecentMessages Sample.five "foo" (Some 3)
  = [Sample.m3; Sample.m4; Sample.m5].
Proof. reflexivity. Qed.

(** With limit 0 the slice is [slice(-0)], the whole history. *)
Lemma getRecentMessages_zero (st : MessageStore.t) (channel : string) :
  MessageStore.getRecentMessages st channel (Some 0)
  = MessageStore.sortByTimestamp
      (MessageStore.channelHistory st (Js.toLowerCase channel)).
Proof.
  unfold MessageStore.getRecentMessages.
  rewrite Z.min_l by lia. now rewrite slice_from_zero.
Qed.

(** On a whole limit the method on numbers is the method on integers. *)
Lemma getRecentMessages_whole (st : MessageStore.t) (channel : string) (limit : option Z) :
  AnyNumber.getRecentMessages st channel (option_map JsNumber.whole limit)
  = MessageStore.getRecentMessages st channel limit.
Proof.
  unfold AnyNumber.getRecentMessages, MessageStore.getRecentMessages.
  assert (E : match option_map JsNumber.whole limit with
              | Some n => n
              | None => JsNumber.whole 10
              end
              = JsNumber.whole match limit with Some n => n | None => 10 end)
    by now destruct limit.
  rewrite E. now rewrite min_whole, opp_whole, sliceFrom_whole.
Qed.

Lemma kept_whole (z : Z) (len : nat) :
  kept (JsNumber.whole z) len = Nat.min (Z.to_nat z) len.
Proof. unfold kept. now rewrite toIntegerOrInfinity_whole. Qed.

Lemma kept_finite (n : Z) (d : positive) (len : nat) :
  kept (JsNumber.Finite (QArith_base.Qmake n d)) len
  = Nat.min (Z.to_nat (Z.quot n (Zpos d))) len.
Proof. reflexivity. Qed.

Lemma kept_le (limit : JsNumber.t) (len : nat) : (kept limit len <= len)%nat.
Proof.
  unfold kept. destruct (JsNumber.toIntegerOrInfinity limit); lia.
Qed.

(** When the limit is at least the length, or the length itself is taken,
    the slice is the whole history. *)
Lemma sliceFrom_opp_length {A : Type} (l : list A) :
  JsNumber.sliceFrom (JsNumber.opp (JsNumber.whole (Z.of_nat (List.length l)))) l = l.
Proof.
  rewrite opp_whole, sliceFrom_whole.
  unfold Js.slice_from, Js.rel_index.
  destruct (Z.ltb_spec (- Z.of_nat (List.length l)) 0).
  - now replace (Z.to_nat (Z.max (Z.of_nat (List.length l) + - Z.of_nat (List.length l)) 0))
      with O by lia.
  - now replace (Z.to_nat (Z.min (- Z.of_nat (List.length l)) (Z.of_nat (List.length l))))
      with O by lia.
Qed.

(** A limit that is at least 1, whole or not, finite or not: the last
    [kept limit len] messages of the history, sorted by timestamp. *)
Lemma getRecentMessages_at_least_one
  (st : MessageStore.t) (channel : string) (limit : JsNumber.t) :
  JsNumber.leb (JsNumber.whole 1) limit = true ->
  AnyNumber.getRecentMessages st channel (Some limit)
  = MessageStore.sortByTimestamp
      (lastn (kept limit
                (List.length (MessageStore.channelHistory st (Js.toLowerCase channel))))
             (MessageStore.channelHistory st (Js.toLowerCase channel))).
Proof.
  intros Hl. unfold AnyNumber.getRecentMessages.
  set (h := MessageStore.channelHistory st (Js.toLowerCase channel)).
  f_equal.
  destruct limit as [[n d]| | |]; try discriminate.
  - unfold JsNumber.leb, JsNumber.whole, QArith_base.Qle_bool in Hl.
    cbn [QArith_base.Qnum QArith_base.Qden QArith_base.inject_Z] in Hl.
    apply Z.leb_le in Hl.
    assert (Hq : Z.quot n (Zpos d) = n / Zpos d) by (apply Z.quot_div_nonneg; lia).
    assert (Hk : 1 <= n / Zpos d) by (apply Z.div_le_lower_bound; lia).
    rewrite kept_finite, Hq.
    unfold JsNumber.min, JsNumber.whole, JsNumber.leb, QArith_base.Qle_bool.
    cbn [QArith_base.Qnum QArith_base.Qden QArith_base.inject_Z].
    destruct (Z.leb_spec (n * 1) (Z.of_nat (List.length h) * Zpos d)) as [Hle|Hgt].
    + assert (Hu : n / Zpos d <= Z.of_nat (List.length h))
        by (apply Z.div_le_upper_bound; lia).
      unfold JsNumber.sliceFrom, JsNumber.relativeIndex, JsNumber.opp,
        JsNumber.toIntegerOrInfinity, QArith_base.Qopp, lastn.
      cbn [QArith_base.Qnum QArith_base.Qden].
      rewrite Z.quot_opp_l, Hq by lia.
      unfold Js.rel_index.
      destruct (Z.ltb_spec (- (n / Zpos d)) 0); [|lia].
      f_equal. lia.
    + fold (JsNumber.whole (Z.of_nat (List.length h))).
      rewrite sliceFrom_opp_length.
      assert (Hu : Z.of_nat (List.length h) <= n / Zpos d)
        by (apply Z.div_le_lower_bound; lia).
      unfold lastn.
      now replace (List.length h - Nat.min (Z.to_nat (n / Zpos d)) (List.length h))%nat
        with O by lia.
  - unfold JsNumber.min, JsNumber.whole, JsNumber.leb.
    fold (JsNumber.whole (Z.of_nat (List.length h))).
    rewrite sliceFrom_opp_length.
    unfold kept, lastn. cbn [JsNumber.toIntegerOrInfinity].
    now rewrite Nat.sub_diag.
Qed.

(** A limit strictly between -1 and 1 (a positive limit below 1 for one):
    its whole part is 0 and the slice is [slice(-0)], the whole history. *)
Lemma getRecentMessages_below_one
  (st : MessageStore.t) (channel : string) (limit : JsNumber.t) :
  JsNumber.ltb (JsNumber.whole (-1)) limit = true ->
  JsNumber.ltb limit (JsNumber.whole 1) = true ->
  AnyNumber.getRecentMessages st channel (Some limit)
  = MessageStore.sortByTimestamp
      (MessageStore.channelHistory st (Js.toLowerCase channel)).
Proof.
  intros Hlo Hhi. unfold AnyNumber.getRecentMessages.
  set (h := MessageStore.channelHistory st (Js.toLowerCase channel)).
  f_equal.
  destruct limit as [[n d]| | |]; try discriminate.
  unfold JsNumber.ltb, JsNumber.whole, QArith_base.Qle_bool in Hlo, Hhi.
  cbn [QArith_base.Qnum QArith_base.Qden QArith_base.inject_Z] in Hlo, Hhi.
  apply negb_true_iff, Z.leb_gt in Hlo. apply negb_true_iff, Z.leb_gt in Hhi.
  unfold JsNumber.min, JsNumber.whole, JsNumber.leb, QArith_base.Qle_bool.
  cbn [QArith_base.Qnum QArith_base.Qden QArith_base.inject_Z].
  destruct (Z.leb_spec (n * 1) (Z.of_nat (List.length h) * Zpos d)) as [Hle|Hgt].
  - unfold JsNumber.sliceFrom, JsNumber.relativeIndex, JsNumber.opp,
      JsNumber.toIntegerOrInfinity, QArith_base.Qopp.
    cbn [QArith_base.Qnum QArith_base.Qden].
    assert (Hq : Z.quot (- n) (Zpos d) = 0) by (apply Z.quot_small_iff; lia).
    rewrite Hq. unfold Js.rel_index. rewrite Z.ltb_irrefl.
    now replace (Z.to_nat (Z.min 0 (Z.of_nat (List.length h)))) with O by lia.
  - fold (JsNumber.whole (Z.of_nat (List.length h))).
    apply sliceFrom_opp_length.
Qed.

(** C2, at the failing input. With limit 0 the method returns the whole
    history of the channel, sorted, instead of at most 0 messages:
    [getRecentMessages("foo", 0)] on a channel that holds five messages
    returns all five. *)
Theorem getRecentMessages_limit_zero_returns_all :
  (forall (st : MessageStore.t) (channel : string),
      MessageStore.getRecentMessages st channel (Some 0)
      = MessageStore.sortByTimestamp
          (MessageStore.channelHistory st (Js.toLowerCase channel)))
  /\ MessageStore.getRecentMessages Sample.five "foo" (Some 0)
     = [Sample.m1; Sample.m2; Sample.m3; Sample.m4; Sample.m5]
  /\ ~ (Z.of_nat (List.length (MessageStore.getRecentMessages Sample.five "foo" (Some 0)))
        <= 0).
Proof.
  split; [apply getRecentMessages_zero|].
  split; [reflexivity|].
  vm_compute. intros H. now apply H.
Qed.

(** ** [filterMessages]: the criteria *)

Lemma filter_all {A : Type} (p : A -> bool) (l : list A) :
  (forall x, p x = true) -> filter p l = l.
Proof.
  intros H. induction l as [|x l IH]; simpl; auto.
  now rewrite H, IH.
Qed.

Lemma filter_twice {A : Type} (p q : A -> bool) (l : list A) :
  filter q (filter p l) = filter (fun x => p x && q x) l.
Proof.
  induction l as [|x l IH]; simpl; auto.
  destruct (p x); simpl; rewrite ?IH; auto.
Qed.

Lemma includes_empty (s : string) : Js.includes s "" = true.
Proof. destruct s; reflexivity. Qed.

(** A criterion that is absent (or the empty string) lets everything through. *)
Lemma matchesUsername_absent (f : MessageFilter.t) (m : Message.t) :
  Js.truthy_opt (MessageFilter.username f) = false ->
  MessageStore.matchesUsername f m = true.
Proof.
  unfold MessageStore.matchesUsername, Js.truthy_opt.
  destruct (MessageFilter.username f) as [u|]; auto.
  intros ->. reflexivity.
Qed.

Lemma matchesContains_absent (f : MessageFilter.t) (m : Message.t) :
  Js.truthy_opt (MessageFilter.contains f) = false ->
  MessageStore.matchesContains f m = true.
Proof.
  unfold MessageStore.matchesContains, Js.truthy_opt.
  destruct (MessageFilter.contains f) as [u|]; auto.
  intros ->. reflexivity.
Qed.

(** The successive filters keep what satisfies the four criteria. *)
Lemma applyCriteria_filter (f : MessageFilter.t) (l : list Message.t) :
  MessageStore.applyCriteria f l = filter (matches f) l.
Proof.
  unfold MessageStore.applyCriteria, matches.
  assert (E1 : (if Js.truthy_opt (MessageFilter.username f)
                then filter (MessageStore.matchesUsername f) l else l)
               = filter (MessageStore.matchesUsername f) l).
  { destruct (Js.truthy_opt (MessageFilter.username f)) eqn:E; auto.
    symmetry. apply filter_all. intros m. now apply matchesUsername_absent. }
  rewrite E1. clear E1.
  set (l1 := filter (MessageStore.matchesUsername f) l).
  assert (E2 : (if Js.truthy_opt (MessageFilter.contains f)
                then filter (MessageStore.matchesContains f) l1 else l1)
               = filter (MessageStore.matchesContains f) l1).
  { destruct (Js.truthy_opt (MessageFilter.contains f)) eqn:E; auto.
    symmetry. apply filter_all. intros m. now apply matchesContains_absent. }
  rewrite E2. clear E2.
  set (l2 := filter (MessageStore.matchesContains f) l1).
  assert (E3 : match MessageFilter.since f with
               | Some _ => filter (MessageStore.matchesSince f) l2
               | None => l2
               end = filter (MessageStore.matchesSince f) l2).
  { unfold MessageStore.matchesSince.
    destruct (MessageFilter.since f); auto.
    symmetry. now apply filter_all. }
  rewrite E3. clear E3.
  set (l3 := filter (MessageStore.matchesSince f) l2).
  assert (E4 : match MessageFilter.until f with
               | Some _ => filter (MessageStore.matchesUntil f) l3
               | None => l3
               end = filter (MessageStore.matchesUntil f) l3).
  { unfold MessageStore.matchesUntil.
    destruct (MessageFilter.until f); auto.
    symmetry. now apply filter_all. }
  rewrite E4. clear E4.
  subst l3 l2 l1. rewrite !filter_twice.
  apply filter_ext. intros m.
  destruct (MessageStore.matchesUsername f m), (MessageStore.matchesContains f m),
    (MessageStore.matchesSince f m), (MessageStore.matchesUntil f m); reflexivity.
Qed.

Lemma filterMessages_fst (st : MessageStore.t) (f : MessageFilter.t) :
  fst (MessageStore.filterMessages st f)
  = MessageStore.paginate f (filteredSequence st f).
Proof.
  unfold MessageStore.filterMessages, filteredSequence. simpl.
  now rewrite applyCriteria_filter.
Qed.

Lemma matches_satisfies (f : MessageFilter.t) (m : Message.t) :
  matches f m = true <-> satisfies f m.
Proof.
  unfold matches, satisfies,
    MessageStore.matchesUsername, MessageStore.matchesContains,
    MessageStore.matchesSince, MessageStore.matchesUntil.
  rewrite !andb_true_iff.
  assert (Hu : (match MessageFilter.username f with
                | Some u => if Js.truthy u
                            then Js.includes (Js.toLowerCase (Message.username m))
                                             (Js.toLowerCase u)
                            else true
                | None => true
                end = true)
               <-> (forall u, MessageFilter.username f = Some u ->
                      Js.includes (Js.toLowerCase (Message.username m))
                                  (Js.toLowerCase u) = true)).
  { destruct (MessageFilter.username f) as [u|]; [|split; [discriminate|auto]].
    unfold Js.truthy. destruct (String.eqb_spec u "") as [->|Hne]; simpl.
    - split; auto. intros _ u' [= <-]. apply includes_empty.
    - split; [intros H u' [= <-]; exact H | intros H; now apply H]. }
  assert (Hc : (match MessageFilter.contains f with
                | Some c => if Js.truthy c
                            then Js.includes (Js.toLowerCase (Message.message m))
                                             (Js.toLowerCase c)
                            else true
                | None => true
                end = true)
               <-> (forall c, MessageFilter.contains f = Some c ->
                      Js.includes (Js.toLowerCase (Message.message m))
                                  (Js.toLowerCase c) = true)).
  { destruct (MessageFilter.contains f) as [c|]; [|split; [discriminate|auto]].
    unfold Js.truthy. destruct (String.eqb_spec c "") as [->|Hne]; simpl.
    - split; auto. intros _ c' [= <-]. apply includes_empty.
    - split; [intros H c' [= <-]; exact H | intros H; now apply H]. }
  assert (Hs : (match MessageFilter.since f with
                | Some d => Js.ge_date (Message.timestamp m) d
                | None => true
                end = true)
               <-> (forall d, MessageFilter.since f = Some d ->
                      exists t, d = Js.ValidDate t /\ t <= Message.timestamp m)).
  { destruct (MessageFilter.since f) as [[t|]|]; simpl.
    - rewrite Z.leb_le. split.
      + intros H d [= <-]. now exists t.
      + intros H. destruct (H _ eq_refl) as (t' & [= <-] & Ht). exact Ht.
    - split; [discriminate|]. intros H. destruct (H _ eq_refl) as (t' & Hd & _).
      discriminate.
    - split; [discriminate|auto]. }
  assert (Hn : (match MessageFilter.until f with
                | Some d => Js.le_date (Message.timestamp m) d
                | None => true
                end = true)
               <-> (forall d, MessageFilter.until f = Some d ->
                      exists t, d = Js.ValidDate t /\ Message.timestamp m <= t)).
  { destruct (MessageFilter.until f) as [[t|]|]; simpl.
    - rewrite Z.leb_le. split.
      + intros H d [= <-]. now exists t.
      + intros H. destruct (H _ eq_refl) as (t' & [= <-] & Ht). exact Ht.
    - split; [discriminate|]. intros H. destruct (H _ eq_refl) as (t' & Hd & _).
      discriminate.
    - split; [discriminate|auto]. }
  tauto.
Qed.

Lemma filteredSequence_In (st : MessageStore.t) (f : MessageFilter.t) (m : Message.t) :
  In m (filteredSequence st f)
  <-> In m (MessageStore.getAllMessages st (MessageFilter.channel f)) /\ matches f m = true.
Proof.
  unfold filteredSequence, MessageStore.sortByTimestamp.
  now rewrite sort_by_In, filter_In.
Qed.

(** C4. Filter composition. For every store and every filter, the sequence
    [filterMessages] holds before the pagination step (its result, when no
    page is asked for) is made of the messages of
    [getAllMessages(filter.channel)] that satisfy every criterion that is
    present: username and text contained case-insensitively, timestamp not
    before [since] and not after [until]. It is ascending in timestamp, and
    it is the intersection of what the criteria give one by one. *)
Theorem filterMessages_composition (st : MessageStore.t) (f : MessageFilter.t) :
  fst (MessageStore.filterMessages st f)
  = MessageStore.paginate f (filteredSequence st f)
  /\ fst (MessageStore.filterMessages st (MessageFilter.unpaged f))
     = filteredSequence st f
  /\ ascending (filteredSequence st f)
  /\ (forall m, In m (filteredSequence st f)
                <-> In m (MessageStore.getAllMessages st (MessageFilter.channel f))
                    /\ satisfies f m)
  /\ (forall m, In m (fst (MessageStore.filterMessages st (MessageFilter.unpaged f)))
                <-> In m (fst (MessageStore.filterMessages st (onlyUsername f)))
                    /\ In m (fst (MessageStore.filterMessages st (onlyContains f)))
                    /\ In m (fst (MessageStore.filterMessages st (onlySince f)))
                    /\ In m (fst (MessageStore.filterMessages st (onlyUntil f)))).
Proof.
  split; [apply filterMessages_fst|].
  split; [now rewrite filterMessages_fst|].
  split; [apply sortByTimestamp_ascending|].
  split.
  - intros m. now rewrite filteredSequence_In, matches_satisfies.
  - intros m. rewrite !filterMessages_fst.
    cbv [MessageStore.paginate MessageFilter.unpaged onlyUsername onlyContains
         onlySince onlyUntil MessageFilter.page MessageFilter.pageSize].
    rewrite !filteredSequence_In. simpl MessageFilter.channel.
    unfold matches, MessageStore.matchesUsername, MessageStore.matchesContains,
      MessageStore.matchesSince, MessageStore.matchesUntil. simpl.
    rewrite !andb_true_r, !andb_true_iff. tauto.
Qed.

(** ** [filterMessages]: the store afterwards, and the pages *)

(** When the sort runs on the stored array no criterion was applied. *)
Lemma sortsInPlace_no_criteria (st : MessageStore.t) (f : MessageFilter.t) (m : Message.t) :
  MessageStore.sortsInPlace st f = true -> matches f m = true.
Proof.
  unfold MessageStore.sortsInPlace. rewrite !andb_true_iff, !negb_true_iff.
  intros (((((_ & _) & Hu) & Hc) & Hs) & Hn).
  unfold matches. rewrite matchesUsername_absent, matchesContains_absent by assumption.
  unfold MessageStore.matchesSince, MessageStore.matchesUntil.
  destruct (MessageFilter.since f); [discriminate|].
  destruct (MessageFilter.until f); [discriminate|]. reflexivity.
Qed.

(** The in-place sort does not change what a later call with the same
    criteria computes. *)
Lemma filteredSequence_after (st : MessageStore.t) (f : MessageFilter.t) (p s : Z) :
  filteredSequence (snd (MessageStore.filterMessages st (MessageFilter.paged f p s))) f
  = filteredSequence st f.
Proof.
  unfold MessageStore.filterMessages. cbn [snd].
  change (MessageStore.sortsInPlace st (MessageFilter.paged f p s))
    with (MessageStore.sortsInPlace st f).
  destruct (MessageStore.sortsInPlace st f) eqn:E; [|reflexivity].
  pose proof E as E'. unfold MessageStore.sortsInPlace in E'.
  rewrite !andb_true_iff in E'. destruct E' as (((((Ht & _) & _) & _) & _) & _).
  cbn [MessageFilter.channel MessageFilter.paged].
  rewrite applyCriteria_filter.
  unfold filteredSequence at 1.
  unfold MessageStore.getAllMessages at 1. rewrite Ht.
  unfold MessageStore.channelHistory at 1. cbn [MessageStore.messages].
  rewrite get_set_eq.
  rewrite !filter_all
    by (intros m; apply (sortsInPlace_no_criteria st); exact E).
  unfold filteredSequence.
  rewrite (filter_all (matches f))
    by (intros m; apply (sortsInPlace_no_criteria st); exact E).
  unfold MessageStore.getAllMessages. rewrite Ht.
  unfold MessageStore.sortByTimestamp. apply sort_by_idem.
Qed.

Lemma effectivePageSize_pos (s : Z) : 0 < effectivePageSize s.
Proof. unfold effectivePageSize. destruct (Z.leb_spec s 0); lia. Qed.

Lemma effectivePage_nonneg (p : Z) : 0 <= effectivePage p.
Proof. unfold effectivePage. destruct (Z.ltb_spec p 0); lia. Qed.

(** A page is a window of the filtered sequence. *)
Lemma filterMessages_page (st : MessageStore.t) (f : MessageFilter.t) (p s : Z) :
  fst (MessageStore.filterMessages st (MessageFilter.paged f p s))
  = firstn (Z.to_nat (effectivePageSize s))
           (skipn (Z.to_nat (effectivePage p * effectivePageSize s))
                  (filteredSequence st f)).
Proof.
  rewrite filterMessages_fst.
  change (filteredSequence st (MessageFilter.paged f p s)) with (filteredSequence st f).
  unfold MessageStore.paginate. cbn [MessageFilter.page MessageFilter.pageSize MessageFilter.paged].
  fold (effectivePage p). fold (effectivePageSize s).
  pose proof (effectivePageSize_pos s). pose proof (effectivePage_nonneg p).
  apply slice_window; nia.
Qed.

Lemma firstn_nil_inv {A : Type} (n : nat) (l : list A) :
  (0 < n)%nat -> firstn n l = [] -> l = [].
Proof.
  destruct n; [lia|]. destruct l; [auto|discriminate].
Qed.

(** On whole numbers the pagination on numbers is the one on integers. *)
Lemma paginate_whole (f : MessageFilter.t) (l : list Message.t) :
  AnyNumber.paginate (option_map JsNumber.whole (MessageFilter.page f))
                     (option_map JsNumber.whole (MessageFilter.pageSize f)) l
  = MessageStore.paginate f l.
Proof.
  unfold AnyNumber.paginate, MessageStore.paginate.
  destruct (MessageFilter.page f) as [p|], (MessageFilter.pageSize f) as [s|];
    cbn [option_map]; try reflexivity.
  rewrite ltb_whole, leb_whole.
  destruct (p <? 0), (s <=? 0); cbv iota;
    now rewrite mul_whole, add_whole, slice_whole.
Qed.

Lemma filterMessages_whole (st : MessageStore.t) (f : MessageFilter.t) :
  AnyNumber.filterMessages st f
    (option_map JsNumber.whole (MessageFilter.page f))
    (option_map JsNumber.whole (MessageFilter.pageSize f))
  = MessageStore.filterMessages st f.
Proof.
  unfold AnyNumber.filterMessages, MessageStore.filterMessages.
  now rewrite paginate_whole.
Qed.

Lemma filterMessages_whole_paged (st : MessageStore.t) (f : MessageFilter.t) (p s : Z) :
  AnyNumber.filterMessages st f (Some (JsNumber.whole p)) (Some (JsNumber.whole s))
  = MessageStore.filterMessages st (MessageFilter.paged f p s).
Proof. exact (filterMessages_whole st (MessageFilter.paged f p s)). Qed.

Lemma filterMessages_whole_unpaged (st : MessageStore.t) (f : MessageFilter.t) :
  AnyNumber.filterMessages st f None None
  = MessageStore.filterMessages st (MessageFilter.unpaged f).
Proof. exact (filterMessages_whole st (MessageFilter.unpaged f)). Qed.

(** Without a page, or without a page size, the result is the filtered
    sequence; every page holds messages of it only, whatever the numbers. *)
Lemma filterMessages_number_fst
  (st : MessageStore.t) (f : MessageFilter.t) (page pageSize : option JsNumber.t) :
  fst (AnyNumber.filterMessages st f page pageSize)
  = AnyNumber.paginate page pageSize (filteredSequence st f).
Proof.
  unfold AnyNumber.filterMessages, filteredSequence. cbn [fst].
  now rewrite applyCriteria_filter.
Qed.

(** Asking for the pages from [p] on, of a size that is a whole number,
    gives the filtered sequence from position [p * pageSize] on. *)
Lemma collectPages_from (f : MessageFilter.t) (s : Z) (full : list Message.t) :
  forall (fuel : nat) (p : Z) (st : MessageStore.t),
    0 <= p ->
    filteredSequence st f = full ->
    (List.length (skipn (Z.to_nat (p * effectivePageSize s)) full) < fuel)%nat ->
    collectPages fuel st f (JsNumber.whole s) p
    = Some (skipn (Z.to_nat (p * effectivePageSize s)) full).
Proof.
  pose proof (effectivePageSize_pos s) as Hs.
  induction fuel as [|fuel IH]; intros p st Hp Hfull Hlen; [lia|].
  cbn [collectPages]. rewrite filterMessages_whole_paged.
  pose proof (filterMessages_page st f p s) as Hpage.
  pose proof (filteredSequence_after st f p s) as Hafter.
  destruct (MessageStore.filterMessages st (MessageFilter.paged f p s)) as [pg st'].
  cbn [fst snd] in *.
  assert (Ep : effectivePage p = p).
  { unfold effectivePage. destruct (Z.ltb_spec p 0); lia. }
  rewrite Ep, Hfull in Hpage.
  set (R := skipn (Z.to_nat (p * effectivePageSize s)) full) in *.
  destruct pg as [|x pg].
  - symmetry in Hpage. apply firstn_nil_inv in Hpage; [|lia].
    now rewrite Hpage.
  - assert (Hnext : skipn (Z.to_nat ((p + 1) * effectivePageSize s)) full
                    = skipn (Z.to_nat (effectivePageSize s)) R).
    { subst R. rewrite skipn_skipn. f_equal. nia. }
    rewrite IH; [| lia | congruence |].
    + cbn [option_map]. rewrite Hnext, Hpage. f_equal. apply firstn_skipn.
    + rewrite Hnext, length_skipn.
      assert (List.length R <> 0)%nat.
      { intros H0. apply length_zero_iff_nil in H0. rewrite H0, firstn_nil in Hpage.
        discriminate. }
      lia.
Qed.

(** C3, for a page and a page size that are whole numbers. For every
    store, every filter, every whole page size [s] (a page size that is
    not positive counts as 10) and enough fuel, asking for the pages 0, 1,
    2, ... until one comes back empty and concatenating them gives exactly
    the unpaginated filtered sequence; that sequence is ascending in
    timestamp, and page [p] (a negative [p] counts as 0) is its window
    [[p * s, p * s + s)]. *)
Theorem filterMessages_pagination
  (st : MessageStore.t) (f : MessageFilter.t) (s : Z) (fuel : nat) :
  (List.length (fst (AnyNumber.filterMessages st f None None)) < fuel)%nat ->
  collectPages fuel st f (JsNumber.whole s) 0
  = Some (fst (AnyNumber.filterMessages st f None None))
  /\ ascending (fst (AnyNumber.filterMessages st f None None))
  /\ forall p : Z,
       fst (AnyNumber.filterMessages st f
              (Some (JsNumber.whole p)) (Some (JsNumber.whole s)))
       = firstn (Z.to_nat (effectivePageSize s))
           (skipn (Z.to_nat (effectivePage p * effectivePageSize s))
                  (fst (AnyNumber.filterMessages st f None None))).
Proof.
  intros Hfuel.
  assert (E : fst (AnyNumber.filterMessages st f None None) = filteredSequence st f)
    by apply filterMessages_number_fst.
  rewrite E in *.
  split; [|split].
  - rewrite (collectPages_from f s (filteredSequence st f)); auto; try lia.
  - apply sortByTimestamp_ascending.
  - intros p. rewrite filterMessages_whole_paged. apply filterMessages_page.
Qed.

Lemma filterMessages_pagination_witness :
  (5 < 6)%nat
  /\ collectPages 6 Sample.five (Sample.noCriteria (Some "foo")) (JsNumber.whole 2) 0
     = Some [Sample.m1; Sample.m2; Sample.m3; Sample.m4; Sample.m5].
Proof.
  split; [lia|].
  destruct (filterMessages_pagination Sample.five (Sample.noCriteria (Some "foo")) 2 6)
    as [H _].
  - vm_compute. lia.
  - exact H.
Defined.

(** With a page size of one half, which the store accepts as it is (one
    half is positive), page 0 is [slice(0, 0.5)], empty, so that a caller
    who stops at the first empty page has collected nothing of the five
    messages the filter selects; page 1 is [slice(0.5, 1)], the first
    message, and not the window [[0.5, 1)] of whole positions, which is
    empty. *)
Lemma filterMessages_pagination_half_page_size :
  JsNumber.leb half (JsNumber.whole 0) = false
  /\ fst (AnyNumber.filterMessages Sample.five (Sample.noCriteria (Some "foo")) None None)
     = [Sample.m1; Sample.m2; Sample.m3; Sample.m4; Sample.m5]
  /\ fst (AnyNumber.filterMessages Sample.five (Sample.noCriteria (Some "foo"))
            (Some (JsNumber.whole 0)) (Some half))
     = []
  /\ collectPages 6 Sample.five (Sample.noCriteria (Some "foo")) half 0 = Some []
  /\ collectPages 6 Sample.five (Sample.noCriteria (Some "foo")) half 0
     <> Some (fst (AnyNumber.filterMessages Sample.five (Sample.noCriteria (Some "foo"))
                     None None))
  /\ fst (AnyNumber.filterMessages Sample.five (Sample.noCriteria (Some "foo"))
            (Some (JsNumber.whole 1)) (Some half))
     = [Sample.m1].
Proof.
  repeat split; try reflexivity.
  vm_compute. discriminate.
Qed.

(** The scenario of the design document: page 1 of size 2 of the five
    messages of users named like "ann" is the third and the fourth. *)
Lemma filterMessages_page_example :
  fst (MessageStore.filterMessages Sample.anns Sample.annPage1) = [Sample.c; Sample.d].
Proof. reflexivity. Qed.

(** The sort of [filterMessages] is on the stored array when a channel is
    given and no criterion: the history is reordered. *)
Lemma filterMessages_sorts_stored_array :
  MessageStore.channelHistory Sample.unordered "foo" = [Sample.late; Sample.early]
  /\ MessageStore.channelHistory
       (snd (MessageStore.filterMessages Sample.unordered (Sample.noCriteria (Some "foo"))))
       "foo"
     = [Sample.early; Sample.late].
Proof. split; reflexivity. Qed.

(* ===================================================================== *)
(** * Properties of the Twitch client                                     *)
(* ===================================================================== *)

(** ** The set of joined channels *)

Lemma JsSet_has_In (x : string) (s : JsSet.t) : JsSet.has x s = true <-> In x s.
Proof.
  unfold JsSet.has. rewrite existsb_exists. split.
  - intros (y & Hy & E). apply String.eqb_eq in E. now subst.
  - intros H. exists x. split; [exact H | apply String.eqb_refl].
Qed.

Lemma JsSet_add_In (x y : string) (s : JsSet.t) :
  In y (JsSet.add x s) <-> y = x \/ In y s.
Proof.
  unfold JsSet.add. destruct (JsSet.has x s) eqn:E.
  - apply JsSet_has_In in E. split; [auto|]. intros [->|H]; auto.
  - rewrite in_app_iff. simpl. intuition congruence.
Qed.

Lemma JsSet_delete_In (x y : string) (s : JsSet.t) :
  In y (JsSet.delete x s) <-> In y s /\ y <> x.
Proof.
  unfold JsSet.delete. rewrite filter_In, negb_true_iff, String.eqb_neq.
  intuition congruence.
Qed.

Lemma JsSet_of_list_In (y : string) (l : list string) :
  In y (JsSet.of_list l) <-> In y l.
Proof.
  unfold JsSet.of_list.
  assert (G : forall acc, In y (fold_left (fun s x => JsSet.add x s) l acc)
                          <-> In y acc \/ In y l).
  { induction l as [|x l IH]; intros acc; simpl; [tauto|].
    rewrite IH, JsSet_add_In. intuition congruence. }
  rewrite G. simpl. tauto.
Qed.

(** Every input other than a ['join'] or ['part'] event leaves the set. *)
Lemma step_channels (w : World.t) (i : Input) :
  TwitchClient.channels (World.client (World.step w i))
  = match i with
    | EvJoin channel _ true =>
        JsSet.add (Js.replace_hash channel) (TwitchClient.channels (World.client w))
    | EvPart channel _ true =>
        JsSet.delete (Js.replace_hash channel) (TwitchClient.channels (World.client w))
    | _ => TwitchClient.channels (World.client w)
    end.
Proof.
  destruct w as [c st pend tr]. destruct c as [chs conn att].
  destruct i; try reflexivity; simpl.
  - unfold TwitchClient.onDisconnected. simpl.
    destruct (att <? TwitchClient.maxReconnectAttempts); reflexivity.
  - destruct self; reflexivity.
  - destruct self; reflexivity.
  - unfold TwitchClient.connect. simpl. destruct conn; reflexivity.
  - unfold TwitchClient.disconnect. simpl. destruct conn; simpl; [destruct o|]; reflexivity.
  - unfold TwitchClient.sendMessage. simpl. destruct conn; reflexivity.
  - destruct pend; [reflexivity|].
    unfold TwitchClient.reconnectCallback, TwitchClient.connect. simpl.
    destruct conn; reflexivity.
Qed.

Lemma step_gain (w : World.t) (i : Input) (x : string) :
  In x (TwitchClient.channels (World.client (World.step w i))) ->
  ~ In x (TwitchClient.channels (World.client w)) ->
  World.isSelfJoinOf x i.
Proof.
  rewrite step_channels. intros Hin Hout.
  destruct i; try contradiction.
  - destruct self; [|contradiction].
    apply JsSet_add_In in Hin. destruct Hin as [->|Hin]; [|contradiction].
    now exists channel, username.
  - destruct self; [|contradiction].
    apply JsSet_delete_In in Hin. tauto.
Qed.

Lemma step_loss (w : World.t) (i : Input) (x : string) :
  In x (TwitchClient.channels (World.client w)) ->
  ~ In x (TwitchClient.channels (World.client (World.step w i))) ->
  World.isSelfPartOf x i.
Proof.
  rewrite step_channels. intros Hin Hout.
  destruct i; try contradiction.
  - destruct self; [|contradiction].
    exfalso. apply Hout. apply JsSet_add_In. now right.
  - destruct self; [|contradiction].
    exists channel, username. split; [reflexivity|].
    destruct (String.eqb_spec x (Js.replace_hash channel)) as [E|Hne]; [exact E|].
    exfalso. apply Hout. apply JsSet_delete_In. now split.
Qed.

Lemma constructor_channels (options : TwitchClientOptions.t) (x : string) :
  In x (TwitchClient.getChannels (World.client (World.init options)))
  <-> In x (map Js.toLowerCase
              (match TwitchClientOptions.channels options with
               | Some l => l
               | None => []
               end)).
Proof. apply JsSet_of_list_In. Qed.

(** Whatever the run, a joined channel was configured or acknowledged. *)
Lemma joinedChannels_origin (options : TwitchClientOptions.t) (inputs : list Input) (x : string) :
  In x (TwitchClient.getChannels (World.client (World.run (World.init options) inputs))) ->
  In x (map Js.toLowerCase
          (match TwitchClientOptions.channels options with
           | Some l => l
           | None => []
           end))
  \/ exists i, In i inputs /\ World.isSelfJoinOf x i.
Proof.
  induction inputs as [|i inputs IH] using rev_ind; intros Hin.
  - left. now apply constructor_channels.
  - unfold World.run in Hin. rewrite fold_left_app in Hin. cbn [fold_left] in Hin.
    fold (World.run (World.init options) inputs) in Hin.
    unfold TwitchClient.getChannels in *.
    destruct (in_dec string_dec x
                (TwitchClient.channels
                   (World.client (World.run (World.init options) inputs)))) as [Hold|Hnew].
    + destruct (IH Hold) as [Hc|(i' & Hi' & Hj)]; [now left|].
      right. exists i'. split; [apply in_or_app; now left | exact Hj].
    + right. exists i. split; [apply in_or_app; right; now left|].
      eapply step_gain; eassumption.
Qed.

(** C9, as the code has it. The set of joined channels starts as the
    configured channels, lower-cased; from then on, whatever the input (a
    transport event, a method call, a timer), a name enters the set only by
    the self-join acknowledgment of that channel and leaves it only by its
    self-part acknowledgment. *)
Theorem joinedChannels_changes
  (options : TwitchClientOptions.t) (w : World.t) (i : Input) (x : string) :
  (In x (TwitchClient.getChannels (World.client (World.init options)))
   <-> In x (map Js.toLowerCase
               (match TwitchClientOptions.channels options with
                | Some l => l
                | None => []
                end)))
  /\ (In x (TwitchClient.channels (World.client (World.step w i))) ->
      ~ In x (TwitchClient.channels (World.client w)) ->
      World.isSelfJoinOf x i)
  /\ (In x (TwitchClient.channels (World.client w)) ->
      ~ In x (TwitchClient.channels (World.client (World.step w i))) ->
      World.isSelfPartOf x i).
Proof.
  split; [apply constructor_channels|].
  split; [apply step_gain | apply step_loss].
Qed.

Lemma joinedChannels_changes_witness :
  In "bar" (TwitchClient.channels
              (World.client (World.step Sample.connectedWorld (EvJoin "#bar" "bot" true))))
  /\ ~ In "bar" (TwitchClient.channels (World.client Sample.connectedWorld))
  /\ World.isSelfJoinOf "bar" (EvJoin "#bar" "bot" true).
Proof.
  assert (Hin : In "bar" (TwitchClient.channels
                  (World.client (World.step Sample.connectedWorld (EvJoin "#bar" "bot" true)))))
    by (simpl; auto).
  assert (Hout : ~ In "bar" (TwitchClient.channels (World.client Sample.connectedWorld)))
    by (simpl; intros [H|[]]; discriminate).
  split; [exact Hin|]. split; [exact Hout|].
  destruct (joinedChannels_changes Sample.options Sample.connectedWorld
              (EvJoin "#bar" "bot" true) "bar") as (_ & Hjoin & _).
  exact (Hjoin Hin Hout).
Defined.

(** The set holds the configured channel before any acknowledgment. *)
Lemma constructor_seeds_joinedChannels :
  TwitchClient.getChannels (World.client (World.run (World.init Sample.options) []))
  = ["foo"]
  /\ ~ (exists i, In i (@nil Input) /\ World.isSelfJoinOf "foo" i).
Proof.
  split; [reflexivity|]. intros (i & [] & _).
Qed.

(** ** Scheduling of reconnection attempts *)

Lemma scheduled_after (w : World.t) (c : TwitchClient.t) (effs : list Effect) :
  World.scheduled (World.after w c effs)
  = (World.scheduled w + World.timersIn effs)%nat.
Proof.
  unfold World.scheduled, World.after, World.timersIn. simpl.
  now rewrite filter_app, length_app.
Qed.

(** What one input does to the attempt counter and to the number of
    attempts scheduled. *)
Lemma step_attempts (w : World.t) (i : Input) :
  let a := TwitchClient.reconnectAttempts (World.client w) in
  match i with
  | EvConnected =>
      TwitchClient.reconnectAttempts (World.client (World.step w i)) = 0
      /\ World.scheduled (World.step w i) = World.scheduled w
  | EvDisconnected _ =>
      if a <? TwitchClient.maxReconnectAttempts then
        TwitchClient.reconnectAttempts (World.client (World.step w i)) = a + 1
        /\ World.scheduled (World.step w i) = S (World.scheduled w)
      else
        TwitchClient.reconnectAttempts (World.client (World.step w i)) = a
        /\ World.scheduled (World.step w i) = World.scheduled w
  | _ =>
      TwitchClient.reconnectAttempts (World.client (World.step w i)) = a
      /\ World.scheduled (World.step w i) = World.scheduled w
  end.
Proof.
  destruct w as [c st pend tr]. destruct c as [chs conn att].
  unfold World.scheduled, World.timersIn.
  destruct i; cbv zeta;
    unfold World.step, World.after, World.timersIn,
      TwitchClient.onDisconnected, TwitchClient.onJoin, TwitchClient.onPart,
      TwitchClient.reconnectCallback, TwitchClient.connect, TwitchClient.disconnect,
      TwitchClient.sendMessage, TwitchClient.joinChannel, TwitchClient.leaveChannel;
    cbn [World.client World.trace World.pendingTimers TwitchClient.connected
         TwitchClient.reconnectAttempts negb];
    repeat match goal with
      | |- context [if ?b then _ else _] => destruct b
      | |- context [match ?o with Resolved => _ | Rejected _ => _ end] => destruct o
      | |- context [match ?p with O => _ | S _ => _ end] => destruct p
      end;
    cbn [World.client World.trace TwitchClient.reconnectAttempts];
    rewrite ?filter_app, ?length_app; cbn [filter World.isSetTimeout List.length];
    split; (reflexivity || lia).
Qed.

(** Between two ['connected'] events the counter climbs by one per
    ['disconnected'] event up to the cap, and one attempt is scheduled per
    climb. *)
Lemma run_without_connected (inputs : list Input) :
  forall w : World.t,
    World.noConnected inputs = true ->
    0 <= TwitchClient.reconnectAttempts (World.client w) <= TwitchClient.maxReconnectAttempts ->
    TwitchClient.reconnectAttempts (World.client (World.run w inputs))
    = Z.min TwitchClient.maxReconnectAttempts
            (TwitchClient.reconnectAttempts (World.client w)
             + Z.of_nat (World.drops inputs))
    /\ Z.of_nat (World.scheduled (World.run w inputs))
       = Z.of_nat (World.scheduled w)
         + (TwitchClient.reconnectAttempts (World.client (World.run w inputs))
            - TwitchClient.reconnectAttempts (World.client w)).
Proof.
  unfold TwitchClient.maxReconnectAttempts.
  induction inputs as [|i inputs IH]; intros w Hno Hrange.
  - cbn. split; lia.
  - cbn [World.noConnected forallb] in Hno. apply andb_true_iff in Hno.
    destruct Hno as [Hi Hno].
    change (World.run w (i :: inputs)) with (World.run (World.step w i) inputs).
    pose proof (step_attempts w i) as Hstep. cbv zeta in Hstep.
    unfold TwitchClient.maxReconnectAttempts in Hstep.
    assert (Hcount : World.drops (i :: inputs)
                     = ((if World.isEvDisconnected i then 1 else 0) + World.drops inputs)%nat).
    { unfold World.drops. cbn [filter]. destruct (World.isEvDisconnected i); reflexivity. }
    assert (Hfin : forall w' : World.t,
               0 <= TwitchClient.reconnectAttempts (World.client w') <= 5 ->
               TwitchClient.reconnectAttempts (World.client (World.run w' inputs))
               = Z.min 5 (TwitchClient.reconnectAttempts (World.client w')
                          + Z.of_nat (World.drops inputs))
               /\ Z.of_nat (World.scheduled (World.run w' inputs))
                  = Z.of_nat (World.scheduled w')
                    + (TwitchClient.reconnectAttempts (World.client (World.run w' inputs))
                       - TwitchClient.reconnectAttempts (World.client w')))
      by (intros w' Hw'; now apply IH).
    specialize (Hfin (World.step w i)).
    destruct i; try discriminate Hi; cbn [World.isEvDisconnected] in Hcount;
      try (destruct Hstep as [Ha Hs]; destruct Hfin as [IHa IHs]; [lia|];
           rewrite IHa, IHs, Ha, Hs, Hcount in *; split; lia).
    destruct (Z.ltb_spec (TwitchClient.reconnectAttempts (World.client w)) 5);
      destruct Hstep as [Ha Hs]; destruct Hfin as [IHa IHs]; try lia;
      rewrite IHa, IHs, Ha, Hs, Hcount in *; split; lia.
Qed.

(** The counter stays between 0 and the cap. *)
Lemma step_attempts_range (w : World.t) (i : Input) :
  0 <= TwitchClient.reconnectAttempts (World.client w) <= TwitchClient.maxReconnectAttempts ->
  0 <= TwitchClient.reconnectAttempts (World.client (World.step w i))
    <= TwitchClient.maxReconnectAttempts.
Proof.
  intros Hr. pose proof (step_attempts w i) as H. cbv zeta in H.
  unfold TwitchClient.maxReconnectAttempts in *.
  destruct i; try (destruct H as [-> _]; lia).
  destruct (Z.ltb_spec (TwitchClient.reconnectAttempts (World.client w)) 5);
    destruct H as [-> _]; lia.
Qed.

Lemma attempts_in_range (options : TwitchClientOptions.t) (inputs : list Input) :
  0 <= TwitchClient.reconnectAttempts
         (World.client (World.run (World.init options) inputs))
    <= TwitchClient.maxReconnectAttempts.
Proof.
  induction inputs as [|i inputs IH] using rev_ind.
  - cbn. unfold TwitchClient.maxReconnectAttempts. lia.
  - unfold World.run. rewrite fold_left_app. cbn [fold_left].
    now apply step_attempts_range.
Qed.

(** Between two ['connected'] events at most [maxReconnectAttempts]
    attempts are scheduled, whatever the state the run starts from. *)
Lemma scheduled_at_most_cap (options : TwitchClientOptions.t) (before after : list Input) :
  World.noConnected after = true ->
  (World.scheduled (World.run (World.run (World.init options) before) after)
   <= World.scheduled (World.run (World.init options) before) + 5)%nat.
Proof.
  intros Hno.
  pose proof (attempts_in_range options before) as Hr.
  destruct (run_without_connected after _ Hno Hr) as [Ha Hs].
  unfold TwitchClient.maxReconnectAttempts in *. lia.
Qed.

(** C7. Reconnection bound. From a state whose attempt counter is 0 (a
    fresh client, or one that has just seen a ['connected'] event), let
    [t1] hold exactly [maxReconnectAttempts] = 5 ['disconnected'] events and
    no ['connected'] event, among any other inputs: five attempts have
    been scheduled and the counter is 5. Whatever follows without a
    ['connected'] event ([t2]) schedules nothing more. A ['connected']
    event, such as the one a later successful [connect()] brings, resets
    the counter to 0, and the next five drops ([t3]) are again each
    followed by an attempt. *)
Theorem reconnection_bound (w : World.t) (t1 t2 t3 : list Input) :
  TwitchClient.reconnectAttempts (World.client w) = 0 ->
  World.noConnected t1 = true -> World.drops t1 = 5%nat ->
  World.noConnected t2 = true ->
  World.noConnected t3 = true -> World.drops t3 = 5%nat ->
  let capped := World.run (World.run w t1) t2 in
  let restored := World.run capped [CallConnect Resolved; EvConnected] in
  TwitchClient.reconnectAttempts (World.client (World.run w t1))
    = TwitchClient.maxReconnectAttempts
  /\ World.scheduled (World.run w t1) = (World.scheduled w + 5)%nat
  /\ World.scheduled capped = World.scheduled (World.run w t1)
  /\ TwitchClient.reconnectAttempts (World.client restored) = 0
  /\ TwitchClient.connected (World.client restored) = true
  /\ World.scheduled (World.run restored t3) = (World.scheduled capped + 5)%nat.
Proof.
  intros H0 Hn1 Hd1 Hn2 Hn3 Hd3 capped restored.
  destruct (run_without_connected t1 w Hn1) as [Ha1 Hs1];
    [unfold TwitchClient.maxReconnectAttempts; lia|].
  rewrite H0, Hd1 in Ha1. unfold TwitchClient.maxReconnectAttempts in Ha1.
  destruct (run_without_connected t2 (World.run w t1) Hn2) as [Ha2 Hs2];
    [unfold TwitchClient.maxReconnectAttempts; lia|].
  fold capped in Ha2, Hs2.
  assert (Hr : TwitchClient.reconnectAttempts (World.client restored) = 0
               /\ TwitchClient.connected (World.client restored) = true
               /\ World.scheduled restored = World.scheduled capped).
  { subst restored. cbn [World.run fold_left].
    pose proof (step_attempts capped (CallConnect Resolved)) as [_ Hs].
    pose proof (step_attempts (World.step capped (CallConnect Resolved)) EvConnected)
      as [Ha' Hs'].
    split; [exact Ha'|]. split; [reflexivity|]. congruence. }
  destruct Hr as (Hra & Hrc & Hrs).
  destruct (run_without_connected t3 restored Hn3) as [Ha3 Hs3];
    [unfold TwitchClient.maxReconnectAttempts; lia|].
  rewrite Hra, Hd3 in Ha3.
  unfold TwitchClient.maxReconnectAttempts in *.
  repeat split; try assumption; lia.
Qed.

Lemma reconnection_bound_witness :
  let t1 := [Sample.drop; Sample.drop; CallConnect (Rejected Sample.socketClosed);
             Sample.drop; Sample.drop; Sample.drop] in
  let t2 := [Sample.drop; TimerFires (Rejected Sample.socketClosed); Sample.drop] in
  TwitchClient.reconnectAttempts (World.client Sample.connectedWorld) = 0
  /\ World.scheduled (World.run Sample.connectedWorld t1) = 5%nat
  /\ World.scheduled (World.run (World.run Sample.connectedWorld t1) t2) = 5%nat.
Proof.
  intros t1 t2.
  destruct (reconnection_bound Sample.connectedWorld t1 t2 t1)
    as (_ & Hs1 & Hs2 & _); try reflexivity.
  split; [reflexivity|]. split; [exact Hs1|].
  rewrite Hs2. exact Hs1.
Defined.

(** ** [disconnect] and [sendMessage] *)

(** C6, as the code has it. [disconnect()] does nothing when the client is
    not connected. When it is connected the transport is asked to
    disconnect; if the transport resolves, the status becomes Disconnected,
    and if it rejects, the error is thrown on and the status stays as it
    was. In no case does the method schedule a reconnection attempt or
    touch the attempt counter; a ['disconnected'] event with attempts left
    does schedule one. *)
Theorem disconnect_contract (w : World.t) (o : Outcome) (e : Error) (reason : string) :
  let c := World.client w in
  (TwitchClient.connected c = false ->
     TwitchClient.disconnect c o = (c, [], Returns))
  /\ (TwitchClient.connected c = true ->
        TwitchClient.disconnect c Resolved
        = (TwitchClient.mk (TwitchClient.channels c) false (TwitchClient.reconnectAttempts c),
           [ClientDisconnect], Returns))
  /\ (TwitchClient.connected c = true ->
        TwitchClient.disconnect c (Rejected e) = (c, [ClientDisconnect], Throws e))
  /\ World.scheduled (World.step w (CallDisconnect o)) = World.scheduled w
  /\ World.pendingTimers (World.step w (CallDisconnect o)) = World.pendingTimers w
  /\ TwitchClient.reconnectAttempts (World.client (World.step w (CallDisconnect o)))
     = TwitchClient.reconnectAttempts c
  /\ (TwitchClient.reconnectAttempts c < TwitchClient.maxReconnectAttempts ->
        World.scheduled (World.step w (EvDisconnected reason)) = S (World.scheduled w)).
Proof.
  intros c.
  split; [|split; [|split]].
  - intros H. unfold TwitchClient.disconnect. now rewrite H.
  - intros H. unfold TwitchClient.disconnect. now rewrite H.
  - intros H. unfold TwitchClient.disconnect. now rewrite H.
  - pose proof (step_attempts w (CallDisconnect o)) as [Ha Hs].
    split; [exact Hs|]. split; [|split; [exact Ha|]].
    + destruct w as [[chs conn att] st pend tr]. cbn.
      unfold TwitchClient.disconnect. cbn.
      destruct conn; cbn; [destruct o|]; cbn; lia.
    + intros Hlt. pose proof (step_attempts w (EvDisconnected reason)) as Hd.
      cbv zeta in Hd. fold c in Hd.
      destruct (Z.ltb_spec (TwitchClient.reconnectAttempts c)
                           TwitchClient.maxReconnectAttempts); [|lia].
      apply Hd.
Qed.

Lemma disconnect_contract_witness :
  TwitchClient.connected (World.client Sample.connectedWorld) = true
  /\ TwitchClient.disconnect Sample.connectedClient Resolved
     = (TwitchClient.mk ["foo"] false 0, [ClientDisconnect], Returns)
  /\ World.scheduled (World.step Sample.connectedWorld Sample.drop) = 1%nat.
Proof.
  destruct (disconnect_contract Sample.connectedWorld Resolved Sample.socketClosed
              "Connection closed.") as (_ & Hres & _ & _ & _ & _ & Hdrop).
  split; [reflexivity|].
  split; [apply Hres; reflexivity|].
  apply Hdrop. vm_compute. reflexivity.
Defined.

(** When the transport rejects the disconnect request the client is still
    marked connected. *)
Lemma disconnect_rejected_stays_connected :
  TwitchClient.connected Sample.connectedClient = true
  /\ TwitchClient.disconnect Sample.connectedClient (Rejected Sample.socketClosed)
     = (Sample.connectedClient, [ClientDisconnect], Throws Sample.socketClosed)
  /\ TwitchClient.isConnected
       (World.client (World.step Sample.connectedWorld
                        (CallDisconnect (Rejected Sample.socketClosed)))) = true.
Proof. repeat split. Qed.

(** The handler of ['disconnected'] has nothing to tell an explicit
    disconnect from a drop: the event schedules an attempt after a
    [disconnect()] as well. *)
Lemma disconnected_event_after_disconnect_schedules :
  World.scheduled
    (World.run Sample.connectedWorld [CallDisconnect Resolved; Sample.drop]) = 1%nat.
Proof. reflexivity. Qed.

(** C8. [sendMessage] on a client that is not connected throws the
    not-connected error and forwards nothing to the transport; on a
    connected client it forwards the message to the transport, and a
    rejection by the transport is thrown on to the caller. *)
Theorem sendMessage_contract
  (w : World.t) (channel message : string) (o : Outcome) (e : Error) :
  let c := World.client w in
  (TwitchClient.connected c = false ->
     TwitchClient.sendMessage c channel message o
     = (c, [], Throws TwitchClient.notConnected)
     /\ World.trace (World.step w (CallSendMessage channel message o)) = World.trace w)
  /\ (TwitchClient.connected c = true ->
        TwitchClient.sendMessage c channel message o
        = (c, [ClientSay (TwitchClient.channelNameOf channel) message],
           TwitchClient.settle o)
        /\ World.trace (World.step w (CallSendMessage channel message o))
           = World.trace w ++ [ClientSay (TwitchClient.channelNameOf channel) message]
        /\ snd (TwitchClient.sendMessage c channel message Resolved) = Returns
        /\ snd (TwitchClient.sendMessage c channel message (Rejected e)) = Throws e)
  /\ errorMessage TwitchClient.notConnected = "Not connected to Twitch IRC".
Proof.
  intros c. subst c. destruct w as [[chs conn att] st pend tr].
  cbn [World.client TwitchClient.connected].
  split; [|split; [|reflexivity]]; intros ->;
    unfold World.step, TwitchClient.sendMessage; cbn; rewrite ?app_nil_r; auto.
Qed.

Lemma sendMessage_contract_witness :
  TwitchClient.connected (World.client Sample.connectedWorld) = true
  /\ World.trace (World.step Sample.connectedWorld
                    (CallSendMessage "foo" "hi" Resolved))
     = [ClientSay "#foo" "hi"]
  /\ TwitchClient.sendMessage (TwitchClient.constructor Sample.options) "foo" "hi" Resolved
     = (TwitchClient.constructor Sample.options, [], Throws TwitchClient.notConnected).
Proof.
  split; [reflexivity|].
  split.
  - destruct (sendMessage_contract Sample.connectedWorld "foo" "hi" Resolved
                Sample.socketClosed) as (_ & Hc & _).
    destruct (Hc eq_refl) as (_ & Ht & _). exact Ht.
  - destruct (sendMessage_contract (World.init Sample.options) "foo" "hi" Resolved
                Sample.socketClosed) as (Hn & _).
    destruct (Hn eq_refl) as (Hs & _). exact Hs.
Defined.

(* ===================================================================== *)
(** * Properties of the [filterMessages] tool                             *)
(* ===================================================================== *)

Lemma paginate_nil (f : MessageFilter.t) : MessageStore.paginate f [] = [].
Proof.
  unfold MessageStore.paginate.
  destruct (MessageFilter.page f), (MessageFilter.pageSize f); auto.
  unfold Js.slice. now rewrite skipn_nil, firstn_nil.
Qed.

(** No message is on or after, or on or before, the invalid date. *)
Lemma invalid_date_matches_nothing (f : MessageFilter.t) (m : Message.t) :
  MessageFilter.since f = Some Js.InvalidDate
  \/ MessageFilter.until f = Some Js.InvalidDate ->
  matches f m = false.
Proof.
  unfold matches, MessageStore.matchesSince, MessageStore.matchesUntil.
  intros [H|H]; rewrite H; simpl.
  - now rewrite andb_false_r.
  - now rewrite andb_false_r.
Qed.

Lemma filter_none {A : Type} (p : A -> bool) (l : list A) :
  (forall x, p x = false) -> filter p l = [].
Proof.
  intros H. induction l as [|x l IH]; simpl; auto.
  now rewrite H.
Qed.

(** A date criterion keeps the sort away from the stored array. *)
Lemma date_criterion_not_in_place (st : MessageStore.t) (f : MessageFilter.t) :
  MessageFilter.since f <> None \/ MessageFilter.until f <> None ->
  MessageStore.sortsInPlace st f = false.
Proof.
  unfold MessageStore.sortsInPlace.
  intros [H|H].
  - destruct (MessageFilter.since f); [|contradiction].
    now rewrite andb_false_r.
  - destruct (MessageFilter.until f); [|contradiction].
    now rewrite andb_false_r.
Qed.

(** C5, as the code has it. Whatever the runtime's date parser, when
    [since] or [until] is a non-empty string that it cannot parse, the
    tool does not fail: the invalid date goes to the store, no message
    compares with it, and the call returns the envelope "No messages found
    matching the filter criteria", which is not an error, with the store
    unchanged. *)
Theorem filterMessagesTool_unparsable_date
  (newDate : string -> Js.Date) (toISOString numberToString : Z -> string)
  (store : MessageStore.t) (args : McpServer.FilterArgs) (s : string) :
  s <> "" ->
  newDate s = Js.InvalidDate ->
  McpServer.since args = Some s \/ McpServer.until args = Some s ->
  McpServer.filterMessagesTool newDate toISOString numberToString store args
  = (McpServer.success "No messages found matching the filter criteria", store)
  /\ McpServer.isError
       (fst (McpServer.filterMessagesTool newDate toISOString numberToString store args))
     = false.
Proof.
  intros Hs Hbad Harg.
  assert (Ht : Js.truthy s = true).
  { unfold Js.truthy. apply String.eqb_neq in Hs. now rewrite Hs. }
  set (f := McpServer.filterOf newDate args).
  assert (Hf : MessageFilter.since f = Some Js.InvalidDate
               \/ MessageFilter.until f = Some Js.InvalidDate).
  { subst f. unfold McpServer.filterOf, McpServer.dateArg. simpl.
    destruct Harg as [H|H]; rewrite H, Ht, Hbad; auto. }
  assert (Hfst : fst (MessageStore.filterMessages store f) = []).
  { rewrite filterMessages_fst. unfold filteredSequence.
    rewrite filter_none by (intros m; now apply invalid_date_matches_nothing).
    apply paginate_nil. }
  assert (Hsnd : snd (MessageStore.filterMessages store f) = store).
  { unfold MessageStore.filterMessages. simpl.
    rewrite date_criterion_not_in_place; [reflexivity|].
    destruct Hf as [H|H]; rewrite H; [left|right]; discriminate. }
  assert (E : McpServer.filterMessagesTool newDate toISOString numberToString store args
              = (McpServer.success "No messages found matching the filter criteria", store)).
  { unfold McpServer.filterMessagesTool, McpServer.filterMessagesBody.
    fold f. destruct (MessageStore.filterMessages store f) as [messages store'].
    simpl in Hfst, Hsnd. subst. reflexivity. }
  rewrite E. split; reflexivity.
Qed.

Lemma filterMessagesTool_unparsable_date_witness :
  "not-a-date" <> ""
  /\ Runtime.newDate "not-a-date" = Js.InvalidDate
  /\ McpServer.filterMessagesTool Runtime.newDate Runtime.toISOString
       Runtime.numberToString Sample.five Sample.badSince
     = (McpServer.success "No messages found matching the filter criteria", Sample.five).
Proof.
  split; [discriminate|]. split; [reflexivity|].
  apply (filterMessagesTool_unparsable_date Runtime.newDate Runtime.toISOString
           Runtime.numberToString Sample.five Sample.badSince "not-a-date").
  - discriminate.
  - reflexivity.
  - left. reflexivity.
Defined.

(** A call whose [since] is not a date is answered without an error. *)
Lemma filterMessagesTool_bad_since_is_no_error :
  McpServer.since Sample.badSince = Some "not-a-date"
  /\ Runtime.newDate "not-a-date" = Js.InvalidDate
  /\ fst (McpServer.filterMessagesTool Runtime.newDate Runtime.toISOString
            Runtime.numberToString Sample.five Sample.badSince)
     = McpServer.mkCallToolResult
         [McpServer.mkTextContent "text" "No messages found matching the filter criteria"]
         false.
Proof. repeat split. Qed.

(** The tool on dates the runtime reads. *)
Lemma filterMessagesTool_example :
  McpServer.text
    (hd (McpServer.mkTextContent "" "")
        (McpServer.content
           (fst (McpServer.filterMessagesTool Runtime.newDate Runtime.toISOString
                   Runtime.numberToString Sample.five
                   (McpServer.mkFilterArgs (Some "foo") None (Some "HELLO")
                      (Some "1970-01-01T00:00:02.000Z") None (Some 0) (Some 2))))))
  = String.concat McpServer.nl
      ["Filtered messages: (channel: #foo)";
       "[1970-01-01T00:00:02.000Z] #foo bob: Hello Ann";
       "[1970-01-01T00:00:04.000Z] #foo carl: hello again";
       "";
       "Page 1, showing 2 of 5 messages"].
Proof. reflexivity. Qed.

(** With a negative limit the same slice drops the oldest [-limit]
    messages and returns the rest. *)
Lemma getRecentMessages_negative_limit :
  MessageStore.getRecentMessages Sample.five "foo" (Some (-1))
  = [Sample.m2; Sample.m3; Sample.m4; Sample.m5].
Proof. reflexivity. Qed.

(* ===================================================================== *)
(** * Further properties of the message store                             *)
(* ===================================================================== *)

(** ** The map, continued *)

Lemma get_In {V : Type} (k : string) (v : V) (m : JsMap.t V) :
  JsMap.get k m = Some v -> In (k, v) m.
Proof.
  induction m as [|[k' v'] m IH]; simpl; [discriminate|].
  destruct (String.eqb_spec k k') as [->|Hne].
  - intros [= ->]. now left.
  - intros H. right. now apply IH.
Qed.

Lemma get_None_keys {V : Type} (k : string) (m : JsMap.t V) :
  JsMap.get k m = None <-> ~ In k (map fst m).
Proof.
  induction m as [|[k' v'] m IH]; simpl; [tauto|].
  destruct (String.eqb_spec k k') as [->|Hne].
  - split; [discriminate|]. intros H. exfalso. apply H. now left.
  - rewrite IH. intuition congruence.
Qed.

Lemma keys_set {V : Type} (k : string) (v : V) (m : JsMap.t V) :
  map fst (JsMap.set k v m)
  = if JsMap.has k m then map fst m else map fst m ++ [k].
Proof.
  unfold JsMap.has. induction m as [|[k' v'] m IH]; simpl; [reflexivity|].
  destruct (String.eqb k k') eqn:E; simpl; [reflexivity|].
  rewrite IH. destruct (JsMap.get k m); reflexivity.
Qed.

Lemma Forall_set {V : Type} (P : string * V -> Prop) (k : string) (v : V) (m : JsMap.t V) :
  Forall P m -> P (k, v) -> Forall P (JsMap.set k v m).
Proof.
  intros Hm Hk. induction Hm as [|[k' v'] m Hx Hm IH]; simpl.
  - now constructor.
  - destruct (String.eqb_spec k k') as [->|Hne]; constructor; auto.
Qed.

Lemma set_same {V : Type} (k : string) (v : V) (m : JsMap.t V) :
  JsMap.get k m = Some v -> JsMap.set k v m = m.
Proof.
  induction m as [|[k' v'] m IH]; simpl; [discriminate|].
  destruct (String.eqb_spec k k') as [->|Hne].
  - now intros [= ->].
  - intros H. now rewrite IH.
Qed.

Lemma set_set {V : Type} (k : string) (v v' : V) (m : JsMap.t V) :
  JsMap.set k v (JsMap.set k v' m) = JsMap.set k v m.
Proof.
  induction m as [|[k0 v0] m IH]; simpl.
  - now rewrite String.eqb_refl.
  - destruct (String.eqb k k0) eqn:E; simpl; rewrite E; [reflexivity|].
    now rewrite IH.
Qed.

Lemma has_set {V : Type} (k k' : string) (v : V) (m : JsMap.t V) :
  JsMap.has k' m = true -> JsMap.has k' (JsMap.set k v m) = true.
Proof.
  unfold JsMap.has. destruct (String.eqb_spec k' k) as [->|Hne].
  - now rewrite get_set_eq.
  - now rewrite get_set_ne.
Qed.

(** ** What [filterMessages] leaves in the store *)

Lemma truthy_channel_key (channel : option string) :
  Js.truthy_opt channel = true ->
  exists c, channel = Some c /\ c <> "" /\ Js.or_else channel "" = c.
Proof.
  destruct channel as [c|]; [|discriminate]. simpl. intros H.
  exists c. unfold Js.truthy in *. rewrite H. repeat split.
  intros ->. discriminate.
Qed.

Lemma filterMessages_snd (st : MessageStore.t) (f : MessageFilter.t) :
  snd (MessageStore.filterMessages st f)
  = if MessageStore.sortsInPlace st f
    then MessageStore.mk
           (JsMap.set (Js.toLowerCase (Js.or_else (MessageFilter.channel f) ""))
              (MessageStore.sortByTimestamp
                 (MessageStore.channelHistory st
                    (Js.toLowerCase (Js.or_else (MessageFilter.channel f) ""))))
              (MessageStore.messages st))
           (MessageStore.maxMessagesPerChannel st)
    else st.
Proof.
  unfold MessageStore.filterMessages. cbn [snd].
  destruct (MessageStore.sortsInPlace st f) eqn:E; [|reflexivity].
  rewrite applyCriteria_filter.
  rewrite filter_all by (intros m; now apply (sortsInPlace_no_criteria st)).
  unfold MessageStore.sortsInPlace in E. rewrite !andb_true_iff in E.
  destruct E as (((((Ht & _) & _) & _) & _) & _).
  unfold MessageStore.getAllMessages. now rewrite Ht.
Qed.

Lemma sortsInPlace_has (st : MessageStore.t) (f : MessageFilter.t) :
  MessageStore.sortsInPlace st f = true ->
  exists h,
    JsMap.get (Js.toLowerCase (Js.or_else (MessageFilter.channel f) ""))
              (MessageStore.messages st) = Some h.
Proof.
  unfold MessageStore.sortsInPlace. rewrite !andb_true_iff.
  intros (((((_ & Hh) & _) & _) & _) & _). unfold JsMap.has in Hh.
  destruct (JsMap.get _ _) as [h|]; [now exists h|discriminate].
Qed.

Lemma keys_filterMessages (st : MessageStore.t) (f : MessageFilter.t) :
  keys (snd (MessageStore.filterMessages st f)) = keys st.
Proof.
  rewrite filterMessages_snd.
  destruct (MessageStore.sortsInPlace st f) eqn:E; [|reflexivity].
  unfold keys. cbn [MessageStore.messages]. rewrite keys_set.
  destruct (sortsInPlace_has st f E) as [h Hh]. unfold JsMap.has. now rewrite Hh.
Qed.

Lemma history_filterMessages (st : MessageStore.t) (f : MessageFilter.t) (k : string) :
  Permutation (MessageStore.channelHistory (snd (MessageStore.filterMessages st f)) k)
              (MessageStore.channelHistory st k).
Proof.
  rewrite filterMessages_snd.
  destruct (MessageStore.sortsInPlace st f) eqn:E; [|reflexivity].
  unfold MessageStore.channelHistory. cbn [MessageStore.messages].
  set (key := Js.toLowerCase (Js.or_else (MessageFilter.channel f) "")).
  destruct (string_dec k key) as [->|Hne].
  - rewrite get_set_eq. apply sort_by_perm.
  - rewrite get_set_ne by assumption. reflexivity.
Qed.

Lemma get_filterMessages_None (st : MessageStore.t) (f : MessageFilter.t) (k : string) :
  JsMap.get k (MessageStore.messages (snd (MessageStore.filterMessages st f))) = None
  <-> JsMap.get k (MessageStore.messages st) = None.
Proof.
  rewrite !get_None_keys.
  change (map fst (MessageStore.messages (snd (MessageStore.filterMessages st f))))
    with (keys (snd (MessageStore.filterMessages st f))).
  rewrite keys_filterMessages. reflexivity.
Qed.

(** ** Counting *)

Lemma count_fold (vs : list (list Message.t)) (acc : Z) :
  fold_left (fun count msgs => count + Z.of_nat (List.length msgs)) vs acc
  = acc + Z.of_nat (List.length (List.concat vs)).
Proof.
  revert acc. induction vs as [|v vs IH]; intros acc; simpl; [lia|].
  rewrite IH, length_app. lia.
Qed.

Lemma getMessageCount_all (st : MessageStore.t) :
  MessageStore.getMessageCount st None
  = Z.of_nat (List.length (List.concat (JsMap.values (MessageStore.messages st)))).
Proof. unfold MessageStore.getMessageCount. simpl. now rewrite count_fold. Qed.

Lemma concat_length_bound (bound : Z) (m : JsMap.t (list Message.t)) :
  0 <= bound ->
  Forall (fun kv => Z.of_nat (List.length (snd kv)) <= bound) m ->
  Z.of_nat (List.length (List.concat (JsMap.values m)))
  <= Z.of_nat (List.length m) * bound.
Proof.
  intros Hb. induction 1 as [|[k h] m Hh Hm IH]; [simpl; lia|].
  unfold JsMap.values in *. cbn [map List.concat snd] in *.
  rewrite length_app. change (List.length ((k, h) :: m)) with (S (List.length m)).
  rewrite Nat2Z.inj_succ, Nat2Z.inj_add. lia.
Qed.

Lemma concat_length_set (k : string) (v h : list Message.t) (m : JsMap.t (list Message.t)) :
  JsMap.get k m = Some h -> List.length v = List.length h ->
  List.length (List.concat (JsMap.values (JsMap.set k v m)))
  = List.length (List.concat (JsMap.values m)).
Proof.
  intros Hget Hlen. induction m as [|[k' v'] m IH]; simpl in *; [discriminate|].
  destruct (String.eqb k k') eqn:E; simpl; rewrite !length_app.
  - injection Hget as ->. now rewrite Hlen.
  - now rewrite IH.
Qed.

(** ** The invariant of the store *)

Lemma Forall_skipn {A : Type} (P : A -> Prop) (n : nat) (l : list A) :
  Forall P l -> Forall P (skipn n l).
Proof.
  intros H. rewrite <- (firstn_skipn n l) in H. apply Forall_app in H. tauto.
Qed.

Lemma Forall_sort (P : Message.t -> Prop) (l : list Message.t) :
  Forall P l -> Forall P (MessageStore.sortByTimestamp l).
Proof.
  rewrite !Forall_forall. intros H m Hm. apply H.
  exact (proj1 (sort_by_In Message.timestamp m l) Hm).
Qed.

Lemma filed_entry (st : MessageStore.t) (k : string) (h : list Message.t) :
  filedAndBounded st ->
  JsMap.get k (MessageStore.messages st) = Some h ->
  Forall (fun m => Js.toLowerCase (Message.channel m) = k) h
  /\ Z.of_nat (List.length h) <= MessageStore.maxMessagesPerChannel st.
Proof.
  intros Hinv Hget. apply get_In in Hget.
  unfold filedAndBounded in Hinv. rewrite Forall_forall in Hinv.
  exact (Hinv _ Hget).
Qed.

Lemma addMessage_messages (st : MessageStore.t) (m : Message.t) :
  MessageStore.messages (MessageStore.addMessage st m)
  = JsMap.set (Js.toLowerCase (Message.channel m))
      (MessageStore.prune (MessageStore.maxMessagesPerChannel st)
         (MessageStore.channelHistory st (Js.toLowerCase (Message.channel m)) ++ [m]))
      (MessageStore.messages st).
Proof.
  unfold MessageStore.addMessage, MessageStore.channelHistory, JsMap.has.
  destruct (JsMap.get (Js.toLowerCase (Message.channel m)) (MessageStore.messages st))
    as [h|] eqn:E; simpl.
  - now rewrite E.
  - rewrite get_set_eq. simpl. now rewrite set_set.
Qed.

Lemma addMessage_invariant (st : MessageStore.t) (m : Message.t) :
  0 <= MessageStore.maxMessagesPerChannel st ->
  NoDup (keys st) -> filedAndBounded st ->
  NoDup (keys (MessageStore.addMessage st m))
  /\ filedAndBounded (MessageStore.addMessage st m).
Proof.
  intros Hb Hnd Hinv. unfold keys, filedAndBounded.
  rewrite addMessage_bound, addMessage_messages.
  set (k := Js.toLowerCase (Message.channel m)).
  split.
  - rewrite keys_set. unfold JsMap.has.
    destruct (JsMap.get k (MessageStore.messages st)) eqn:E; [exact Hnd|].
    apply get_None_keys in E.
    apply NoDup_app; [exact Hnd | repeat constructor; simpl; tauto |].
    intros x Hx [<-|[]]. contradiction.
  - apply Forall_set; [exact Hinv|]. cbn [fst snd].
    rewrite prune_lastn by assumption. split.
    + unfold lastn. apply Forall_skipn. apply Forall_app. split.
      * unfold MessageStore.channelHistory.
        destruct (JsMap.get k (MessageStore.messages st)) as [h|] eqn:E; [|constructor].
        now apply (filed_entry st k h).
      * repeat constructor.
    + rewrite length_lastn. lia.
Qed.

Lemma clearMessages_invariant (st : MessageStore.t) (channel : option string) :
  NoDup (keys st) -> filedAndBounded st ->
  NoDup (keys (MessageStore.clearMessages st channel))
  /\ filedAndBounded (MessageStore.clearMessages st channel).
Proof.
  intros Hnd Hinv. unfold MessageStore.clearMessages, keys, filedAndBounded.
  destruct (Js.truthy_opt channel); cbn [MessageStore.messages MessageStore.maxMessagesPerChannel].
  - unfold JsMap.delete. split.
    + clear Hinv. unfold keys in Hnd. induction (MessageStore.messages st) as [|[k h] l IH];
        simpl; [constructor|].
      inversion Hnd as [|? ? Hk Hl]; subst.
      destruct (negb _); simpl; [|now apply IH].
      constructor; [|now apply IH].
      intros Hin. apply Hk. apply in_map_iff in Hin. destruct Hin as ([k' h'] & <- & Hin).
      apply filter_In in Hin. apply in_map_iff. exists (k', h'). tauto.
    + unfold filedAndBounded in Hinv. rewrite Forall_forall in *.
      intros kv Hkv. apply filter_In in Hkv. now apply Hinv.
  - split; constructor.
Qed.

Lemma filterMessages_invariant (st : MessageStore.t) (f : MessageFilter.t) :
  NoDup (keys st) -> filedAndBounded st ->
  NoDup (keys (snd (MessageStore.filterMessages st f)))
  /\ filedAndBounded (snd (MessageStore.filterMessages st f)).
Proof.
  intros Hnd Hinv. split; [now rewrite keys_filterMessages|].
  rewrite filterMessages_snd.
  destruct (MessageStore.sortsInPlace st f) eqn:E; [|exact Hinv].
  destruct (sortsInPlace_has st f E) as [h Hh].
  unfold filedAndBounded. cbn [MessageStore.messages MessageStore.maxMessagesPerChannel].
  apply Forall_set; [exact Hinv|]. cbn [fst snd].
  unfold MessageStore.channelHistory. rewrite Hh.
  destruct (filed_entry st _ h Hinv Hh) as [Hf Hl].
  split; [now apply Forall_sort|].
  unfold MessageStore.sortByTimestamp. now rewrite sort_by_length.
Qed.

Lemma applyOp_bound (st : MessageStore.t) (op : StoreOp) :
  MessageStore.maxMessagesPerChannel (applyOp st op)
  = MessageStore.maxMessagesPerChannel st.
Proof.
  destruct op as [m|c|f]; cbn [applyOp].
  - apply addMessage_bound.
  - unfold MessageStore.clearMessages. destruct (Js.truthy_opt c); reflexivity.
  - rewrite filterMessages_snd. destruct (MessageStore.sortsInPlace st f); reflexivity.
Qed.

(** X1. Whatever sequence of [addMessage], [clearMessages] and
    [filterMessages] calls a store built with a bound that is not negative
    has seen: its keys are distinct, every message is filed under the
    lower-cased name of its own channel, no history is longer than the
    bound, the bound is the one given to the constructor, and the total
    count is at most the number of channels times the bound. *)
Theorem store_keeps_invariant (bound : Z) (ops : list StoreOp) :
  0 <= bound ->
  NoDup (keys (applyOps (MessageStore.constructor (Some bound)) ops))
  /\ filedAndBounded (applyOps (MessageStore.constructor (Some bound)) ops)
  /\ MessageStore.maxMessagesPerChannel
       (applyOps (MessageStore.constructor (Some bound)) ops) = bound
  /\ MessageStore.getMessageCount (applyOps (MessageStore.constructor (Some bound)) ops) None
     <= Z.of_nat (List.length (keys (applyOps (MessageStore.constructor (Some bound)) ops)))
        * bound.
Proof.
  intros Hb.
  assert (H : NoDup (keys (applyOps (MessageStore.constructor (Some bound)) ops))
              /\ filedAndBounded (applyOps (MessageStore.constructor (Some bound)) ops)
              /\ MessageStore.maxMessagesPerChannel
                   (applyOps (MessageStore.constructor (Some bound)) ops) = bound).
  { induction ops as [|op ops IH] using rev_ind.
    - repeat split; constructor.
    - unfold applyOps in *. rewrite fold_left_app. cbn [fold_left].
      destruct IH as (Hnd & Hinv & Hmax).
      set (st := fold_left applyOp ops (MessageStore.constructor (Some bound))) in *.
      split; [|split; [|now rewrite applyOp_bound]].
      + destruct op as [m|c|f]; cbn [applyOp].
        * apply addMessage_invariant; auto. now rewrite Hmax.
        * now apply clearMessages_invariant.
        * now apply filterMessages_invariant.
      + destruct op as [m|c|f]; cbn [applyOp].
        * apply addMessage_invariant; auto. now rewrite Hmax.
        * now apply clearMessages_invariant.
        * now apply filterMessages_invariant. }
  destruct H as (Hnd & Hinv & Hmax). repeat split; auto.
  rewrite getMessageCount_all. unfold keys. rewrite length_map.
  apply concat_length_bound; [exact Hb|].
  unfold filedAndBounded in Hinv. rewrite Hmax in Hinv.
  rewrite Forall_forall in *. intros kv Hkv. now apply Hinv.
Qed.

Lemma store_keeps_invariant_witness :
  0 <= 2
  /\ MessageStore.getMessageCount
       (applyOps (MessageStore.constructor (Some 2))
          [OpAdd Sample.m1; OpAdd Sample.b1; OpAdd Sample.m2; OpAdd Sample.m3;
           OpFilter (Sample.noCriteria (Some "foo")); OpClear (Some "bar");
           OpAdd Sample.m4]) None
     <= 1 * 2.
Proof.
  split; [lia|].
  destruct (store_keeps_invariant 2
              [OpAdd Sample.m1; OpAdd Sample.b1; OpAdd Sample.m2; OpAdd Sample.m3;
               OpFilter (Sample.noCriteria (Some "foo")); OpClear (Some "bar");
               OpAdd Sample.m4]) as (_ & _ & _ & H); [lia|].
  exact H.
Defined.

(** ** [filterMessages] only reorders *)

Lemma sortsInPlace_after (st : MessageStore.t) (f : MessageFilter.t) :
  MessageStore.sortsInPlace (snd (MessageStore.filterMessages st f)) f
  = MessageStore.sortsInPlace st f.
Proof.
  rewrite filterMessages_snd.
  destruct (MessageStore.sortsInPlace st f) eqn:E; [|exact E].
  pose proof E as E'. unfold MessageStore.sortsInPlace in E' |- *.
  rewrite !andb_true_iff in E'.
  destruct E' as (((((Ht & Hh) & Hu) & Hc) & Hs) & Hn).
  cbn [MessageStore.messages]. rewrite Ht, Hu, Hc, Hs, Hn.
  rewrite (has_set _ _ _ _ Hh). reflexivity.
Qed.

Lemma filteredSequence_kept (st : MessageStore.t) (f : MessageFilter.t) :
  filteredSequence (snd (MessageStore.filterMessages st f)) f = filteredSequence st f.
Proof.
  rewrite filterMessages_snd.
  destruct (MessageStore.sortsInPlace st f) eqn:E; [|reflexivity].
  pose proof E as E'. unfold MessageStore.sortsInPlace in E'.
  rewrite !andb_true_iff in E'. destruct E' as (((((Ht & _) & _) & _) & _) & _).
  unfold filteredSequence, MessageStore.getAllMessages. rewrite Ht.
  unfold MessageStore.channelHistory at 1. cbn [MessageStore.messages].
  rewrite get_set_eq.
  rewrite !filter_all by (intros m; now apply (sortsInPlace_no_criteria st)).
  unfold MessageStore.sortByTimestamp. apply sort_by_idem.
Qed.

Lemma getMessageCount_as_history (st : MessageStore.t) (channel : option string) :
  MessageStore.getMessageCount st channel
  = Z.of_nat (List.length (MessageStore.getAllMessages st channel)).
Proof.
  unfold MessageStore.getMessageCount, MessageStore.getAllMessages.
  destruct (Js.truthy_opt channel); [reflexivity|].
  rewrite count_fold. unfold MessageStore.sortByTimestamp.
  now rewrite sort_by_length.
Qed.

Lemma getMessageCount_after_filter
  (st : MessageStore.t) (f : MessageFilter.t) (channel : option string) :
  MessageStore.getMessageCount (snd (MessageStore.filterMessages st f)) channel
  = MessageStore.getMessageCount st channel.
Proof.
  unfold MessageStore.getMessageCount.
  destruct (Js.truthy_opt channel).
  - f_equal. apply Permutation_length, history_filterMessages.
  - rewrite !count_fold. f_equal. f_equal.
    rewrite filterMessages_snd.
    destruct (MessageStore.sortsInPlace st f) eqn:E; [|reflexivity].
    destruct (sortsInPlace_has st f E) as [h Hh].
    cbn [MessageStore.messages]. apply (concat_length_set _ _ h); [exact Hh|].
    unfold MessageStore.channelHistory. rewrite Hh.
    apply sort_by_length.
Qed.

(** X2. [filterMessages] never adds a message to the store, never removes
    one and never moves one to another channel: afterwards the keys are
    the same and every history is a permutation of what it was, so every
    count is unchanged. Asking again with the same filter gives the same
    answer and leaves the store exactly as the first call left it. *)
Theorem filterMessages_only_reorders
  (st : MessageStore.t) (f : MessageFilter.t) (k : string) (channel : option string) :
  keys (snd (MessageStore.filterMessages st f)) = keys st
  /\ Permutation (MessageStore.channelHistory (snd (MessageStore.filterMessages st f)) k)
                 (MessageStore.channelHistory st k)
  /\ MessageStore.getMessageCount (snd (MessageStore.filterMessages st f)) channel
     = MessageStore.getMessageCount st channel
  /\ MessageStore.filterMessages (snd (MessageStore.filterMessages st f)) f
     = (fst (MessageStore.filterMessages st f), snd (MessageStore.filterMessages st f)).
Proof.
  split; [apply keys_filterMessages|].
  split; [apply history_filterMessages|].
  split.
  - apply getMessageCount_after_filter.
  - rewrite (surjective_pairing
               (MessageStore.filterMessages (snd (MessageStore.filterMessages st f)) f)).
    f_equal.
    + now rewrite !filterMessages_fst, filteredSequence_kept.
    + rewrite (filterMessages_snd (snd (MessageStore.filterMessages st f))).
      rewrite sortsInPlace_after.
      destruct (MessageStore.sortsInPlace st f) eqn:E; [|reflexivity].
      rewrite filterMessages_snd, E.
      cbn [MessageStore.messages MessageStore.maxMessagesPerChannel].
      unfold MessageStore.channelHistory at 1. cbn [MessageStore.messages].
      rewrite get_set_eq, set_set.
      unfold MessageStore.sortByTimestamp. now rewrite sort_by_idem.
Qed.

(** ** [getMessageCount] and [getAllMessages] *)

Lemma In_concat_values (m : Message.t) (l : JsMap.t (list Message.t)) :
  In m (List.concat (JsMap.values l)) <-> exists k h, In (k, h) l /\ In m h.
Proof.
  unfold JsMap.values. rewrite in_concat. split.
  - intros (h & Hh & Hm). apply in_map_iff in Hh. destruct Hh as ([k h'] & <- & Hin).
    now exists k, h'.
  - intros (k & h & Hin & Hm). exists h. split; [|exact Hm].
    apply in_map_iff. now exists (k, h).
Qed.

(** X3. The count is the length of what [getAllMessages] returns, for one
    channel and across channels alike. The view across channels is in
    ascending timestamp order, holds exactly the messages of the stored
    histories (the empty string as channel gives that same view), and
    contains every message of every one-channel view. *)
Theorem getAllMessages_views (st : MessageStore.t) (channel : option string) (m : Message.t) :
  MessageStore.getMessageCount st channel
  = Z.of_nat (List.length (MessageStore.getAllMessages st channel))
  /\ ascending (MessageStore.getAllMessages st None)
  /\ Permutation (MessageStore.getAllMessages st None)
                 (List.concat (JsMap.values (MessageStore.messages st)))
  /\ MessageStore.getAllMessages st (Some "") = MessageStore.getAllMessages st None
  /\ (In m (MessageStore.getAllMessages st channel) ->
      In m (MessageStore.getAllMessages st None)).
Proof.
  split; [apply getMessageCount_as_history|].
  split; [apply sortByTimestamp_ascending|].
  split; [apply sort_by_perm|].
  split; [reflexivity|].
  unfold MessageStore.getAllMessages at 1.
  destruct (Js.truthy_opt channel); [|auto].
  unfold MessageStore.channelHistory.
  destruct (JsMap.get _ _) as [h|] eqn:E; [|contradiction].
  intros Hm. unfold MessageStore.getAllMessages. simpl.
  apply (sort_by_In Message.timestamp). apply In_concat_values.
  eexists _, h. split; [apply get_In; exact E | exact Hm].
Qed.

(** X4. Adding a message to a channel whose name is not empty raises the
    count of that channel by one, until the count has reached the bound:
    from then on the count stays at the bound. The counts of the other
    channels do not move. *)
Theorem addMessage_count (st : MessageStore.t) (m : Message.t) (other : string) :
  Message.channel m <> "" ->
  0 <= MessageStore.maxMessagesPerChannel st ->
  MessageStore.getMessageCount st (Some (Message.channel m))
    <= MessageStore.maxMessagesPerChannel st ->
  MessageStore.getMessageCount (MessageStore.addMessage st m) (Some (Message.channel m))
  = Z.min (MessageStore.getMessageCount st (Some (Message.channel m)) + 1)
          (MessageStore.maxMessagesPerChannel st)
  /\ (other <> "" -> Js.toLowerCase other <> Js.toLowerCase (Message.channel m) ->
      MessageStore.getMessageCount (MessageStore.addMessage st m) (Some other)
      = MessageStore.getMessageCount st (Some other)).
Proof.
  intros Hc Hb Hle.
  assert (Ht : forall c, c <> "" -> Js.truthy c = true).
  { intros c H. unfold Js.truthy. apply String.eqb_neq in H. now rewrite H. }
  unfold MessageStore.getMessageCount, Js.truthy_opt, Js.or_else in *.
  rewrite (Ht _ Hc) in *. split.
  - rewrite addMessage_history, prune_lastn, length_lastn, length_app by assumption.
    simpl. lia.
  - intros Ho Hne. rewrite (Ht _ Ho).
    unfold MessageStore.channelHistory. now rewrite addMessage_other.
Qed.

Lemma addMessage_count_witness :
  Message.channel Sample.m4 <> ""
  /\ MessageStore.getMessageCount
       (MessageStore.addMessage
          (addAll Sample.small [Sample.m1; Sample.m2; Sample.m3]) Sample.m4)
       (Some "foo")
     = 3.
Proof.
  split; [discriminate|].
  destruct (addMessage_count (addAll Sample.small [Sample.m1; Sample.m2; Sample.m3])
              Sample.m4 "bar") as [H _].
  - discriminate.
  - vm_compute. discriminate.
  - vm_compute. discriminate.
  - exact H.
Defined.

(** X5. After [clearMessages()] with no channel (or with the empty string)
    every read is empty: no message in any view, count 0, no recent
    message, nothing for any filter. After [clearMessages(c)] for a name
    [c] that is not empty the reads of channel [c] are empty, and the next
    message sent to [c] is the whole history of [c] when the bound is at
    least 1. *)
Theorem clearMessages_then_read
  (st : MessageStore.t) (c : string) (channel : option string) (limit : option Z)
  (f : MessageFilter.t) (m : Message.t) :
  c <> "" ->
  (forall all : option string,
      all = None \/ all = Some "" ->
      MessageStore.getAllMessages (MessageStore.clearMessages st all) channel = []
      /\ MessageStore.getMessageCount (MessageStore.clearMessages st all) channel = 0
      /\ MessageStore.getRecentMessages (MessageStore.clearMessages st all) c limit = []
      /\ fst (MessageStore.filterMessages (MessageStore.clearMessages st all) f) = [])
  /\ MessageStore.getAllMessages (MessageStore.clearMessages st (Some c)) (Some c) = []
  /\ MessageStore.getMessageCount (MessageStore.clearMessages st (Some c)) (Some c) = 0
  /\ MessageStore.getRecentMessages (MessageStore.clearMessages st (Some c)) c limit = []
  /\ (1 <= MessageStore.maxMessagesPerChannel st ->
      Js.toLowerCase (Message.channel m) = Js.toLowerCase c ->
      MessageStore.getAllMessages
        (MessageStore.addMessage (MessageStore.clearMessages st (Some c)) m) (Some c)
      = [m]).
Proof.
  intros Hc.
  assert (Ht : Js.truthy c = true).
  { unfold Js.truthy. apply String.eqb_neq in Hc. now rewrite Hc. }
  assert (Hcleared : forall all : option string,
             all = None \/ all = Some "" ->
             MessageStore.clearMessages st all
             = MessageStore.mk JsMap.empty (MessageStore.maxMessagesPerChannel st)).
  { intros all [->| ->]; reflexivity. }
  assert (Hempty : forall ch,
             MessageStore.getAllMessages
               (MessageStore.mk JsMap.empty (MessageStore.maxMessagesPerChannel st)) ch = []).
  { intros ch. unfold MessageStore.getAllMessages. destruct (Js.truthy_opt ch); reflexivity. }
  split.
  - intros all Hall. rewrite (Hcleared all Hall).
    split; [apply Hempty|].
    split; [rewrite getMessageCount_as_history, Hempty; reflexivity|].
    split.
    + apply getRecentMessages_unknown. reflexivity.
    + rewrite filterMessages_fst. unfold filteredSequence. rewrite Hempty.
      apply paginate_nil.
  - assert (Hget : JsMap.get (Js.toLowerCase c)
                     (MessageStore.messages (MessageStore.clearMessages st (Some c))) = None).
    { unfold MessageStore.clearMessages, Js.truthy_opt, Js.or_else. rewrite Ht.
      cbn [MessageStore.messages]. apply get_delete_eq. }
    assert (Hall : MessageStore.getAllMessages (MessageStore.clearMessages st (Some c)) (Some c)
                   = []).
    { unfold MessageStore.getAllMessages, Js.truthy_opt, Js.or_else. rewrite Ht.
      unfold MessageStore.channelHistory. now rewrite Hget. }
    split; [exact Hall|].
    split; [now rewrite getMessageCount_as_history, Hall|].
    split; [now apply getRecentMessages_unknown|].
    intros Hb Hm.
    unfold MessageStore.getAllMessages, Js.truthy_opt, Js.or_else. rewrite Ht.
    rewrite <- Hm, addMessage_history, Hm.
    unfold MessageStore.channelHistory. rewrite Hget.
    assert (Hmax : MessageStore.maxMessagesPerChannel (MessageStore.clearMessages st (Some c))
                   = MessageStore.maxMessagesPerChannel st).
    { unfold MessageStore.clearMessages. destruct (Js.truthy_opt (Some c)); reflexivity. }
    rewrite Hmax, prune_lastn by lia.
    apply lastn_all. simpl. lia.
Qed.

Lemma clearMessages_then_read_witness :
  "foo" <> ""
  /\ MessageStore.getMessageCount (MessageStore.clearMessages Sample.five (Some "foo"))
       (Some "foo") = 0
  /\ MessageStore.getAllMessages
       (MessageStore.addMessage (MessageStore.clearMessages Sample.five (Some "foo"))
          Sample.m3) (Some "foo")
     = [Sample.m3].
Proof.
  split; [discriminate|].
  destruct (clearMessages_then_read Sample.five "foo" None None
              (Sample.noCriteria None) Sample.m3) as (_ & _ & Hcount & _ & Hadd).
  - discriminate.
  - split; [exact Hcount|]. apply Hadd; [vm_compute; discriminate | reflexivity].
Defined.

(** X6. The length of a page, for a page [p] and a page size [s] that are
    whole numbers: the page holds [min s' (total - p' * s')] messages, or
    none when that is negative, where [total] is the length of the
    filtered sequence, [p'] is [p] or 0 for a negative [p], and [s'] is
    [s] or 10 for an [s] that is not positive; so no such page is longer
    than [s']. And whatever is given as page and page size, whole numbers
    or not, every message of a page is a message of the filtered
    sequence. *)
Theorem filterMessages_page_length
  (st : MessageStore.t) (f : MessageFilter.t) (p s : Z)
  (page pageSize : option JsNumber.t) (m : Message.t) :
  Z.of_nat (List.length
              (fst (AnyNumber.filterMessages st f
                      (Some (JsNumber.whole p)) (Some (JsNumber.whole s)))))
  = Z.max 0 (Z.min (effectivePageSize s)
                   (Z.of_nat (List.length (fst (AnyNumber.filterMessages st f None None)))
                    - effectivePage p * effectivePageSize s))
  /\ Z.of_nat (List.length
                 (fst (AnyNumber.filterMessages st f
                         (Some (JsNumber.whole p)) (Some (JsNumber.whole s)))))
     <= effectivePageSize s
  /\ (In m (fst (AnyNumber.filterMessages st f page pageSize)) ->
      In m (fst (AnyNumber.filterMessages st f None None))).
Proof.
  pose proof (effectivePageSize_pos s) as Hs.
  pose proof (effectivePage_nonneg p) as Hp.
  rewrite filterMessages_whole_paged, filterMessages_page.
  assert (E : fst (AnyNumber.filterMessages st f None None) = filteredSequence st f)
    by apply filterMessages_number_fst.
  rewrite E.
  assert (Hlen : Z.of_nat (List.length
                   (firstn (Z.to_nat (effectivePageSize s))
                      (skipn (Z.to_nat (effectivePage p * effectivePageSize s))
                         (filteredSequence st f))))
                 = Z.max 0 (Z.min (effectivePageSize s)
                              (Z.of_nat (List.length (filteredSequence st f))
                               - effectivePage p * effectivePageSize s))).
  { rewrite length_firstn, length_skipn. nia. }
  split; [exact Hlen|]. split; [rewrite Hlen; lia|].
  rewrite filterMessages_number_fst. unfold AnyNumber.paginate.
  destruct page as [a|]; [|auto]. destruct pageSize as [b|]; [|auto].
  apply slice_In.
Qed.

(** ** Stores whose timestamps follow the arrival order *)

Lemma ascending_filter (p : Message.t -> bool) (l : list Message.t) :
  ascending l -> ascending (filter p l).
Proof.
  induction 1 as [|x l Hs IH Hall]; simpl; [constructor|].
  destruct (p x); [|exact IH].
  constructor; [exact IH|].
  rewrite Forall_forall in *. intros y Hy. apply filter_In in Hy. now apply Hall.
Qed.

Lemma ascending_skipn (n : nat) (l : list Message.t) :
  ascending l -> ascending (skipn n l).
Proof.
  revert l. induction n as [|n IH]; intros l H; [exact H|].
  destruct l as [|x l]; [constructor|].
  simpl. apply IH. now inversion H.
Qed.

Lemma ascending_snoc (l : list Message.t) (m : Message.t) :
  ascending l ->
  (forall m', In m' l -> Message.timestamp m' <= Message.timestamp m) ->
  ascending (l ++ [m]).
Proof.
  induction 1 as [|x l Hs IH Hall]; intros Hle; simpl.
  - repeat constructor.
  - constructor.
    + apply IH. intros m' Hm'. apply Hle. now right.
    + apply Forall_app. split; [exact Hall|].
      constructor; [|constructor]. apply Hle. now left.
Qed.

Lemma monotone_history (st : MessageStore.t) (k : string) :
  monotone st -> ascending (MessageStore.channelHistory st k).
Proof.
  intros Hm. unfold MessageStore.channelHistory.
  destruct (JsMap.get k (MessageStore.messages st)) as [h|] eqn:E; [|constructor].
  apply get_In in E. unfold monotone in Hm. rewrite Forall_forall in Hm.
  exact (Hm _ E).
Qed.

(** X7. When every history of the store is in ascending timestamp order
    (messages stamped by a clock that does not go back), [filterMessages]
    leaves the store exactly as it was, a one-channel filter returns the
    matching messages in arrival order, [getRecentMessages] with a limit
    that is at least 1 (any number: a limit that is not whole counts as
    its whole part, Infinity as the whole history) returns that many of
    the last messages in arrival order, and adding a message that is not
    older than the ones its channel holds keeps the store in that order. *)
Theorem monotone_store_reads_in_arrival_order
  (st : MessageStore.t) (f : MessageFilter.t) (c : string) (limit : JsNumber.t)
  (m : Message.t) :
  monotone st ->
  snd (MessageStore.filterMessages st f) = st
  /\ (c <> "" -> MessageFilter.channel f = Some c ->
      fst (MessageStore.filterMessages st (MessageFilter.unpaged f))
      = filter (matches f) (MessageStore.channelHistory st (Js.toLowerCase c)))
  /\ (JsNumber.leb (JsNumber.whole 1) limit = true ->
      AnyNumber.getRecentMessages st c (Some limit)
      = lastn (kept limit
                 (List.length (MessageStore.channelHistory st (Js.toLowerCase c))))
              (MessageStore.channelHistory st (Js.toLowerCase c)))
  /\ (0 <= MessageStore.maxMessagesPerChannel st ->
      (forall m', In m' (MessageStore.channelHistory st (Js.toLowerCase (Message.channel m))) ->
                  Message.timestamp m' <= Message.timestamp m) ->
      monotone (MessageStore.addMessage st m)).
Proof.
  intros Hm. split; [|split; [|split]].
  - rewrite filterMessages_snd.
    destruct (MessageStore.sortsInPlace st f) eqn:E; [|reflexivity].
    destruct (sortsInPlace_has st f E) as [h Hh].
    rewrite sortByTimestamp_id by now apply monotone_history.
    unfold MessageStore.channelHistory. rewrite Hh, (set_same _ _ _ Hh).
    now destruct st.
  - intros Hc Hf. rewrite filterMessages_fst. cbn [MessageStore.paginate MessageFilter.unpaged
      MessageFilter.page MessageFilter.pageSize].
    unfold MessageStore.paginate. cbn [MessageFilter.page MessageFilter.unpaged].
    change (filteredSequence st (MessageFilter.unpaged f)) with (filteredSequence st f).
    unfold filteredSequence, MessageStore.getAllMessages. rewrite Hf.
    unfold Js.truthy_opt, Js.or_else, Js.truthy.
    apply String.eqb_neq in Hc. rewrite Hc. cbn [negb].
    apply sortByTimestamp_id, ascending_filter, monotone_history, Hm.
  - intros Hl. rewrite (getRecentMessages_at_least_one st c limit Hl).
    apply sortByTimestamp_id. unfold lastn. apply ascending_skipn, monotone_history, Hm.
  - intros Hb Hle. unfold monotone. rewrite addMessage_messages.
    apply Forall_set; [exact Hm|]. cbn [snd].
    rewrite prune_lastn by assumption. unfold lastn.
    apply ascending_skipn, ascending_snoc; [now apply monotone_history | exact Hle].
Qed.

Lemma monotone_store_reads_in_arrival_order_witness :
  monotone Sample.five
  /\ snd (MessageStore.filterMessages Sample.five (Sample.noCriteria (Some "foo")))
     = Sample.five
  /\ AnyNumber.getRecentMessages Sample.five "FOO"
       (Some (JsNumber.Finite (QArith_base.Qmake 5 2)))
     = [Sample.m4; Sample.m5].
Proof.
  assert (Hm : monotone Sample.five).
  { unfold monotone, ascending. vm_compute.
    repeat (constructor; try discriminate). }
  split; [exact Hm|].
  destruct (monotone_store_reads_in_arrival_order Sample.five
              (Sample.noCriteria (Some "foo")) "FOO"
              (JsNumber.Finite (QArith_base.Qmake 5 2)) Sample.m1 Hm)
    as (Hsnd & _ & Hrecent & _).
  split; [exact Hsnd|]. rewrite Hrecent; reflexivity.
Defined.

Lemma toLowerCase_twice (s : string) :
  Js.toLowerCase (Js.toLowerCase s) = Js.toLowerCase s.
Proof.
  induction s as [|a s IH]; simpl; [reflexivity|].
  f_equal; [|exact IH].
  unfold Js.lower_ascii.
  destruct ((65 <=? nat_of_ascii a)%nat && (nat_of_ascii a <=? 90)%nat)%bool eqn:Hup.
  - apply andb_true_iff in Hup. destruct Hup as [H1 H2].
    apply Nat.leb_le in H1. apply Nat.leb_le in H2.
    rewrite nat_ascii_embedding by lia.
    replace ((65 <=? nat_of_ascii a + 32)%nat && (nat_of_ascii a + 32 <=? 90)%nat)%bool
      with false; [reflexivity|].
    symmetry. apply andb_false_iff. right. apply Nat.leb_gt. lia.
  - now rewrite Hup.
Qed.

(** The messages kept are not more than the limit. *)
Lemma kept_le_limit (limit : JsNumber.t) (len : nat) :
  JsNumber.leb (JsNumber.whole 1) limit = true ->
  JsNumber.leb (JsNumber.whole (Z.of_nat (kept limit len))) limit = true.
Proof.
  intros Hl. destruct limit as [[n d]| | |]; try discriminate; [|reflexivity].
  rewrite kept_finite.
  unfold JsNumber.leb, JsNumber.whole, QArith_base.Qle_bool in *.
  cbn [QArith_base.Qnum QArith_base.Qden QArith_base.inject_Z] in *.
  apply Z.leb_le in Hl. apply Z.leb_le.
  assert (Hq : Z.quot n (Zpos d) = n / Zpos d) by (apply Z.quot_div_nonneg; lia).
  rewrite Hq.
  pose proof (Z.mul_div_le n (Zpos d) ltac:(lia)).
  assert (0 <= n / Zpos d) by (apply Z.div_pos; lia).
  nia.
Qed.

(** With a limit that is at least 1 a channel that holds a message gives
    a message. *)
Lemma kept_pos (limit : JsNumber.t) (len : nat) :
  JsNumber.leb (JsNumber.whole 1) limit = true ->
  (0 < len)%nat -> (0 < kept limit len)%nat.
Proof.
  intros Hl Hlen. destruct limit as [[n d]| | |]; try discriminate; [|exact Hlen].
  rewrite kept_finite.
  unfold JsNumber.leb, JsNumber.whole, QArith_base.Qle_bool in Hl.
  cbn [QArith_base.Qnum QArith_base.Qden QArith_base.inject_Z] in Hl.
  apply Z.leb_le in Hl.
  assert (Hq : Z.quot n (Zpos d) = n / Zpos d) by (apply Z.quot_div_nonneg; lia).
  assert (Hk : 1 <= n / Zpos d) by (apply Z.div_le_lower_bound; lia).
  rewrite Hq. lia.
Qed.

(** X8. [getRecentMessages] with a positive limit, the limit being any
    number. When the limit is at least 1, the result is the last [n]
    messages of the channel's history, sorted by timestamp, where [n] is
    the whole part of the limit, or the length of the history when that is
    smaller or the limit is Infinity; it holds exactly [n] messages, which
    is not more than the limit, all of them messages of the history; the
    channel name is matched whatever its case. For a whole limit [z] these
    are the last [z] messages. When the limit is positive and below 1, the
    result is the whole history, sorted. *)
Theorem getRecentMessages_positive_limit
  (st : MessageStore.t) (channel : string) (limit : JsNumber.t) (m : Message.t) :
  (JsNumber.leb (JsNumber.whole 1) limit = true ->
   AnyNumber.getRecentMessages st channel (Some limit)
   = MessageStore.sortByTimestamp
       (lastn (kept limit
                 (List.length (MessageStore.channelHistory st (Js.toLowerCase channel))))
              (MessageStore.channelHistory st (Js.toLowerCase channel)))
   /\ List.length (AnyNumber.getRecentMessages st channel (Some limit))
      = kept limit (List.length (MessageStore.channelHistory st (Js.toLowerCase channel)))
   /\ JsNumber.leb
        (JsNumber.whole
           (Z.of_nat (List.length (AnyNumber.getRecentMessages st channel (Some limit)))))
        limit = true
   /\ ascending (AnyNumber.getRecentMessages st channel (Some limit))
   /\ (In m (AnyNumber.getRecentMessages st channel (Some limit)) ->
       In m (MessageStore.channelHistory st (Js.toLowerCase channel)))
   /\ AnyNumber.getRecentMessages st (Js.toLowerCase channel) (Some limit)
      = AnyNumber.getRecentMessages st channel (Some limit))
  /\ (forall z : Z,
        0 < z ->
        AnyNumber.getRecentMessages st channel (Some (JsNumber.whole z))
        = MessageStore.sortByTimestamp
            (lastn (Z.to_nat z)
                   (MessageStore.channelHistory st (Js.toLowerCase channel)))
        /\ Z.of_nat (List.length
                       (AnyNumber.getRecentMessages st channel (Some (JsNumber.whole z))))
           = Z.min z (Z.of_nat (List.length
                                  (MessageStore.channelHistory st (Js.toLowerCase channel)))))
  /\ (JsNumber.ltb (JsNumber.whole 0) limit = true ->
      JsNumber.ltb limit (JsNumber.whole 1) = true ->
      AnyNumber.getRecentMessages st channel (Some limit)
      = MessageStore.sortByTimestamp
          (MessageStore.channelHistory st (Js.toLowerCase channel))).
Proof.
  split; [|split].
  - intros Hl.
    pose proof (getRecentMessages_at_least_one st channel limit Hl) as E.
    split; [exact E|].
    assert (Hlen : List.length (AnyNumber.getRecentMessages st channel (Some limit))
                   = kept limit
                       (List.length (MessageStore.channelHistory st (Js.toLowerCase channel)))).
    { rewrite E. unfold MessageStore.sortByTimestamp.
      rewrite sort_by_length, length_lastn.
      pose proof (kept_le limit
                    (List.length (MessageStore.channelHistory st (Js.toLowerCase channel)))).
      lia. }
    split; [exact Hlen|].
    split; [rewrite Hlen; now apply kept_le_limit|].
    split; [rewrite E; apply sortByTimestamp_ascending|].
    split.
    + rewrite E. intros Hin. apply (proj1 (sort_by_In Message.timestamp _ _)) in Hin.
      unfold lastn in Hin.
      match type of Hin with
      | In _ (skipn ?k ?h) => rewrite <- (firstn_skipn k h)
      end.
      apply in_or_app. now right.
    + rewrite E, (getRecentMessages_at_least_one st (Js.toLowerCase channel) limit Hl).
      now rewrite toLowerCase_twice.
  - intros z Hz.
    change (Some (JsNumber.whole z)) with (option_map JsNumber.whole (Some z)).
    rewrite (getRecentMessages_whole st channel (Some z)).
    destruct (getRecentMessages_positive st channel z Hz) as [E _].
    split; [exact E|]. rewrite E.
    unfold MessageStore.sortByTimestamp. rewrite sort_by_length, length_lastn. lia.
  - intros Hlo Hhi. apply getRecentMessages_below_one; [|exact Hhi].
    destruct limit as [[n d]| | |]; try discriminate.
    unfold JsNumber.ltb, JsNumber.whole, QArith_base.Qle_bool in *.
    cbn [QArith_base.Qnum QArith_base.Qden QArith_base.inject_Z] in *.
    apply negb_true_iff, Z.leb_gt in Hlo. apply negb_true_iff, Z.leb_gt. lia.
Qed.

Lemma getRecentMessages_positive_limit_witness :
  JsNumber.leb (JsNumber.whole 1) (JsNumber.Finite (QArith_base.Qmake 7 2)) = true
  /\ AnyNumber.getRecentMessages Sample.five "Foo"
       (Some (JsNumber.Finite (QArith_base.Qmake 7 2)))
     = [Sample.m3; Sample.m4; Sample.m5]
  /\ AnyNumber.getRecentMessages Sample.five "Foo" (Some (JsNumber.whole 3))
     = [Sample.m3; Sample.m4; Sample.m5]
  /\ AnyNumber.getRecentMessages Sample.five "Foo" (Some half)
     = [Sample.m1; Sample.m2; Sample.m3; Sample.m4; Sample.m5].
Proof.
  split; [reflexivity|].
  destruct (getRecentMessages_positive_limit Sample.five "Foo"
              (JsNumber.Finite (QArith_base.Qmake 7 2)) Sample.m1) as (Hone & _ & _).
  destruct (getRecentMessages_positive_limit Sample.five "Foo"
              half Sample.m1) as (_ & Hwhole & Hbelow).
  split; [|split].
  - destruct (Hone eq_refl) as [H _]. rewrite H. reflexivity.
  - destruct (Hwhole 3 ltac:(lia)) as [H _]. rewrite H. reflexivity.
  - rewrite (Hbelow eq_refl eq_refl). reflexivity.
Defined.

(* ===================================================================== *)
(** * Further properties of the Twitch client                             *)
(* ===================================================================== *)

Lemma lastn_snoc {A : Type} (l : list A) (x : A) : lastn 1 (l ++ [x]) = [x].
Proof.
  unfold lastn. rewrite length_app. simpl.
  replace (List.length l + 1 - 1)%nat with (List.length l) by lia.
  rewrite skipn_app, skipn_all, Nat.sub_diag. reflexivity.
Qed.

(** X9. A chat message of somebody else is stored under the channel name
    without its ['#'], stamped with the time of arrival, with the display
    name, else the login name, else "anonymous" as its user; when the
    bound of the store is at least 1 it is from then on the most recent
    message of its channel. A message of the bot itself changes nothing,
    and no other input (event, method call or timer) changes the store. *)
Theorem message_event_is_stored
  (w : World.t) (channel message generatedId : string) (userstate : Userstate)
  (now : Z) (i : Input) :
  1 <= MessageStore.maxMessagesPerChannel (World.store w) ->
  MessageStore.getRecentMessages
    (World.store (World.step w (EvMessage channel userstate message false now generatedId)))
    (Js.replace_hash channel) (Some 1)
  = [messageOf channel userstate message now generatedId]
  /\ World.client (World.step w (EvMessage channel userstate message false now generatedId))
     = World.client w
  /\ World.trace (World.step w (EvMessage channel userstate message false now generatedId))
     = World.trace w
  /\ World.step w (EvMessage channel userstate message true now generatedId) = w
  /\ (isForeignMessage i = false -> World.store (World.step w i) = World.store w).
Proof.
  intros Hb. split; [|split; [reflexivity|split; [reflexivity|split]]].
  - cbn [World.step World.store]. unfold TwitchClient.onMessage.
    fold (messageOf channel userstate message now generatedId).
    destruct (getRecentMessages_positive
                (MessageStore.addMessage (World.store w)
                   (messageOf channel userstate message now generatedId))
                (Js.replace_hash channel) 1) as [-> _]; [lia|].
    change (Js.replace_hash channel)
      with (Message.channel (messageOf channel userstate message now generatedId)).
    rewrite addMessage_history, prune_lastn by lia.
    unfold lastn at 2. rewrite lastn_skipn.
    + now rewrite lastn_snoc.
    + rewrite length_app. simpl. lia.
  - destruct w. reflexivity.
  - intros Hi. destruct w as [[chs conn att] st pend tr].
    destruct i; try reflexivity; cbn [World.step].
    + unfold TwitchClient.onDisconnected. cbn.
      destruct (att <? TwitchClient.maxReconnectAttempts); reflexivity.
    + destruct self; [reflexivity|discriminate].
    + unfold TwitchClient.connect. cbn. destruct conn; reflexivity.
    + unfold TwitchClient.disconnect. cbn. destruct conn; cbn; [destruct o|]; reflexivity.
    + unfold TwitchClient.sendMessage. cbn. destruct conn; reflexivity.
    + destruct pend; [reflexivity|].
      unfold TwitchClient.reconnectCallback, TwitchClient.connect. cbn.
      destruct conn; reflexivity.
Qed.

Lemma message_event_is_stored_witness :
  1 <= MessageStore.maxMessagesPerChannel (World.store Sample.connectedWorld)
  /\ MessageStore.getRecentMessages
       (World.store
          (World.step Sample.connectedWorld
             (EvMessage "#foo" (mkUserstate None (Some "") None []) "hi" false 42 "42-abc")))
       "foo" (Some 1)
     = [Message.mk "42-abc" "foo" "anonymous" "hi" 42 []].
Proof.
  split; [vm_compute; discriminate|].
  destruct (message_event_is_stored Sample.connectedWorld "#foo" "hi" "42-abc"
              (mkUserstate None (Some "") None []) 42 EvReconnect) as [H _].
  - vm_compute. discriminate.
  - exact H.
Defined.

(** ** Channel names *)

Lemma lower_ascii_hash (a : ascii) :
  Ascii.eqb (Js.lower_ascii a) "#"%char = Ascii.eqb a "#"%char.
Proof.
  destruct a as [[] [] [] [] [] [] [] []]; reflexivity.
Qed.

Lemma startsWith_hash (s : string) :
  Js.startsWith s "#" = match s with
                        | String a _ => Ascii.eqb a "#"%char
                        | EmptyString => false
                        end.
Proof.
  unfold Js.startsWith. destruct s as [|a s]; [reflexivity|].
  destruct a as [[] [] [] [] [] [] [] []]; try reflexivity.
  now destruct s.
Qed.

Lemma startsWith_hash_lower (s : string) :
  Js.startsWith (Js.toLowerCase s) "#" = Js.startsWith s "#".
Proof.
  rewrite !startsWith_hash. destruct s as [|a s]; simpl; [reflexivity|].
  apply lower_ascii_hash.
Qed.

(** X10. The name [joinChannel], [leaveChannel] and [sendMessage] hand to
    the transport always starts with ['#'], and a name that already does
    is passed unchanged; stripping the ['#'] the way the acknowledgment
    handlers do gives back a name that had none. So when the transport
    acknowledges the join of the name it was given, the channel asked for
    is among the joined channels, and when it acknowledges the part, it is
    not. *)
Theorem channel_name_round_trip
  (w : World.t) (channel username : string) (o o' : Outcome) :
  Js.startsWith (TwitchClient.channelNameOf channel) "#" = true
  /\ TwitchClient.channelNameOf (TwitchClient.channelNameOf channel)
     = TwitchClient.channelNameOf channel
  /\ (Js.startsWith channel "#" = false ->
      Js.replace_hash (TwitchClient.channelNameOf channel) = channel
      /\ In channel
           (TwitchClient.getChannels
              (World.client
                 (World.run w [CallJoinChannel channel o;
                               EvJoin (TwitchClient.channelNameOf channel) username true])))
      /\ ~ In channel
           (TwitchClient.getChannels
              (World.client
                 (World.run w [CallJoinChannel channel o;
                               EvJoin (TwitchClient.channelNameOf channel) username true;
                               CallLeaveChannel channel o';
                               EvPart (TwitchClient.channelNameOf channel) username true])))).
Proof.
  assert (Hstart : Js.startsWith (TwitchClient.channelNameOf channel) "#" = true).
  { unfold TwitchClient.channelNameOf. rewrite startsWith_hash_lower.
    destruct (Js.startsWith channel "#") eqn:E; [exact E|].
    rewrite startsWith_hash. reflexivity. }
  split; [exact Hstart|]. split.
  - unfold TwitchClient.channelNameOf at 1.
    now rewrite startsWith_hash_lower, Hstart.
  - intros Hno.
    assert (Hstrip : Js.replace_hash (TwitchClient.channelNameOf channel) = channel).
    { unfold TwitchClient.channelNameOf. rewrite startsWith_hash_lower, Hno. reflexivity. }
    split; [exact Hstrip|].
    cbn [World.run fold_left]. unfold TwitchClient.getChannels.
    rewrite !step_channels, Hstrip. split.
    + apply JsSet_add_In. now left.
    + intros Hin. apply JsSet_delete_In in Hin. tauto.
Qed.

Lemma channel_name_round_trip_witness :
  Js.startsWith "Foo" "#" = false
  /\ In "Foo"
       (TwitchClient.getChannels
          (World.client
             (World.run Sample.connectedWorld
                [CallJoinChannel "Foo" Resolved; EvJoin "#Foo" "bot" true]))).
Proof.
  split; [reflexivity|].
  destruct (channel_name_round_trip Sample.connectedWorld "Foo" "bot" Resolved Resolved)
    as (_ & _ & H).
  destruct (H eq_refl) as (_ & Hin & _). exact Hin.
Defined.

(** ** Timers and the transport over whole runs *)

(** One input: timers fire at most as often as they were set, a message
    goes to the transport only while the client is marked connected, and
    only a ['connected'] event marks it connected. *)
Lemma step_timers_and_says (w : World.t) (i : Input) :
  (Z.of_nat (World.pendingTimers (World.step w i)) - Z.of_nat (World.pendingTimers w)
   <= Z.of_nat (World.scheduled (World.step w i)) - Z.of_nat (World.scheduled w))
  /\ (TwitchClient.connected (World.client w) = false ->
      says (World.trace (World.step w i)) = says (World.trace w))
  /\ (World.isEvConnected i = false ->
      TwitchClient.connected (World.client w) = false ->
      TwitchClient.connected (World.client (World.step w i)) = false).
Proof.
  destruct w as [c st pend tr]. destruct c as [chs conn att].
  unfold World.scheduled, World.timersIn, says.
  destruct i;
    unfold World.step, World.after, World.timersIn,
      TwitchClient.onDisconnected, TwitchClient.onJoin, TwitchClient.onPart,
      TwitchClient.onConnected, TwitchClient.onConnecting, TwitchClient.onReconnect,
      TwitchClient.reconnectCallback, TwitchClient.connect, TwitchClient.disconnect,
      TwitchClient.sendMessage, TwitchClient.joinChannel, TwitchClient.leaveChannel;
    cbn [World.client World.trace World.pendingTimers TwitchClient.connected
         TwitchClient.reconnectAttempts negb World.isEvConnected];
    (split; [|split]); intros;
    cbn [World.client TwitchClient.connected World.isEvConnected] in *;
    try discriminate; subst; cbn [negb];
    repeat match goal with
      | H : true = false |- _ => discriminate H
      | |- context [if ?b then _ else _] => destruct b
      | |- context [match ?o with Resolved => _ | Rejected _ => _ end] => destruct o
      | |- context [match ?p with O => _ | S _ => _ end] => destruct p
      end;
    cbn [World.client World.trace World.pendingTimers TwitchClient.connected negb];
    rewrite ?filter_app, ?length_app, ?app_nil_r;
    cbn [filter World.isSetTimeout isClientSay List.length app];
    try reflexivity; try lia; try discriminate.
Qed.

Lemma run_snoc (w : World.t) (inputs : list Input) (i : Input) :
  World.run w (inputs ++ [i]) = World.step (World.run w inputs) i.
Proof. unfold World.run. now rewrite fold_left_app. Qed.

(** X11. Over every run of a fresh client, whatever the events, calls and
    timers: at most 5 reconnection attempts are scheduled before the first
    ['connected'] event and after each one, so never more than
    [5 * (1 + number of 'connected' events)] in all; and the timers still
    pending are never more than the attempts scheduled. *)
Theorem scheduled_attempts_budget (options : TwitchClientOptions.t) (inputs : list Input) :
  Z.of_nat (World.scheduled (World.run (World.init options) inputs))
  <= TwitchClient.maxReconnectAttempts * (1 + Z.of_nat (connects inputs))
  /\ (World.pendingTimers (World.run (World.init options) inputs)
      <= World.scheduled (World.run (World.init options) inputs))%nat.
Proof.
  unfold TwitchClient.maxReconnectAttempts.
  assert (H : Z.of_nat (World.scheduled (World.run (World.init options) inputs))
              - TwitchClient.reconnectAttempts
                  (World.client (World.run (World.init options) inputs))
              <= 5 * Z.of_nat (connects inputs)
              /\ (World.pendingTimers (World.run (World.init options) inputs)
                  <= World.scheduled (World.run (World.init options) inputs))%nat).
  { induction inputs as [|i inputs IH] using rev_ind.
    - cbn. split; lia.
    - rewrite run_snoc. destruct IH as [IH1 IH2].
      pose proof (attempts_in_range options inputs) as Hr.
      unfold TwitchClient.maxReconnectAttempts in Hr.
      set (w := World.run (World.init options) inputs) in *.
      pose proof (step_attempts w i) as Hstep. cbv zeta in Hstep.
      unfold TwitchClient.maxReconnectAttempts in Hstep.
      destruct (step_timers_and_says w i) as (Ht & _ & _).
      assert (Hc : connects (inputs ++ [i])
                   = (connects inputs + (if World.isEvConnected i then 1 else 0))%nat).
      { unfold connects. rewrite filter_app, length_app. cbn [filter].
        destruct (World.isEvConnected i); reflexivity. }
      rewrite Hc.
      destruct i; cbn [World.isEvConnected] in *;
        try (destruct Hstep as [Ha Hs]; rewrite Ha, Hs in *; split; lia).
      destruct (Z.ltb_spec (TwitchClient.reconnectAttempts (World.client w)) 5);
        destruct Hstep as [Ha Hs]; rewrite Ha, Hs in *; split; lia. }
  destruct H as [H1 H2]. split; [|exact H2].
  pose proof (attempts_in_range options inputs) as Hr.
  unfold TwitchClient.maxReconnectAttempts in Hr. lia.
Qed.

(** X12. Before the first ['connected'] event nothing is ever sent: over
    every run of a fresh client without such an event, whatever the
    method calls and however the transport settles them, the client is
    not marked connected and no message has been handed to the
    transport. *)
Theorem nothing_sent_before_connected
  (options : TwitchClientOptions.t) (inputs : list Input) :
  World.noConnected inputs = true ->
  TwitchClient.isConnected (World.client (World.run (World.init options) inputs)) = false
  /\ says (World.trace (World.run (World.init options) inputs)) = [].
Proof.
  intros Hno. unfold TwitchClient.isConnected.
  induction inputs as [|i inputs IH] using rev_ind.
  - split; reflexivity.
  - unfold World.noConnected in *. rewrite forallb_app in Hno.
    apply andb_true_iff in Hno. destruct Hno as [Hinputs Hi].
    cbn [forallb] in Hi. rewrite andb_true_r in Hi. apply negb_true_iff in Hi.
    destruct (IH Hinputs) as [Hc Hs]. rewrite run_snoc.
    destruct (step_timers_and_says (World.run (World.init options) inputs) i)
      as (_ & Hsay & Hconn).
    split; [now apply Hconn|]. now rewrite Hsay.
Qed.

Lemma nothing_sent_before_connected_witness :
  World.noConnected
    [CallConnect Resolved; CallSendMessage "foo" "hi" Resolved; Sample.drop;
     TimerFires Resolved; CallSendMessage "foo" "again" Resolved] = true
  /\ says (World.trace
             (World.run (World.init Sample.options)
                [CallConnect Resolved; CallSendMessage "foo" "hi" Resolved; Sample.drop;
                 TimerFires Resolved; CallSendMessage "foo" "again" Resolved])) = [].
Proof.
  split; [reflexivity|].
  destruct (nothing_sent_before_connected Sample.options
              [CallConnect Resolved; CallSendMessage "foo" "hi" Resolved; Sample.drop;
               TimerFires Resolved; CallSendMessage "foo" "again" Resolved]) as [_ H].
  - reflexivity.
  - exact H.
Defined.

(* ===================================================================== *)
(** * Properties of the other tools                                       *)
(* ===================================================================== *)

(** X13. The [sendMessage] and [joinChannel] tools never change the state
    of the client and always answer with one text block. The answer of
    [sendMessage] is an error exactly when the client is not marked
    connected or the transport rejects the message; when it is not
    connected nothing is handed to the transport and the text is
    "Error sending message: Not connected to Twitch IRC". The answer of
    [joinChannel] is an error exactly when the transport rejects the
    join: the tool asks the transport whether connected or not. *)
Theorem send_and_join_tools
  (client : TwitchClient.t) (channel text : string) (o : Outcome) :
  snd (fst (McpTools.sendMessageTool client channel text o)) = client
  /\ snd (fst (McpTools.joinChannelTool client channel o)) = client
  /\ List.length (McpServer.content (fst (fst (McpTools.sendMessageTool client channel text o))))
     = 1%nat
  /\ List.length (McpServer.content (fst (fst (McpTools.joinChannelTool client channel o))))
     = 1%nat
  /\ (McpServer.isError (fst (fst (McpTools.sendMessageTool client channel text o))) = true
      <-> TwitchClient.isConnected client = false \/ exists e, o = Rejected e)
  /\ (TwitchClient.isConnected client = false ->
      McpTools.sendMessageTool client channel text o
      = (McpServer.failure "Error sending message: Not connected to Twitch IRC", client, []))
  /\ (McpServer.isError (fst (fst (McpTools.joinChannelTool client channel o))) = true
      <-> exists e, o = Rejected e)
  /\ snd (McpTools.joinChannelTool client channel o)
     = [ClientJoin (TwitchClient.channelNameOf channel)].
Proof.
  unfold McpTools.sendMessageTool, McpTools.joinChannelTool, TwitchClient.sendMessage,
    TwitchClient.joinChannel, TwitchClient.isConnected.
  destruct (TwitchClient.connected client) eqn:Hc; destruct o as [|e]; cbn;
    repeat split; try reflexivity; try discriminate; intros;
    repeat match goal with
      | H : _ \/ _ |- _ => destruct H
      | H : exists _, _ |- _ => destruct H
      end;
    try discriminate; eauto.
Qed.

Lemma length_paginate (f : MessageFilter.t) (l : list Message.t) :
  (List.length (MessageStore.paginate f l) <= List.length l)%nat.
Proof.
  unfold MessageStore.paginate.
  destruct (MessageFilter.page f), (MessageFilter.pageSize f); auto.
  unfold Js.slice. rewrite length_firstn, length_skipn. lia.
Qed.

Lemma length_filter_le {A : Type} (p : A -> bool) (l : list A) :
  (List.length (filter p l) <= List.length l)%nat.
Proof.
  induction l as [|x l IH]; simpl; [lia|]. destruct (p x); simpl; lia.
Qed.

(** X14. The [filterMessages] tool never answers with an error and always
    with one text block; it leaves the keys and every count of the store
    as they were; and the number of messages it shows (the "showing N of
    M" of a paginated answer, where M is the count of the channel asked
    for, or of all channels) is never more than that count. *)
Theorem filterMessagesTool_envelope
  (newDate : string -> Js.Date) (toISOString numberToString : Z -> string)
  (store : MessageStore.t) (args : McpServer.FilterArgs) (channel : option string) :
  McpServer.isError
    (fst (McpServer.filterMessagesTool newDate toISOString numberToString store args)) = false
  /\ List.length
       (McpServer.content
          (fst (McpServer.filterMessagesTool newDate toISOString numberToString store args)))
     = 1%nat
  /\ snd (McpServer.filterMessagesTool newDate toISOString numberToString store args)
     = snd (MessageStore.filterMessages store (McpServer.filterOf newDate args))
  /\ MessageStore.getMessageCount
       (snd (McpServer.filterMessagesTool newDate toISOString numberToString store args))
       channel
     = MessageStore.getMessageCount store channel
  /\ Z.of_nat (List.length
                 (fst (MessageStore.filterMessages store (McpServer.filterOf newDate args))))
     <= MessageStore.getMessageCount
          (snd (McpServer.filterMessagesTool newDate toISOString numberToString store args))
          (McpServer.channel args).
Proof.
  assert (Hsnd : snd (McpServer.filterMessagesTool newDate toISOString numberToString
                        store args)
                 = snd (MessageStore.filterMessages store (McpServer.filterOf newDate args))).
  { unfold McpServer.filterMessagesTool, McpServer.filterMessagesBody.
    destruct (MessageStore.filterMessages store (McpServer.filterOf newDate args))
      as [messages store'].
    destruct (List.length messages =? 0)%nat; reflexivity. }
  assert (Hcount : forall ch,
             MessageStore.getMessageCount
               (snd (MessageStore.filterMessages store (McpServer.filterOf newDate args))) ch
             = MessageStore.getMessageCount store ch).
  { intros ch. apply getMessageCount_after_filter. }
  split; [|split; [|split; [exact Hsnd|split]]].
  - unfold McpServer.filterMessagesTool, McpServer.filterMessagesBody.
    destruct (MessageStore.filterMessages store (McpServer.filterOf newDate args))
      as [messages store'].
    destruct (List.length messages =? 0)%nat; reflexivity.
  - unfold McpServer.filterMessagesTool, McpServer.filterMessagesBody.
    destruct (MessageStore.filterMessages store (McpServer.filterOf newDate args))
      as [messages store'].
    destruct (List.length messages =? 0)%nat; reflexivity.
  - rewrite Hsnd. apply Hcount.
  - rewrite Hsnd, Hcount, getMessageCount_as_history, filterMessages_fst.
    apply inj_le.
    etransitivity; [apply length_paginate|].
    unfold filteredSequence, MessageStore.sortByTimestamp.
    rewrite sort_by_length. apply length_filter_le.
Qed.

(** X15. What the [getRecentMessages] tool answers, in terms of the store,
    for a limit that is at least 1 (10 when left out; any number, a limit
    that is not whole counting as its whole part): "No messages found in
    channel #c" when the channel holds nothing, and otherwise the header
    followed by one line per message for the last messages of the
    channel, as many as the whole part of the limit (all of them if there
    are fewer), oldest timestamp first. It is never an error. *)
Theorem getRecentMessagesTool_answer
  (toISOString : Z -> string) (store : MessageStore.t) (channel : string)
  (limit : option JsNumber.t) :
  JsNumber.leb (JsNumber.whole 1)
    match limit with Some n => n | None => JsNumber.whole 10 end = true ->
  McpTools.getRecentMessagesTool toISOString store channel limit
  = match MessageStore.channelHistory store (Js.toLowerCase channel) with
    | [] => McpServer.success (String.append "No messages found in channel #" channel)
    | _ :: _ =>
        McpServer.success
          (String.concat ""
             ["Recent messages from #"; channel; ":"; McpServer.nl;
              McpServer.join McpServer.nl
                (map (McpTools.formatRecent toISOString)
                   (MessageStore.sortByTimestamp
                      (lastn (kept match limit with
                                   | Some n => n
                                   | None => JsNumber.whole 10
                                   end
                                (List.length
                                   (MessageStore.channelHistory store
                                      (Js.toLowerCase channel))))
                             (MessageStore.channelHistory store (Js.toLowerCase channel)))))])
    end.
Proof.
  intros Hl. unfold McpTools.getRecentMessagesTool.
  set (n := match limit with Some n => n | None => JsNumber.whole 10 end) in *.
  rewrite (getRecentMessages_at_least_one store channel n Hl).
  set (h := MessageStore.channelHistory store (Js.toLowerCase channel)).
  assert (Hlen : List.length (MessageStore.sortByTimestamp (lastn (kept n (List.length h)) h))
                 = kept n (List.length h)).
  { unfold MessageStore.sortByTimestamp. rewrite sort_by_length, length_lastn.
    pose proof (kept_le n (List.length h)). lia. }
  pose proof (kept_pos n (List.length h) Hl) as Hpos.
  rewrite <- Hlen in Hpos.
  destruct h as [|m h'] eqn:Eh.
  - reflexivity.
  - destruct (Nat.eqb_spec
                (List.length
                   (MessageStore.sortByTimestamp
                      (lastn (kept n (List.length (m :: h'))) (m :: h')))) 0)
      as [H0|_]; [|reflexivity].
    assert (0 < List.length (m :: h'))%nat by (simpl; lia).
    specialize (Hpos ltac:(assumption)). lia.
Qed.

Lemma getRecentMessagesTool_answer_witness :
  JsNumber.leb (JsNumber.whole 1) (JsNumber.Finite (QArith_base.Qmake 3 2)) = true
  /\ McpTools.getRecentMessagesTool Runtime.toISOString Sample.five "foo"
       (Some (JsNumber.Finite (QArith_base.Qmake 3 2)))
     = McpServer.success
         (String.concat McpServer.nl
            ["Recent messages from #foo:"; "[1970-01-01T00:00:05.000Z] ANN: HELLO"]).
Proof.
  split; [reflexivity|].
  rewrite (getRecentMessagesTool_answer Runtime.toISOString Sample.five "foo"
             (Some (JsNumber.Finite (QArith_base.Qmake 3 2))));
    reflexivity.
Defined.

(* ===================================================================== *)
(** * Properties of the logger                                            *)
(* ===================================================================== *)

Lemma lower_ascii_idem (a : ascii) : Js.lower_ascii (Js.lower_ascii a) = Js.lower_ascii a.
Proof. destruct a as [[] [] [] [] [] [] [] []]; reflexivity. Qed.

Lemma toLowerCase_idem (s : string) : Js.toLowerCase (Js.toLowerCase s) = Js.toLowerCase s.
Proof.
  induction s as [|a s IH]; simpl; [reflexivity|].
  now rewrite lower_ascii_idem, IH.
Qed.

(** After lower-casing, the only inherited members a level name can hit
    are [constructor] and [__proto__]. *)
Lemma inherited_names (configuredLevel : string) :
  Logger.LOG_LEVEL_MAP (Js.toLowerCase configuredLevel) = Logger.Inherited
  <-> Js.toLowerCase configuredLevel = "constructor"
      \/ Js.toLowerCase configuredLevel = "__proto__".
Proof.
  pose proof (toLowerCase_idem configuredLevel) as Hidem.
  set (n := Js.toLowerCase configuredLevel) in *.
  split.
  - unfold Logger.LOG_LEVEL_MAP.
    repeat match goal with
      | |- context [String.eqb n ?k] =>
          destruct (String.eqb_spec n k) as [Hk|_]; [discriminate|]
      end.
    unfold Logger.objectPrototypeNames. cbn [existsb].
    repeat match goal with
      | |- context [String.eqb n ?k] =>
          destruct (String.eqb_spec n k) as [Hk|_];
          [ first [ now left | now right | rewrite Hk in Hidem; discriminate Hidem ] |]
      end.
    discriminate.
  - intros [-> | ->]; reflexivity.
Qed.

(** X16. The level threshold. For a configured level name, read whatever
    its case, that is not [constructor] or [__proto__]: a method writes
    exactly when its severity is not above the configured level, where a
    name the map does not have counts as [info]; what it writes is the one
    line "[TAG] message" ended by a newline; and errors are always
    written. For the two names excepted the level read from the map is
    not a number and nothing is written at all, errors included. *)
Theorem logger_threshold
  (configuredLevel : string) (argv : list string) (envMcpMode : option string)
  (severity : Logger.LogLevel) (message : Logger.LogMessage) :
  (Js.toLowerCase configuredLevel <> "constructor" /\
   Js.toLowerCase configuredLevel <> "__proto__" ->
   (Logger.log (Logger.constructor configuredLevel argv envMcpMode) severity message <> []
    <-> Logger.value severity <= Logger.value (effectiveLevel configuredLevel))
   /\ (Logger.value severity <= Logger.value (effectiveLevel configuredLevel) ->
       map snd (Logger.log (Logger.constructor configuredLevel argv envMcpMode)
                  severity message)
       = [String.concat ""
            ["["; tagOf severity; "] "; Logger.formatMessage message; McpServer.nl]])
   /\ Logger.error (Logger.constructor configuredLevel argv envMcpMode) message <> [])
  /\ (Js.toLowerCase configuredLevel = "constructor" \/
      Js.toLowerCase configuredLevel = "__proto__" ->
      Logger.log (Logger.constructor configuredLevel argv envMcpMode) severity message = [])
  /\ Logger.constructor (Js.toLowerCase configuredLevel) argv envMcpMode
     = Logger.constructor configuredLevel argv envMcpMode.
Proof.
  split; [|split].
  - intros [H1 H2].
    assert (Hni : Logger.LOG_LEVEL_MAP (Js.toLowerCase configuredLevel) <> Logger.Inherited).
    { intros H. apply inherited_names in H. tauto. }
    assert (Hlevel : Logger.currentLevel (Logger.constructor configuredLevel argv envMcpMode)
                     = Logger.Num (Logger.value (effectiveLevel configuredLevel))).
    { unfold Logger.constructor, effectiveLevel. cbn [Logger.currentLevel].
      destruct (Logger.LOG_LEVEL_MAP (Js.toLowerCase configuredLevel));
        [reflexivity | contradiction | reflexivity]. }
    assert (Hat : forall l,
               Logger.atLeast (Logger.constructor configuredLevel argv envMcpMode) l
               = (Logger.value l <=? Logger.value (effectiveLevel configuredLevel))).
    { intros l. unfold Logger.atLeast. now rewrite Hlevel. }
    split; [|split].
    + destruct severity; cbn [Logger.log]; unfold Logger.error, Logger.warn, Logger.info,
        Logger.debug, Logger.write; rewrite Hat;
        match goal with
        | |- context [?a <=? ?b] => destruct (Z.leb_spec a b) as [Hle|Hgt]
        end;
        (split; [intros Hw; try lia; now contradiction Hw | intros Hv; try lia]);
        destruct (Logger.isMcpMode _); discriminate.
    + intros Hle. apply Z.leb_le in Hle.
      destruct severity; cbn [Logger.log]; unfold Logger.error, Logger.warn, Logger.info,
        Logger.debug, Logger.write; rewrite Hat, Hle;
        destruct (Logger.isMcpMode _); reflexivity.
    + unfold Logger.error, Logger.write. rewrite Hat.
      assert (Hz : (Logger.value Logger.ERROR
                    <=? Logger.value (effectiveLevel configuredLevel)) = true).
      { apply Z.leb_le. destruct (effectiveLevel configuredLevel); cbn; lia. }
      rewrite Hz. destruct (Logger.isMcpMode _); discriminate.
  - intros H. apply inherited_names in H.
    assert (Hat : forall l,
               Logger.atLeast (Logger.constructor configuredLevel argv envMcpMode) l = false).
    { intros l. unfold Logger.atLeast, Logger.constructor. cbn [Logger.currentLevel].
      now rewrite H. }
    destruct severity; cbn [Logger.log]; unfold Logger.error, Logger.warn, Logger.info,
      Logger.debug, Logger.write; now rewrite Hat.
  - unfold Logger.constructor. now rewrite toLowerCase_idem.
Qed.

Lemma logger_threshold_witness :
  (Js.toLowerCase "WARN" <> "constructor" /\ Js.toLowerCase "WARN" <> "__proto__")
  /\ Logger.log (Logger.constructor "WARN" ["node"; "index.js"] None) Logger.INFO
       (Logger.Text "hello") = []
  /\ map snd (Logger.log (Logger.constructor "WARN" ["node"; "index.js"] None) Logger.ERROR
                (Logger.Err "boom" "Error" None))
     = [String.append "[ERROR] boom (Error)" McpServer.nl]
  /\ Logger.error (Logger.constructor "Constructor" [] None) (Logger.Text "lost") = [].
Proof.
  assert (Hn : Js.toLowerCase "WARN" <> "constructor" /\ Js.toLowerCase "WARN" <> "__proto__")
    by (split; discriminate).
  destruct (logger_threshold "WARN" ["node"; "index.js"] None Logger.ERROR
              (Logger.Err "boom" "Error" None)) as (Hw & _ & _).
  destruct (Hw Hn) as (_ & Hline & _).
  destruct (logger_threshold "Constructor" [] None Logger.ERROR (Logger.Text "lost"))
    as (_ & Hsilent & _).
  split; [exact Hn|]. split; [reflexivity|].
  split; [apply Hline; vm_compute; discriminate|].
  apply Hsilent. now left.
Defined.

(** X17. Where the logger writes. Unless [--http] is among the arguments
    while [--mcp] is not and [MCP_MODE] is not "true", every line goes to
    stderr, so nothing of the logger reaches stdout, where the JSON-RPC
    stream is. In that remaining case errors and warnings still go to
    stderr and only info and debug lines go to stdout. *)
Theorem logger_streams
  (configuredLevel : string) (argv : list string) (envMcpMode : option string)
  (severity : Logger.LogLevel) (message : Logger.LogMessage) (stream : Logger.Stream)
  (line : string) :
  In (stream, line)
     (Logger.log (Logger.constructor configuredLevel argv envMcpMode) severity message) ->
  (~ In "--http" argv \/ In "--mcp" argv \/ envMcpMode = Some "true" ->
   stream = Logger.Stderr)
  /\ (severity = Logger.ERROR \/ severity = Logger.WARN -> stream = Logger.Stderr)
  /\ (In "--http" argv -> ~ In "--mcp" argv -> envMcpMode <> Some "true" ->
      severity = Logger.INFO \/ severity = Logger.DEBUG -> stream = Logger.Stdout).
Proof.
  intros Hin.
  assert (Hmode : Logger.isMcpMode (Logger.constructor configuredLevel argv envMcpMode) = true
                  <-> (~ In "--http" argv \/ In "--mcp" argv \/ envMcpMode = Some "true")).
  { unfold Logger.constructor. cbn [Logger.isMcpMode].
    rewrite !orb_true_iff, negb_true_iff.
    assert (Hex : forall x, existsb (String.eqb x) argv = true <-> In x argv).
    { intros x. rewrite existsb_exists. split.
      - intros (y & Hy & E). apply String.eqb_eq in E. now subst.
      - intros Hx. exists x. split; [exact Hx | apply String.eqb_refl]. }
    assert (Hnex : existsb (String.eqb "--http") argv = false <-> ~ In "--http" argv).
    { rewrite <- Hex. destruct (existsb (String.eqb "--http") argv); split;
        intros; try discriminate; try reflexivity. exfalso. auto. }
    rewrite Hex, Hnex.
    assert (Henv : match envMcpMode with
                   | Some v => String.eqb v "true"
                   | None => false
                   end = true <-> envMcpMode = Some "true").
    { destruct envMcpMode as [v|]; [|split; discriminate].
      rewrite String.eqb_eq. split; [now intros -> | now intros [= ->]]. }
    rewrite Henv. tauto. }
  assert (Hstream : stream = if Logger.isMcpMode
                                  (Logger.constructor configuredLevel argv envMcpMode)
                             then Logger.Stderr
                             else match severity with
                                  | Logger.ERROR | Logger.WARN => Logger.Stderr
                                  | Logger.INFO | Logger.DEBUG => Logger.Stdout
                                  end).
  { destruct severity; cbn [Logger.log] in Hin;
      unfold Logger.error, Logger.warn, Logger.info, Logger.debug, Logger.write in Hin;
      destruct (Logger.atLeast _ _); try contradiction;
      destruct (Logger.isMcpMode _); destruct Hin as [[= <- _]|[]]; reflexivity. }
  split; [|split].
  - intros H. apply Hmode in H. now rewrite H in Hstream.
  - intros [-> | ->]; rewrite Hstream; destruct (Logger.isMcpMode _); reflexivity.
  - intros Hhttp Hmcp Henv Hsev.
    destruct (Logger.isMcpMode (Logger.constructor configuredLevel argv envMcpMode)) eqn:E.
    + destruct (proj1 Hmode eq_refl) as [H|[H|H]]; contradiction.
    + destruct Hsev as [-> | ->]; exact Hstream.
Qed.

Lemma logger_streams_witness :
  In (Logger.Stderr, String.append "[INFO] ready" McpServer.nl)
     (Logger.log (Logger.constructor "info" ["node"; "index.js"] None) Logger.INFO
        (Logger.Text "ready"))
  /\ ~ In "--http" ["node"; "index.js"]
  /\ Logger.Stderr = Logger.Stderr.
Proof.
  assert (H1 : In (Logger.Stderr, String.append "[INFO] ready" McpServer.nl)
                 (Logger.log (Logger.constructor "info" ["node"; "index.js"] None)
                    Logger.INFO (Logger.Text "ready"))) by (left; reflexivity).
  assert (H2 : ~ In "--http" ["node"; "index.js"])
    by (intros [H|[H|[]]]; discriminate).
  split; [exact H1|]. split; [exact H2|].
  destruct (logger_streams _ _ _ _ _ _ _ H1) as [Hs _].
  apply Hs. now left.
Defined.

(* ===================================================================== *)
(** * Properties of the configuration                                     *)
(* ===================================================================== *)

Lemma isMissing_false (env : Config.Env) (name : string) :
  Config.isMissing env name = false
  <-> exists v, env name = Some v /\ v <> "" /\ Js.or_else (env name) "" = v.
Proof.
  unfold Config.isMissing, Js.truthy_opt, Js.or_else, Js.truthy.
  rewrite negb_false_iff. destruct (env name) as [v|].
  - destruct (String.eqb_spec v "") as [->|Hne]; simpl.
    + split; [discriminate|]. intros (v & [= <-] & Hv & _). contradiction.
    + split; [|reflexivity]. intros _. now exists v.
  - split; [discriminate|]. intros (v & H & _). discriminate.
Qed.

(** X18. [getConfig] throws exactly when [TWITCH_USERNAME] or
    [TWITCH_OAUTH_TOKEN] is unset or empty, and its message names the
    variables that are missing, in that order. When it returns, the user
    name and the token are the values of the two variables and are not
    empty, the channel is the value of [TWITCH_CHANNEL] or empty, and the
    log level is never empty ("info" when [LOG_LEVEL] is unset or
    empty). *)
Theorem getConfig_contract
  (Number : Type) (parseInt10 : string -> Number) (env : Config.Env) :
  ((exists e, Config.getConfig parseInt10 env = inr e)
   <-> Config.isMissing env "TWITCH_USERNAME" = true
       \/ Config.isMissing env "TWITCH_OAUTH_TOKEN" = true)
  /\ (forall e, Config.getConfig parseInt10 env = inr e ->
      errorMessage e
      = String.concat ""
          ["Missing required environment variables: ";
           match Config.isMissing env "TWITCH_USERNAME",
                 Config.isMissing env "TWITCH_OAUTH_TOKEN" with
           | true, true => "TWITCH_USERNAME, TWITCH_OAUTH_TOKEN"
           | true, false => "TWITCH_USERNAME"
           | _, _ => "TWITCH_OAUTH_TOKEN"
           end;
           ". Please check your .env file."])
  /\ (forall config, Config.getConfig parseInt10 env = inl config ->
      env "TWITCH_USERNAME" = Some (Config.username (Config.twitch config))
      /\ Config.username (Config.twitch config) <> ""
      /\ env "TWITCH_OAUTH_TOKEN" = Some (Config.oauthToken (Config.twitch config))
      /\ Config.oauthToken (Config.twitch config) <> ""
      /\ Config.channel (Config.twitch config) = Js.or_else (env "TWITCH_CHANNEL") ""
      /\ Config.level config <> ""
      /\ (Js.truthy_opt (env "LOG_LEVEL") = false -> Config.level config = "info")).
Proof.
  unfold Config.getConfig, Config.validateConfig, Config.requiredVars.
  cbn [filter].
  destruct (Config.isMissing env "TWITCH_USERNAME") eqn:Eu;
    destruct (Config.isMissing env "TWITCH_OAUTH_TOKEN") eqn:Et; cbn.
  1-3: (split; [split; [auto | intros _; eexists; reflexivity]|]);
       (split; [now intros e [= <-] | intros config H; discriminate H]).
  split; [split; [intros (e & H); discriminate H | intros [H|H]; discriminate H]|].
  split; [intros e H; discriminate H|].
  intros config [= <-]. cbn.
  apply isMissing_false in Eu. destruct Eu as (u & Hu & Hune & Huo).
  apply isMissing_false in Et. destruct Et as (t & Ht & Htne & Hto).
  rewrite Huo, Hto.
  repeat split; auto.
  - unfold Js.or_else. destruct (env "LOG_LEVEL") as [l|]; [|discriminate].
    unfold Js.truthy. destruct (String.eqb_spec l ""); simpl; [discriminate|assumption].
  - unfold Js.truthy_opt, Js.or_else. destruct (env "LOG_LEVEL") as [l|]; [|reflexivity].
    now intros ->.
Qed.

(** X19. The client singleton built from a configuration that loaded: its
    joined channels are the lower-cased [TWITCH_CHANNEL] alone, or none
    when that variable is unset or empty; it is not marked connected and
    its attempt counter is 0. *)
Theorem singleton_client_from_config
  (Number : Type) (parseInt10 : string -> Number) (env : Config.Env)
  (config : Config.t Number) :
  Config.getConfig parseInt10 env = inl config ->
  TwitchClient.getChannels (TwitchClient.constructor (Config.clientOptions config))
  = (if Js.truthy_opt (env "TWITCH_CHANNEL")
     then [Js.toLowerCase (Js.or_else (env "TWITCH_CHANNEL") "")]
     else [])
  /\ TwitchClient.isConnected (TwitchClient.constructor (Config.clientOptions config)) = false
  /\ TwitchClient.reconnectAttempts (TwitchClient.constructor (Config.clientOptions config))
     = 0.
Proof.
  intros H.
  assert (Hc : Config.channel (Config.twitch config) = Js.or_else (env "TWITCH_CHANNEL") "").
  { unfold Config.getConfig in H. destruct (Config.validateConfig env); [discriminate|].
    injection H as <-. reflexivity. }
  unfold Config.clientOptions, TwitchClient.constructor, TwitchClient.getChannels,
    TwitchClient.isConnected.
  cbn [TwitchClientOptions.channels TwitchClient.channels TwitchClient.connected
       TwitchClient.reconnectAttempts].
  rewrite Hc. split; [|split; reflexivity].
  unfold Js.truthy_opt, Js.or_else.
  destruct (env "TWITCH_CHANNEL") as [c|]; [|reflexivity].
  destruct (Js.truthy c) eqn:E; [rewrite E|]; reflexivity.
Qed.

Lemma singleton_client_from_config_witness :
  TwitchClient.getChannels
    (TwitchClient.constructor
       (Config.clientOptions
          (Config.mk (Config.mkTwitch "bot" "oauth:abc" "CodingButter") "3000" "info")))
  = ["codingbutter"].
Proof.
  destruct (singleton_client_from_config string (fun port => port)
              (fun name =>
                 if String.eqb name "TWITCH_USERNAME" then Some "bot"
                 else if String.eqb name "TWITCH_OAUTH_TOKEN" then Some "oauth:abc"
                 else if String.eqb name "TWITCH_CHANNEL" then Some "CodingButter"
                 else None)
              (Config.mk (Config.mkTwitch "bot" "oauth:abc" "CodingButter") "3000" "info"))
    as [H _].
  - reflexivity.
  - exact H.
Defined.
